(** * Elevate music backend: the music controller

    A shallow embedding of [controllers/musicController.js] and of the
    properties its specification states about it.

    Modelling conventions.
    - A JavaScript string is a [string]; each [ascii] stands for one
      UTF-16 code unit in the range 0..255, so [String.length] is the
      JavaScript [length].
    - A dynamically typed value (a field of [req.body], a field of a
      Mongoose document) is a [jsval].
    - The handlers run against an explicit [world]: the Music collection,
      the Category collection, the upload directory and a log of the
      filesystem calls performed.
    - Library code the controller calls but does not define (the ObjectId
      parser, sanitize-html, the WHATWG URL parser, [Number], [Date], id
      generation) is collected in the [Externals] class.
    - The Mongoose schema of [Music] is not among the sources: a document
      holds the values the controller assigned, without schema casting.
    - The database answers every query; paths are POSIX paths. *)

From Stdlib Require Import String Ascii List ZArith Bool Arith Lia DecimalString.
Import ListNotations.
Open Scope string_scope.

(** ** JavaScript values *)

Inductive jsval : Type :=
| JUndefined
| JNull
| JBool (b : bool)
| JNum (n : Z)
| JNaN
| JStr (s : string)
| JObject.

(** ToBoolean: the falsy values are undefined, null, false, 0, NaN and
    the empty string. *)
Definition truthy (v : jsval) : bool :=
  match v with
  | JUndefined | JNull | JNaN => false
  | JBool b => b
  | JNum n => negb (Z.eqb n 0)
  | JStr s => negb (String.eqb s "")
  | JObject => true
  end.

(** [a || b] *)
Definition js_or (a b : jsval) : jsval := if truthy a then a else b.

(** A JavaScript object used as a record of optional fields: [req.body]. *)
Definition jsobject := list (string * jsval).

Fixpoint get (o : jsobject) (k : string) : jsval :=
  match o with
  | [] => JUndefined
  | (k', v) :: o' => if String.eqb k k' then v else get o' k
  end.

(** ** Strings *)

Definition slash : ascii := "/"%char.

Definition chars (s : string) : list ascii := list_ascii_of_string s.

(** [s.includes(t)] *)
Definition includes (s t : string) : bool :=
  match String.index 0 t s with Some _ => true | None => false end.

(** *** [path.basename] (POSIX)

    Node scans the path from its end: trailing separators are skipped,
    then characters are taken up to the next separator. *)

Fixpoint skip_separators (l : list ascii) : list ascii :=
  match l with
  | c :: l' => if Ascii.eqb c slash then skip_separators l' else l
  | [] => []
  end.

Fixpoint take_component (l : list ascii) : list ascii :=
  match l with
  | c :: l' => if Ascii.eqb c slash then [] else c :: take_component l'
  | [] => []
  end.

Definition basename (p : string) : string :=
  string_of_list_ascii
    (rev (take_component (skip_separators (rev (chars p))))).

(** [path.basename] applied to an arbitrary value: a non-string argument
    raises a TypeError, modelled by [None]. *)
Definition path_basename (v : jsval) : option string :=
  match v with
  | JStr s => Some (basename s)
  | _ => None
  end.

(** *** The filename sanitizer *)

Definition between (lo hi : nat) (c : ascii) : bool :=
  let n := nat_of_ascii c in Nat.leb lo n && Nat.leb n hi.

(** The character class [[a-zA-Z0-9._-]]. *)
Definition allowed_char (c : ascii) : bool :=
  between 97 122 c || between 65 90 c || between 48 57 c
  || Ascii.eqb c "."%char || Ascii.eqb c "_"%char || Ascii.eqb c "-"%char.

(** [/^[a-zA-Z0-9._-]+$/.test(s)] *)
Definition safe_name (s : string) : bool :=
  negb (String.eqb s "") && forallb allowed_char (chars s).

(** [None] is the JavaScript [null]. *)
Definition sanitizeFilename (filename : jsval) : option string :=
  match filename with
  | JStr s =>
      if negb (truthy filename) then None
      else
        let sanitized := basename s in
        if negb (safe_name sanitized) then None else Some sanitized
  | _ => None
  end.

(** *** [String.prototype.trim]

    White space and line terminators among the code units 0..255:
    TAB, LF, VT, FF, CR, SP and NBSP. *)

Definition is_space (c : ascii) : bool :=
  let n := nat_of_ascii c in
  (Nat.leb 9 n && Nat.leb n 13) || Nat.eqb n 32 || Nat.eqb n 160.

Fixpoint trim_start (l : list ascii) : list ascii :=
  match l with
  | c :: l' => if is_space c then trim_start l' else l
  | [] => []
  end.

Definition trim (s : string) : string :=
  string_of_list_ascii (rev (trim_start (rev (trim_start (chars s))))).

(** *** [String.prototype.replace] with a string pattern

    Only the first occurrence is replaced, and the replacement text is
    expanded: [$$] is a dollar sign, [$&] the matched text, [$`] the text
    before the match and [$'] the text after it.  A string pattern has no
    capture groups, so [$1] and the like stay as they are. *)

Fixpoint expand_replacement (matched before after : string)
         (r : list ascii) : string :=
  match r with
  | [] => ""
  | c :: r' =>
      if Ascii.eqb c "$"%char then
        match r' with
        | d :: r'' =>
            if Ascii.eqb d "$"%char then
              String "$"%char (expand_replacement matched before after r'')
            else if Ascii.eqb d "&"%char then
              matched ++ expand_replacement matched before after r''
            else if Ascii.eqb d "`"%char then
              before ++ expand_replacement matched before after r''
            else if Ascii.eqb d "'"%char then
              after ++ expand_replacement matched before after r''
            else String c (expand_replacement matched before after r')
        | [] => String c ""
        end
      else String c (expand_replacement matched before after r')
  end.

Definition replace (s pattern replacement : string) : string :=
  match String.index 0 pattern s with
  | None => s
  | Some i =>
      let before := substring 0 i s in
      let rest := i + String.length pattern in
      let after := substring rest (String.length s - rest) s in
      before ++ expand_replacement pattern before after (chars replacement)
             ++ after
  end.

(** ** Library code used by the controller *)

(** An ObjectId, written as its canonical string. *)
Definition oid := string.

Class Externals : Type := {
  (** [new mongoose.Types.ObjectId(v)]: [None] when the constructor
      throws.  [ObjectId.isValid(v)] says whether it would succeed. *)
  castObjectId : jsval -> option oid;
  (** [sanitizeHtml(s, { allowedTags: [], allowedAttributes: {} })] *)
  sanitizeHtml : string -> string;
  (** [new URL(s).hostname]: [None] when the constructor throws. *)
  urlHostname : string -> option string;
  (** [Number(v)] *)
  toNumber : jsval -> jsval;
  (** [new Date(v)] *)
  toDate : jsval -> jsval;
  (** The [_id] Mongoose gives to a document created in a collection
      that holds documents with these ids. *)
  freshId : list oid -> oid
}.

(** ** Data model *)

Record Music : Type := {
  _id : oid;
  title : jsval;
  artist : jsval;
  category : option oid;
  categoryType : option oid;
  fileUrl : jsval;
  thumbnailUrl : jsval;
  duration : jsval;
  releaseDate : jsval;
  user : jsval;
  description : jsval
}.

Definition set_title (v : jsval) (m : Music) : Music :=
  {| _id := _id m; title := v; artist := artist m; category := category m;
     categoryType := categoryType m; fileUrl := fileUrl m;
     thumbnailUrl := thumbnailUrl m; duration := duration m;
     releaseDate := releaseDate m; user := user m;
     description := description m |}.

Definition set_artist (v : jsval) (m : Music) : Music :=
  {| _id := _id m; title := title m; artist := v; category := category m;
     categoryType := categoryType m; fileUrl := fileUrl m;
     thumbnailUrl := thumbnailUrl m; duration := duration m;
     releaseDate := releaseDate m; user := user m;
     description := description m |}.

Definition set_category (v : option oid) (m : Music) : Music :=
  {| _id := _id m; title := title m; artist := artist m; category := v;
     categoryType := categoryType m; fileUrl := fileUrl m;
     thumbnailUrl := thumbnailUrl m; duration := duration m;
     releaseDate := releaseDate m; user := user m;
     description := description m |}.

Definition set_categoryType (v : option oid) (m : Music) : Music :=
  {| _id := _id m; title := title m; artist := artist m;
     category := category m; categoryType := v; fileUrl := fileUrl m;
     thumbnailUrl := thumbnailUrl m; duration := duration m;
     releaseDate := releaseDate m; user := user m;
     description := description m |}.

Definition set_fileUrl (v : jsval) (m : Music) : Music :=
  {| _id := _id m; title := title m; artist := artist m;
     category := category m; categoryType := categoryType m; fileUrl := v;
     thumbnailUrl := thumbnailUrl m; duration := duration m;
     releaseDate := releaseDate m; user := user m;
     description := description m |}.

Definition set_thumbnailUrl (v : jsval) (m : Music) : Music :=
  {| _id := _id m; title := title m; artist := artist m;
     category := category m; categoryType := categoryType m;
     fileUrl := fileUrl m; thumbnailUrl := v; duration := duration m;
     releaseDate := releaseDate m; user := user m;
     description := description m |}.

Definition set_duration (v : jsval) (m : Music) : Music :=
  {| _id := _id m; title := title m; artist := artist m;
     category := category m; categoryType := categoryType m;
     fileUrl := fileUrl m; thumbnailUrl := thumbnailUrl m; duration := v;
     releaseDate := releaseDate m; user := user m;
     description := description m |}.

Definition set_releaseDate (v : jsval) (m : Music) : Music :=
  {| _id := _id m; title := title m; artist := artist m;
     category := category m; categoryType := categoryType m;
     fileUrl := fileUrl m; thumbnailUrl := thumbnailUrl m;
     duration := duration m; releaseDate := v; user := user m;
     description := description m |}.

Definition set_description (v : jsval) (m : Music) : Music :=
  {| _id := _id m; title := title m; artist := artist m;
     category := category m; categoryType := categoryType m;
     fileUrl := fileUrl m; thumbnailUrl := thumbnailUrl m;
     duration := duration m; releaseDate := releaseDate m; user := user m;
     description := v |}.

(** A category owns a nested list of types. *)
Record CategoryType : Type := { t_id : oid; t_name : jsval }.

Record Category : Type := {
  c_id : oid;
  c_name : jsval;
  c_description : jsval;
  c_types : option (list CategoryType)
}.

(** The projection [{ _id, name, description }] of a category. *)
Record CategorySummary : Type := {
  s_id : oid;
  s_name : jsval;
  s_description : jsval
}.

Definition summary (c : Category) : CategorySummary :=
  {| s_id := c_id c; s_name := c_name c; s_description := c_description c |}.

(** ** The upload directory *)

Inductive node : Type := RegularFile | Directory.

Definition directory := list (string * node).

(** A filesystem call, with the name that [path.join(__dirname,
    '../uploads', name)] was built from. *)
Inductive fscall : Type :=
| ExistsSync (name : string)
| UnlinkSync (name : string).

Fixpoint lookup (d : directory) (name : string) : option node :=
  match d with
  | [] => None
  | (n, k) :: d' => if String.eqb name n then Some k else lookup d' name
  end.

Fixpoint remove_entry (d : directory) (name : string) : directory :=
  match d with
  | [] => []
  | (n, k) :: d' =>
      if String.eqb name n then remove_entry d' name
      else (n, k) :: remove_entry d' name
  end.

(** What [path.join(__dirname, '../uploads', name)] designates, for a
    name without separators: [..] is the directory above the upload
    directory, [.] the upload directory itself, anything else an entry of
    the upload directory. *)
Definition stat (d : directory) (name : string) : option node :=
  if String.eqb name ".." then Some Directory
  else if String.eqb name "." then Some Directory
  else lookup d name.

(** ** The world the handlers run in *)

Record world : Type := {
  musics : list Music;
  categories : list Category;
  uploads : directory;
  fslog : list fscall
}.

Definition with_musics (l : list Music) (w : world) : world :=
  {| musics := l; categories := categories w; uploads := uploads w;
     fslog := fslog w |}.

Definition with_uploads (d : directory) (calls : list fscall) (w : world)
  : world :=
  {| musics := musics w; categories := categories w; uploads := d;
     fslog := fslog w ++ calls |}.

(** ** Requests and responses *)

(** A file stored by the upload middleware. *)
Record upload : Type := { filename : string; fieldname : string }.

(** [req.files]: [file] is [req.files?.file?.[0]], [thumbnail] is
    [req.files?.thumbnail?.[0]]. *)
Record files : Type := { file : option upload; thumbnail : option upload }.

Record request : Type := {
  param : string;        (* req.params.id or req.params.categoryId *)
  body : jsobject;       (* req.body *)
  req_files : files;     (* req.files *)
  req_user : jsval       (* req.user._id *)
}.

(** One element of a list response. *)
Record MusicView : Type := {
  v_doc : Music;
  v_fileUrl : option string;
  v_thumbnailUrl : option string;
  v_category : option CategorySummary;
  v_categoryType : option CategoryType
}.

Inductive payload : Type :=
| Message (message : string)
| MissingFields (message : string) (missing : list string)
| ServerError
| Document (d : option (Music * option CategorySummary))
| Listing (l : list MusicView)
| MigrationFailure (message : string)
| MigrationReport (updatedCount : nat) (totalFound : option nat).

(** What leaves a handler that has no [catch]: an [Error] the handler
    made itself, or an exception of [path] or [fs]. *)
Inductive failure : Type :=
| ErrorMessage (message : string)
| Exception.

(** [Json s p] is [res.status(s).json(p)].  [Thrown s e] is a failure
    that leaves the handler and reaches the error middleware through
    [asyncHandler], [s] being the status set on the response so far
    (200 when none was set). *)
Inductive response : Type :=
| Json (status : nat) (p : payload)
| Thrown (status : nat) (e : failure).

Definition status_of (r : response) : nat :=
  match r with Json s _ => s | Thrown s _ => s end.

(** ** The collections *)

Definition findById (l : list Music) (i : oid) : option Music :=
  find (fun m => String.eqb (_id m) i) l.

Fixpoint findByIdAndDelete (l : list Music) (i : oid) : list Music :=
  match l with
  | [] => []
  | m :: l' =>
      if String.eqb (_id m) i then l' else m :: findByIdAndDelete l' i
  end.

(** [Music.findByIdAndUpdate(i, update)]: the first document with this
    id is changed. *)
Fixpoint findByIdAndUpdate (l : list Music) (i : oid)
         (update : Music -> Music) : list Music :=
  match l with
  | [] => []
  | m :: l' =>
      if String.eqb (_id m) i then update m :: l'
      else m :: findByIdAndUpdate l' i update
  end.

(** [music.save()] *)
Definition save (music : Music) (l : list Music) : list Music :=
  findByIdAndUpdate l (_id music) (fun _ => music).

(** The category document a populated [music.category] refers to. *)
Definition populate (w : world) (m : Music) : option Category :=
  match category m with
  | None => None
  | Some c => find (fun k => String.eqb (c_id k) c) (categories w)
  end.

(** [Music.findById(i).populate('category', 'name description')] *)
Definition findPopulated (w : world) (i : oid)
  : option (Music * option CategorySummary) :=
  match findById (musics w) i with
  | None => None
  | Some m => Some (m, option_map summary (populate w m))
  end.

(** ** Handlers *)

(** The relative URL the list handlers return for a stored URL; the
    outer [None] is the TypeError of [path.basename]. *)
Definition relativeUrl (url : jsval) : option (option string) :=
  if truthy url then
    match path_basename url with
    | None => None
    | Some fileName =>
        Some (if truthy (JStr fileName) then Some ("/uploads/" ++ fileName)
              else None)
    end
  else Some None.

Definition categoryTypeDetails (c : option Category) (m : Music)
  : option CategoryType :=
  match c, categoryType m with
  | Some k, Some ct =>
      match c_types k with
      | Some ts => find (fun t => String.eqb (t_id t) ct) ts
      | None => None
      end
  | _, _ => None
  end.

Definition view (w : world) (music : Music) : option MusicView :=
  match relativeUrl (fileUrl music), relativeUrl (thumbnailUrl music) with
  | Some f, Some t =>
      let c := populate w music in
      Some {| v_doc := music; v_fileUrl := f; v_thumbnailUrl := t;
              v_category := option_map summary c;
              v_categoryType := categoryTypeDetails c music |}
  | _, _ => None
  end.

(** [musicList.map(...)], which stops at the first exception. *)
Fixpoint views (w : world) (l : list Music) : option (list MusicView) :=
  match l with
  | [] => Some []
  | m :: l' =>
      match view w m with
      | None => None
      | Some v =>
          match views w l' with
          | None => None
          | Some vs => Some (v :: vs)
          end
      end
  end.

Definition eqb_option_oid (a : option oid) (b : oid) : bool :=
  match a with Some x => String.eqb x b | None => false end.

Section Handlers.

Context {ext : Externals}.

(** [mongoose.Types.ObjectId.isValid(v)] *)
Definition isValid (v : jsval) : bool :=
  match castObjectId v with Some _ => true | None => false end.

Definition sanitizeText (input : jsval) : string :=
  let trimmed := match input with JStr s => trim s | _ => "" end in
  if negb (truthy (JStr trimmed)) then ""
  else sanitizeHtml trimmed.

Definition getMusicByCategory (req : request) (w : world) : response :=
  let categoryId := JStr (param req) in
  match castObjectId categoryId with
  | None => Json 400 (Message "Invalid category ID")
  | Some c =>
      let musicList :=
        filter (fun m => eqb_option_oid (category m) c) (musics w) in
      if Nat.eqb (List.length musicList) 0 then
        Json 404 (Message "No music found for this category")
      else
        match views w musicList with
        | Some musicWithUrls => Json 200 (Listing musicWithUrls)
        | None => Json 500 ServerError
        end
  end.

Definition getMusic (w : world) : response :=
  match views w (musics w) with
  | Some musicWithUrls => Json 200 (Listing musicWithUrls)
  | None => Json 500 ServerError
  end.

(** *** Create *)

Definition present (o : option upload) : bool :=
  match o with Some _ => true | None => false end.

(** The required inputs in the order the handler tests them, each with
    the outcome of its truthiness test. *)
Definition requiredFields (req : request) : list (string * bool) :=
  let b := body req in
  [ ("title", truthy (get b "title"));
    ("artist", truthy (get b "artist"));
    ("category", truthy (get b "category"));
    ("categoryType", truthy (get b "categoryType"));
    ("file", present (file (req_files req)));
    ("duration", truthy (get b "duration"));
    ("releaseDate", truthy (get b "releaseDate")) ].

Definition missingFields (req : request) : list string :=
  map fst (filter (fun f => negb (snd f)) (requiredFields req)).

Definition tooLong : payload :=
  Message "Description must be 1000 characters or fewer".

Definition uploadUrl (f : upload) : jsval := JStr ("/uploads/" ++ filename f).

Definition createMusic (req : request) (w : world) : response * world :=
  let b := body req in
  let audioFile := file (req_files req) in
  let thumbnailFile := thumbnail (req_files req) in
  let missing := missingFields req in
  if Nat.ltb 0 (List.length missing) then
    (Json 400 (MissingFields "Missing required fields" missing), w)
  else
    let description := sanitizeText (get b "description") in
    if Nat.ltb 1000 (String.length description) then (Json 400 tooLong, w)
    else
      match castObjectId (get b "category"),
            castObjectId (get b "categoryType"), audioFile with
      | Some c, Some ct, Some audio =>
          let musicData :=
            {| _id := freshId (map _id (musics w));
               title := get b "title";
               artist := get b "artist";
               category := Some c;
               categoryType := Some ct;
               fileUrl := uploadUrl audio;
               thumbnailUrl :=
                 match thumbnailFile with
                 | Some t => uploadUrl t
                 | None => JUndefined
                 end;
               duration := toNumber (get b "duration");
               releaseDate := toDate (get b "releaseDate");
               user := req_user req;
               description := JStr description |} in
          let w' := with_musics (musics w ++ [musicData]) w in
          (Json 201 (Document (findPopulated w' (_id musicData))), w')
      | _, _, _ => (Json 500 ServerError, w)
      end.

(** *** Removing a stored file

    The block the update and delete handlers run on a stored URL:
    [[
      if (url) {
        const name = sanitizeFilename(path.basename(url));
        if (name) {
          const p = path.join(__dirname, '../uploads', name);
          if (fs.existsSync(p)) fs.unlinkSync(p);
        }
      }
    ]]
    The boolean is [false] when an exception leaves the block:
    [path.basename] on a value that is not a string, or [unlinkSync] on a
    directory. *)
Definition cleanupFile (url : jsval) (w : world) : bool * world :=
  if truthy url then
    match path_basename url with
    | None => (false, w)
    | Some b =>
        match sanitizeFilename (JStr b) with
        | None => (true, w)
        | Some name =>
            match stat (uploads w) name with
            | None => (true, with_uploads (uploads w) [ExistsSync name] w)
            | Some RegularFile =>
                (true, with_uploads (remove_entry (uploads w) name)
                                    [ExistsSync name; UnlinkSync name] w)
            | Some Directory =>
                (false, with_uploads (uploads w)
                                     [ExistsSync name; UnlinkSync name] w)
            end
        end
    end
  else (true, w).

(** *** Update *)

(** The assignments from [req.body], up to the description guard; [inl]
    is an early response. *)
Definition assignBody (b : jsobject) (music : Music) : response + Music :=
  let music :=
    if truthy (get b "fileUrl") then set_fileUrl (get b "fileUrl") music
    else music in
  let music :=
    if truthy (get b "thumbnailUrl")
    then set_thumbnailUrl (get b "thumbnailUrl") music
    else music in
  let music := set_title (js_or (get b "title") (title music)) music in
  let music := set_artist (js_or (get b "artist") (artist music)) music in
  if truthy (get b "category") && negb (isValid (get b "category")) then
    inl (Json 400 (Message "Invalid category ID"))
  else
    let music :=
      if truthy (get b "category")
      then set_category (castObjectId (get b "category")) music
      else music in
    if truthy (get b "categoryType")
       && negb (isValid (get b "categoryType")) then
      inl (Json 400 (Message "Invalid categoryType ID"))
    else
      let music :=
        if truthy (get b "categoryType")
        then set_categoryType (castObjectId (get b "categoryType")) music
        else music in
      let music :=
        set_duration (js_or (get b "duration") (duration music)) music in
      let music :=
        set_releaseDate (js_or (get b "releaseDate") (releaseDate music))
                        music in
      match get b "description" with
      | JUndefined => inr music
      | d =>
          let description := sanitizeText d in
          if Nat.ltb 1000 (String.length description) then
            inl (Json 400 tooLong)
          else inr (set_description (JStr description) music)
      end.

(** The replacement of the audio file, then of the thumbnail; the
    boolean is [false] when a cleanup threw. *)
Definition replaceFiles (fs : files) (music : Music) (w : world)
  : bool * Music * world :=
  let '(ok, music, w) :=
    match file fs with
    | Some audioFile =>
        let (ok, w') := cleanupFile (fileUrl music) w in
        (ok, set_fileUrl (uploadUrl audioFile) music, w')
    | None => (true, music, w)
    end in
  if ok then
    match thumbnail fs with
    | Some thumbnailFile =>
        let (ok, w') := cleanupFile (thumbnailUrl music) w in
        (ok, set_thumbnailUrl (uploadUrl thumbnailFile) music, w')
    | None => (true, music, w)
    end
  else (false, music, w).

Definition updateMusic (req : request) (w : world) : response * world :=
  match castObjectId (JStr (param req)) with
  | None => (Json 400 (Message "Invalid music ID"), w)
  | Some i =>
      match findById (musics w) i with
      | None => (Json 404 (Message "Music not found"), w)
      | Some music =>
          match assignBody (body req) music with
          | inl early => (early, w)
          | inr music =>
              let '(ok, music, w) := replaceFiles (req_files req) music w in
              if ok then
                let w' := with_musics (save music (musics w)) w in
                (Json 200 (Document (findPopulated w' (_id music))), w')
              else (Json 500 ServerError, w)
          end
      end
  end.

(** *** Delete *)

Definition deleteMusic (req : request) (w : world) : response * world :=
  match castObjectId (JStr (param req)) with
  | None => (Json 400 (Message "Invalid music ID"), w)
  | Some i =>
      match findById (musics w) i with
      | None => (Thrown 404 (ErrorMessage "Music not found"), w)
      | Some music =>
          let (ok, w) := cleanupFile (fileUrl music) w in
          if ok then
            let (ok, w) := cleanupFile (thumbnailUrl music) w in
            if ok then
              (Json 200 (Message "Music deleted successfully"),
               with_musics (findByIdAndDelete (musics w) i) w)
            else (Thrown 200 Exception, w)
          else (Thrown 200 Exception, w)
      end
  end.

(** *** URL migration *)

(** [process.env] as far as the migration reads it. *)
Record environment : Type := {
  OLD_BASE_URL : option string;
  NEW_BASE_URL : option string;
  PRODUCTION_URL : option string
}.

Definition env_value (o : option string) : jsval :=
  match o with Some s => JStr s | None => JUndefined end.

(** The query [{ field: { $regex: localServerPattern } }]: the pattern is
    the host name with every regular-expression operator escaped, so a
    field matches when it is a string that contains the host name. *)
Definition matchesHost (oldHostname : string) (v : jsval) : bool :=
  match v with JStr s => includes s oldHostname | _ => false end.

Definition found (oldHostname : string) (m : Music) : bool :=
  matchesHost oldHostname (fileUrl m) || matchesHost oldHostname (thumbnailUrl m).

(** [url && url.includes(oldHostname)] and the replacement computed when
    it holds.  The outer [None] is the TypeError raised on a truthy value
    without an [includes] method. *)
Definition newUrl (old new oldHostname : string) (url : jsval)
  : option (option jsval) :=
  if truthy url then
    match url with
    | JStr s =>
        Some (if includes s oldHostname then Some (JStr (replace s old new))
              else None)
    | _ => None
    end
  else Some None.

(** [updateData] applied to a stored document. *)
Definition applyUpdate (f t : option jsval) (m : Music) : Music :=
  let m := match f with Some u => set_fileUrl u m | None => m end in
  match t with Some u => set_thumbnailUrl u m | None => m end.

Definition needsUpdate (f t : option jsval) : bool :=
  match f, t with None, None => false | _, _ => true end.

(** The [for] loop over the records found; [None] when an exception
    stopped it, the documents updated so far staying updated. *)
Fixpoint migrate (old new oldHostname : string) (musicRecords : list Music)
         (store : list Music) (updatedCount : nat)
  : list Music * option nat :=
  match musicRecords with
  | [] => (store, Some updatedCount)
  | music :: rest =>
      match newUrl old new oldHostname (fileUrl music),
            newUrl old new oldHostname (thumbnailUrl music) with
      | Some f, Some t =>
          if needsUpdate f t then
            migrate old new oldHostname rest
                    (findByIdAndUpdate store (_id music) (applyUpdate f t))
                    (S updatedCount)
          else migrate old new oldHostname rest store updatedCount
      | _, _ => (store, None)
      end
  end.

Definition missingEnv : string :=
  "Missing environment variables. Please set OLD_BASE_URL and NEW_BASE_URL (or PRODUCTION_URL) in .env file".

Definition updateDatabaseUrls (env : environment) (w : world)
  : response * world :=
  let old := env_value (OLD_BASE_URL env) in
  let new := js_or (env_value (NEW_BASE_URL env))
                   (env_value (PRODUCTION_URL env)) in
  match old, new with
  | JStr old, JStr new =>
      if negb (truthy (JStr old)) || negb (truthy (JStr new)) then
        (Json 400 (MigrationFailure missingEnv), w)
      else
        match urlHostname old with
        | None =>
            (Json 400 (MigrationFailure
               "Invalid OLD_BASE_URL format in environment variables"), w)
        | Some oldHostname =>
            let musicRecords := filter (found oldHostname) (musics w) in
            if Nat.eqb (List.length musicRecords) 0 then
              (Json 200 (MigrationReport 0 None), w)
            else
              match migrate old new oldHostname musicRecords (musics w) 0 with
              | (store, Some updatedCount) =>
                  (Json 200 (MigrationReport updatedCount
                               (Some (List.length musicRecords))),
                   with_musics store w)
              | (store, None) =>
                  (Json 500 (MigrationFailure "Error updating database URLs"),
                   with_musics store w)
              end
        end
  | _, _ => (Json 400 (MigrationFailure missingEnv), w)
  end.

End Handlers.

(** ** An instance of the library code, for running the handlers

    ObjectIds are the strings of 24 hexadecimal digits; the HTML
    sanitizer deletes what stands between [<] and [>]; the host name of
    [scheme://host...] runs up to the first of [/ : ? #]. *)

Definition is_hex (c : ascii) : bool :=
  between 48 57 c || between 97 102 c || between 65 70 c.

Definition hexObjectId (v : jsval) : option oid :=
  match v with
  | JStr s =>
      if Nat.eqb (String.length s) 24 && forallb is_hex (chars s)
      then Some s else None
  | _ => None
  end.

Fixpoint strip_tags (inside : bool) (l : list ascii) : list ascii :=
  match l with
  | [] => []
  | c :: l' =>
      if inside then strip_tags (negb (Ascii.eqb c ">"%char)) l'
      else if Ascii.eqb c "<"%char then strip_tags true l'
      else c :: strip_tags false l'
  end.

Definition ends_host (c : ascii) : bool :=
  Ascii.eqb c slash || Ascii.eqb c ":"%char || Ascii.eqb c "?"%char
  || Ascii.eqb c "#"%char.

Fixpoint take_host (l : list ascii) : list ascii :=
  match l with
  | c :: l' => if ends_host c then [] else c :: take_host l'
  | [] => []
  end.

Definition simpleHostname (s : string) : option string :=
  match String.index 0 "://" s with
  | Some (S i) =>
      let rest := substring (S i + 3) (String.length s - (S i + 3)) s in
      Some (string_of_list_ascii (take_host (chars rest)))
  | _ => None
  end.

Definition decimalNumber (v : jsval) : jsval :=
  match v with
  | JNum n => JNum n
  | JStr s =>
      match NilEmpty.uint_of_string s with
      | Some u => JNum (Z.of_nat (Nat.of_uint u))
      | None => JNaN
      end
  | _ => JNaN
  end.

Fixpoint zeros (n : nat) : string :=
  match n with O => "" | S n' => String "0"%char (zeros n') end.

Definition counterId (ids : list oid) : oid :=
  let digits := NilZero.string_of_uint (Nat.to_uint (List.length ids)) in
  zeros (24 - String.length digits) ++ digits.

#[local] Instance sample : Externals := {
  castObjectId := hexObjectId;
  sanitizeHtml := fun s => string_of_list_ascii (strip_tags false (chars s));
  urlHostname := simpleHostname;
  toNumber := decimalNumber;
  toDate := fun v => v;
  freshId := counterId
}.

(** *** Sample data *)

Definition track (i : oid) (f t : jsval) : Music :=
  {| _id := i; title := JStr "Morning Calm"; artist := JStr "Elevate";
     category := Some "64b000000000000000000001";
     categoryType := Some "64b0000000000000000000a1";
     fileUrl := f; thumbnailUrl := t; duration := JNum 180;
     releaseDate := JStr "2024-01-01"; user := JStr "64b0000000000000000000ff";
     description := JStr "" |}.

Definition focus : Category :=
  {| c_id := "64b000000000000000000001"; c_name := JStr "Focus";
     c_description := JStr "Music for focus";
     c_types := Some [ {| t_id := "64b0000000000000000000a1";
                          t_name := JStr "Binaural" |} ] |}.

Definition library (l : list Music) (d : directory) : world :=
  {| musics := l; categories := [focus]; uploads := d; fslog := [] |}.

Definition id1 : oid := "64b0000000000000000000e1".


Definition noFiles : files := {| file := None; thumbnail := None |}.

Definition admin : jsval := JStr "64b0000000000000000000ff".

Definition request_for (i : string) (b : jsobject) (fs : files) : request :=
  {| param := i; body := b; req_files := fs; req_user := admin |}.

Fixpoint repeat_char (c : ascii) (n : nat) : string :=
  match n with O => "" | S n' => String c (repeat_char c n') end.

(** * Statements of the specification *)

(** ** The sanitizer as the specification words it

    A string with a [../], a null byte or a character outside the class
    is refused. *)
Definition refused_as_stated (s : string) : Prop :=
  (includes s "../" = true
   \/ In zero (chars s)
   \/ exists c, In c (chars s) /\ allowed_char c = false)
  -> sanitizeFilename (JStr s) = None.

Section Statements.

Context {ext : Externals}.

(** ** Delete *)

(** The specification's wording: whenever the id names a record, the
    record is removed and the success response is returned. *)
Definition deleted_as_stated (req : request) (w : world) : Prop :=
  forall i m,
    castObjectId (JStr (param req)) = Some i ->
    findById (musics w) i = Some m ->
    fst (deleteMusic req w) = Json 200 (Message "Music deleted successfully")
    /\ findById (musics (snd (deleteMusic req w))) i = None.

(** The name the cleanup block looks for in the upload directory, when
    it gets that far. *)
Definition cleanupTarget (url : jsval) : option string :=
  if truthy url then
    match path_basename url with
    | Some b => sanitizeFilename (JStr b)
    | None => None
    end
  else None.

(** A stored URL whose cleanup raises nothing: it is absent or empty, or
    a string whose sanitized final segment is refused, or names nothing
    in the upload directory, or names a regular file. *)
Definition removable (d : directory) (url : jsval) : bool :=
  if truthy url then
    match url with
    | JStr s =>
        match sanitizeFilename (JStr (basename s)) with
        | Some name =>
            match stat d name with
            | Some Directory => false
            | _ => true
            end
        | None => true
        end
    | _ => false
    end
  else true.

(** ** Create *)

Definition required : list string :=
  ["title"; "artist"; "category"; "categoryType"; "file"; "duration";
   "releaseDate"].

(** A required input that the request does not carry. *)
Definition absent (req : request) (field : string) : bool :=
  if String.eqb field "file" then negb (present (file (req_files req)))
  else match get (body req) field with JUndefined => true | _ => false end.

(** A required input that is absent or falsy: what [!field] tests. *)
Definition unusable (req : request) (field : string) : bool :=
  if String.eqb field "file" then negb (present (file (req_files req)))
  else negb (truthy (get (body req) field)).

(** The specification's wording: the [missing] list enumerates exactly
    the absent inputs. *)
Definition missing_as_stated (req : request) (w : world) : Prop :=
  (exists f, In f required /\ absent req f = true) ->
  exists msg,
    fst (createMusic req w)
    = Json 400 (MissingFields msg (filter (absent req) required)).

(** ** Update *)

(** The upload directory without the entries of a name, if any. *)
Definition without (t : option string) (d : directory) : directory :=
  match t with Some name => remove_entry d name | None => d end.

(** What the update leaves in a field whose assignment is
    [field = supplied || field]: a falsy supplied value keeps the old
    value, and a new value is the supplied one and truthy. *)
Definition kept_or_truthy (supplied old new : jsval) : Prop :=
  (truthy supplied = false -> new = old)
  /\ (new = old \/ (new = supplied /\ truthy new = true)).

(** The specification's wording of the metadata-only URL edit: a
    [fileUrl] string in the body, no uploaded file, and the stored URL
    becomes that string while the filesystem is left alone. *)
Definition overwritten_as_stated (req : request) (w : world) : Prop :=
  forall i m s,
    castObjectId (JStr (param req)) = Some i ->
    findById (musics w) i = Some m ->
    get (body req) "fileUrl" = JStr s ->
    req_files req = noFiles ->
    (exists m', findById (musics (snd (updateMusic req w))) i = Some m'
                /\ fileUrl m' = JStr s)
    /\ uploads (snd (updateMusic req w)) = uploads w
    /\ fslog (snd (updateMusic req w)) = fslog w.

(** The specification's wording of an update that carries both a
    [fileUrl] string and an audio file: the file named by the body URL
    is deleted, the file the record referred to stays on disk, and the
    stored URL is that of the new file. *)
Definition reupload_as_stated (req : request) (w : world) : Prop :=
  forall i m s old audio,
    castObjectId (JStr (param req)) = Some i ->
    findById (musics w) i = Some m ->
    get (body req) "fileUrl" = JStr s ->
    file (req_files req) = Some audio ->
    fileUrl m = JStr old ->
    lookup (uploads w) (basename old) = Some RegularFile ->
    (forall n, sanitizeFilename (JStr (basename s)) = Some n ->
               lookup (uploads (snd (updateMusic req w))) n = None)
    /\ lookup (uploads (snd (updateMusic req w))) (basename old)
       = Some RegularFile
    /\ exists m', findById (musics (snd (updateMusic req w))) i = Some m'
                  /\ fileUrl m' = uploadUrl audio.

(** ** The description *)

(** The description as plain text, in the specification's words: white
    space trimmed at both ends, then the markup removed by the HTML
    sanitizer with no tag allowed; a blank string and a value that is not
    a string give the empty text. *)
Definition plain_description (d : jsval) : string :=
  match d with
  | JStr s => if String.eqb (trim s) "" then "" else sanitizeHtml (trim s)
  | _ => ""
  end.

(** The specification's wording, for a create request: carrying a
    description, it fails with 400 if and only if the plain text is
    longer than 1000 characters. *)
Definition description_as_stated (req : request) (w : world) : Prop :=
  get (body req) "description" <> JUndefined ->
  (status_of (fst (createMusic req w)) = 400
   <-> 1000 < String.length
                (plain_description (get (body req) "description"))).

(** ** Lists by category *)

(** The records [Music.find({ category: c })] returns. *)
Definition inCategory (c : oid) (w : world) : list Music :=
  filter (fun m => eqb_option_oid (category m) c) (musics w).

(** ** URL migration *)

(** A URL field as the data model has it: a string, or nothing. *)
Definition url_typed (v : jsval) : bool :=
  match v with JStr _ => true | _ => negb (truthy v) end.

Definition typed (m : Music) : bool :=
  url_typed (fileUrl m) && url_typed (thumbnailUrl m).

(** The entry of [updateData] for a URL field that is a string or
    nothing. *)
Definition change (old new oldHostname : string) (url : jsval)
  : option jsval :=
  match url with
  | JStr s =>
      if truthy url && includes s oldHostname
      then Some (JStr (replace s old new)) else None
  | _ => None
  end.

(** What one pass of the loop makes of a stored document. *)
Definition migrateOne (old new oldHostname : string) (m : Music) : Music :=
  applyUpdate (change old new oldHostname (fileUrl m))
              (change old new oldHostname (thumbnailUrl m)) m.

(** The documents the loop counts. *)
Definition counted (old new oldHostname : string) (m : Music) : bool :=
  needsUpdate (change old new oldHostname (fileUrl m))
              (change old new oldHostname (thumbnailUrl m)).

Definition jsval_eqb (a b : jsval) : bool :=
  match a, b with
  | JUndefined, JUndefined | JNull, JNull | JNaN, JNaN
  | JObject, JObject => true
  | JBool x, JBool y => Bool.eqb x y
  | JNum x, JNum y => Z.eqb x y
  | JStr x, JStr y => String.eqb x y
  | _, _ => false
  end.

(** A document whose stored URL fields differ before and after. *)
Definition modified (before after : Music) : bool :=
  negb (jsval_eqb (fileUrl before) (fileUrl after)
        && jsval_eqb (thumbnailUrl before) (thumbnailUrl after)).

End Statements.

(** ** Sample requests *)

(** A record whose stored URL names a subdirectory of the upload
    directory. *)
Definition subdirectory_library : world :=
  library [track id1 (JStr "/uploads/sub") JUndefined]
          [("sub", Directory); ("a.mp3", RegularFile)].

(** A create request with a JSON body: no title, no file, duration 0. *)
Definition zero_duration : request :=
  request_for ""
    [ ("artist", JStr "Elevate");
      ("category", JStr "64b000000000000000000001");
      ("categoryType", JStr "64b0000000000000000000a1");
      ("duration", JNum 0);
      ("releaseDate", JStr "2024-01-01") ]
    noFiles.

(** A create request without title and duration, all else supplied. *)
Definition untitled : request :=
  request_for ""
    [ ("artist", JStr "Elevate");
      ("category", JStr "64b000000000000000000001");
      ("categoryType", JStr "64b0000000000000000000a1");
      ("releaseDate", JStr "2024-01-01") ]
    {| file := Some {| filename := "file-1.mp3"; fieldname := "file" |};
       thumbnail := None |}.

(** Create requests whose description is [n] letters long. *)
Definition described (n : nat) : request :=
  request_for ""
    [ ("title", JStr "Morning Calm");
      ("artist", JStr "Elevate");
      ("category", JStr "64b000000000000000000001");
      ("categoryType", JStr "64b0000000000000000000a1");
      ("duration", JStr "180");
      ("releaseDate", JStr "2024-01-01");
      ("description", JStr (repeat_char "a"%char n)) ]
    {| file := Some {| filename := "file-1.mp3"; fieldname := "file" |};
       thumbnail := None |}.

Definition empty_library : world := library [] [].

(** One record with its audio file and a freshly uploaded one in the
    upload directory. *)
Definition one_track : world :=
  library [track id1 (JStr "/uploads/a.mp3") JUndefined]
          [("a.mp3", RegularFile); ("b.mp3", RegularFile)].

Definition audio_b : files :=
  {| file := Some {| filename := "b.mp3"; fieldname := "file" |};
     thumbnail := None |}.

(** An update of the record [id1] with this body and these files. *)
Definition update_of (b : jsobject) (fs : files) : request :=
  request_for id1 b fs.

Definition a_track : Music := track id1 (JStr "/uploads/a.mp3") JUndefined.

(** ** The migration scenario of the specification *)

Definition old_base : string := "http://old.example.com".
Definition new_base : string := "http://new.example.com".
Definition old_host : string := "old.example.com".
Definition old_a : string := "http://old.example.com/uploads/a.mp3".
Definition new_a : string := "http://new.example.com/uploads/a.mp3".

Definition hosts : environment :=
  {| OLD_BASE_URL := Some old_base; NEW_BASE_URL := Some new_base;
     PRODUCTION_URL := None |}.

(** A URL field of the scenario: the old URL of the example, or a field
    that does not mention the old host. *)
Definition scenario_url (v : jsval) : bool :=
  match v with
  | JStr s => String.eqb s old_a || negb (includes s old_host)
  | _ => negb (truthy v)
  end.

Definition scenario (m : Music) : bool :=
  scenario_url (fileUrl m) && scenario_url (thumbnailUrl m).

Definition id2 : oid := "64b0000000000000000000e2".

(** A record served over https from the old host. *)
Definition https_library : world :=
  library [track id1 (JStr "https://old.example.com/uploads/a.mp3")
                 JUndefined] [].

(** The collection of the example: one record on the old host, one
    stored with relative URLs. *)
Definition old_host_library : world :=
  library [track id1 (JStr old_a) JUndefined;
           track id2 (JStr "/uploads/b.mp3") (JStr "/uploads/b.png")] [].

(** The number of documents that differ in a URL field between two
    states of the collection. *)
Definition modifiedCount (before after : list Music) : nat :=
  List.length (filter (fun p => modified (fst p) (snd p))
                      (combine before after)).

(** A create request with a two-letter description and no title. *)
Definition untitled_hi : request :=
  request_for ""
    [ ("artist", JStr "Elevate");
      ("category", JStr "64b000000000000000000001");
      ("categoryType", JStr "64b0000000000000000000a1");
      ("duration", JStr "180");
      ("releaseDate", JStr "2024-01-01");
      ("description", JStr "hi") ]
    {| file := Some {| filename := "file-1.mp3"; fieldname := "file" |};
       thumbnail := None |}.

(** An update of [id1] that carries only a description of [n] letters
    between white space and inside a tag pair. *)
Definition redescribed (n : nat) : request :=
  update_of [("description",
              JStr ("  <b>" ++ repeat_char "a"%char n ++ "</b> "))] noFiles.

(** The example record beside a record served over https from the old
    host. *)
Definition mixed_scheme_library : world :=
  library [track id1 (JStr old_a) JUndefined;
           track id2 (JStr "https://old.example.com/uploads/b.mp3")
                 JUndefined] [].

(** * The rest of the controller and the server's origin rules *)

(** ** Upload-only helper *)

(** The three answers of [uploadFile]: the 400 for a request without a
    file, the description of the stored file, and the 500 of the
    [catch]. *)
Inductive uploadResult : Type :=
| NoFileUploaded (status : nat) (message : string)
| FileUploaded (fileUrl filename fieldname : string)
| UploadError.

Definition uploadFile (req : request) : uploadResult :=
  let audioFile := file (req_files req) in
  let thumbnailFile := thumbnail (req_files req) in
  if negb (present audioFile) && negb (present thumbnailFile) then
    NoFileUploaded 400 "No file uploaded"
  else
    let uploadedFile :=
      match audioFile with Some a => Some a | None => thumbnailFile end in
    match uploadedFile with
    | Some f =>
        FileUploaded ("/uploads/" ++ filename f) (filename f) (fieldname f)
    | None => UploadError
    end.

(** ** Cross-origin rules of [server.js] *)

Definition allowedOrigins : list string :=
  [ "https://elevateintune.com";
    "http://localhost:3000";
    "http://localhost:5173";
    "http://127.0.0.1:3000";
    "http://192.168.1.7:3000";
    "http://172.234.201.117:5173";
    "http://172.234.201.117:5174" ].

(** [allowedOrigins.indexOf(origin) !== -1], [allowedOrigins.includes(origin)] *)
Definition listed (origin : string) : bool :=
  existsb (String.eqb origin) allowedOrigins.

(** The development rule: any origin that contains one of these
    fragments. *)
Definition localNetwork (origin : string) : bool :=
  includes origin "192.168." || includes origin "localhost"
  || includes origin "127.0.0.1" || includes origin "172.".

(** [corsOptions.origin]: [true] is [callback(null, true)], [false] is
    [callback(new Error('Not allowed by CORS'))].  The origin is the
    request header, [None] when the header is absent. *)
Definition corsOrigin (origin : option string) : bool :=
  if negb (truthy (env_value origin)) then true
  else
    match origin with
    | Some o =>
        if listed o then true
        else if localNetwork o then true else false
    | None => true
    end.

(** [isAllowed] of the explicit OPTIONS handler. *)
Definition optionsIsAllowed (origin : option string) : bool :=
  negb (truthy (env_value origin))
  || match origin with
     | Some o => listed o || localNetwork o
     | None => false
     end.

(** The [Access-Control-Allow-Origin] header the OPTIONS handler sets,
    if it sets one. *)
Definition optionsAllowOrigin (origin : option string) : option string :=
  if optionsIsAllowed origin && truthy (env_value origin) then origin
  else None.

(** ** Vocabulary of the properties below *)

Definition call_name (c : fscall) : string :=
  match c with ExistsSync n => n | UnlinkSync n => n end.

(** [d'] is [d] with some regular files removed: every name is found
    as before, or was a regular file and is gone. *)
Definition shrinks (d d' : directory) : Prop :=
  forall x, lookup d' x = lookup d x
            \/ (lookup d x = Some RegularFile /\ lookup d' x = None).

(** A URL of a list response: null, or [/uploads/] followed by one
    non-empty path segment. *)
Definition served (o : option string) : Prop :=
  o = None
  \/ exists n, o = Some ("/uploads/" ++ n) /\ n <> ""
               /\ ~ In slash (chars n).

(** The [$]-free replacement texts, which [replace] inserts as they
    are. *)
Definition plain (r : string) : bool :=
  forallb (fun c => negb (Ascii.eqb c "$"%char)) (chars r).

(** An upload whose stored name passes the sanitizer, as the names the
    upload middleware generates do. *)
Definition stored_safely (f : upload) : bool := safe_name (filename f).

(** Every filesystem call made between [w] and [w'] is on a name that
    passes the sanitizer's test. *)
Definition only_safe_calls (w w' : world) : Prop :=
  forall c, In c (fslog w') ->
            In c (fslog w) \/ safe_name (call_name c) = true.

(** What a handler may do to the filesystem. *)
Definition tidy (w w' : world) : Prop :=
  shrinks (uploads w) (uploads w') /\ only_safe_calls w w'.

(** What a list response says of one record: its two URLs are null or
    one segment under [/uploads/], its category is the summary of the
    category document when there is one and null when there is none, and
    a type detail is a type of that category whose id the record
    carries. *)
Definition well_viewed (w : world) (v : MusicView) : Prop :=
  served (v_fileUrl v)
  /\ served (v_thumbnailUrl v)
  /\ v_category v = option_map summary (populate w (v_doc v))
  /\ (populate w (v_doc v) = None -> v_categoryType v = None)
  /\ (forall t, v_categoryType v = Some t ->
        categoryType (v_doc v) = Some (t_id t)
        /\ exists k ts, populate w (v_doc v) = Some k
                        /\ c_types k = Some ts /\ In t ts).

(** A record stored with relative URLs and a category that no longer
    exists. *)
Definition orphan_track : Music :=
  {| _id := id2; title := JStr "Night Rain"; artist := JStr "Elevate";
     category := Some "64b000000000000000000009";
     categoryType := Some "64b0000000000000000000a1";
     fileUrl := JStr "/uploads/rain.mp3"; thumbnailUrl := JNull;
     duration := JNum 240; releaseDate := JStr "2024-02-01";
     user := admin; description := JStr "" |}.

Definition two_tracks : world :=
  library [a_track; orphan_track] [("a.mp3", RegularFile)].

Definition cover : upload := {| filename := "cover-7.png"; fieldname := "thumbnail" |}.

Definition song : upload := {| filename := "file-7.mp3"; fieldname := "file" |}.

(** A record created from [song] and [cover], both in the upload
    directory. *)
Definition uploaded_library : world :=
  library [track id1 (uploadUrl song) (uploadUrl cover)]
          [("file-7.mp3", RegularFile); ("cover-7.png", RegularFile);
           ("other.mp3", RegularFile)].

(** A URL field after a migration run: left as it was, or a string
    that mentioned the old host and had the first occurrence of the old
    base URL replaced. *)
Definition url_rewritten (old new host : string) (v v' : jsval) : Prop :=
  v' = v
  \/ exists s, v = JStr s /\ includes s host = true
               /\ v' = JStr (replace s old new).

(** The environment with [NEW_BASE_URL] taken from [PRODUCTION_URL]. *)
Definition production_as_new (env : environment) : environment :=
  {| OLD_BASE_URL := OLD_BASE_URL env;
     NEW_BASE_URL := PRODUCTION_URL env;
     PRODUCTION_URL := PRODUCTION_URL env |}.

Definition without_production (env : environment) : environment :=
  {| OLD_BASE_URL := OLD_BASE_URL env;
     NEW_BASE_URL := NEW_BASE_URL env;
     PRODUCTION_URL := None |}.

Definition unset (o : option string) : Prop := o = None \/ o = Some "".
(** * Properties *)

(** ** The sanitizer *)

Example basename_nested : basename "/var/www/uploads/a.mp3" = "a.mp3".
Proof. reflexivity. Qed.

Example basename_trailing : basename "uploads/audio///" = "audio".
Proof. reflexivity. Qed.

Example basename_root : basename "///" = "".
Proof. reflexivity. Qed.

Example sanitize_plain :
  sanitizeFilename (JStr "track-01_v2.mp3") = Some "track-01_v2.mp3".
Proof. reflexivity. Qed.

Example sanitize_space : sanitizeFilename (JStr "my song.mp3") = None.
Proof. reflexivity. Qed.

Example sanitize_null : sanitizeFilename JNull = None.
Proof. reflexivity. Qed.

Lemma chars_of_list (l : list ascii) : chars (string_of_list_ascii l) = l.
Proof. apply list_ascii_of_string_of_list_ascii. Qed.

Lemma forallb_false_of_In (A : Type) (p : A -> bool) (l : list A) (x : A) :
  In x l -> p x = false -> forallb p l = false.
Proof.
  induction l as [|y l IH]; simpl; [tauto|].
  intros [->|Hin] Hx.
  - now rewrite Hx.
  - rewrite (IH Hin Hx). apply andb_false_r.
Qed.

Lemma safe_name_false_of_bad_char (s : string) (c : ascii) :
  In c (chars s) -> allowed_char c = false -> safe_name s = false.
Proof.
  intros Hin Hc. unfold safe_name.
  rewrite (forallb_false_of_In ascii allowed_char _ _ Hin Hc).
  apply andb_false_r.
Qed.

Lemma take_component_no_slash (l : list ascii) :
  ~ In slash (take_component l).
Proof.
  induction l as [|c l IH]; simpl; [tauto|].
  destruct (Ascii.eqb c slash) eqn:E; simpl; [tauto|].
  intros [H|H]; [|now apply IH].
  subst c. now rewrite Ascii.eqb_refl in E.
Qed.

(** The result of [path.basename] holds no separator. *)
Lemma basename_no_slash (p : string) : ~ In slash (chars (basename p)).
Proof.
  unfold basename. rewrite chars_of_list, <- in_rev.
  apply take_component_no_slash.
Qed.

(** C1, counterexample: ["../a.mp3"] contains [../] (and the separator,
    which is outside the class), yet the sanitizer returns the usable
    name ["a.mp3"]: the directory part is stripped, not refused. *)
Lemma sanitizeFilename_strips_traversal :
  sanitizeFilename (JStr "../a.mp3") = Some "a.mp3"
  /\ ~ refused_as_stated "../a.mp3".
Proof.
  split; [reflexivity|].
  intros H. assert (E : sanitizeFilename (JStr "../a.mp3") = None).
  { apply H. left. reflexivity. }
  discriminate E.
Qed.

(** What the sanitizer returns is the final path segment, made of
    characters of the class only. *)
Lemma sanitizeFilename_accepts (s name : string) :
  sanitizeFilename (JStr s) = Some name ->
  name = basename s /\ name <> ""
  /\ forallb allowed_char (chars name) = true /\ ~ In slash (chars name).
Proof.
  unfold sanitizeFilename.
  destruct (negb (truthy (JStr s))); [discriminate|].
  destruct (safe_name (basename s)) eqn:E; simpl; [|discriminate].
  intros [= <-]. unfold safe_name in E.
  apply andb_true_iff in E. destruct E as [E1 E2].
  repeat split; try assumption.
  - intros E. rewrite E in E1. discriminate E1.
  - apply basename_no_slash.
Qed.

(** C1, amended: whenever the final path segment of the input (what
    [path.basename] returns) is empty, or holds a null byte or any other
    character outside [[a-zA-Z0-9._-]], the sanitizer returns [null].
    Directory parts before that segment, [../] included, are stripped and
    do not cause a refusal. *)
Theorem sanitizeFilename_refuses_unsafe_segment (s : string) :
  (basename s = ""
   \/ In zero (chars (basename s))
   \/ exists c, In c (chars (basename s)) /\ allowed_char c = false)
  -> sanitizeFilename (JStr s) = None.
Proof.
  intros H. unfold sanitizeFilename.
  destruct (negb (truthy (JStr s))); [reflexivity|].
  assert (U : safe_name (basename s) = false).
  { destruct H as [E | [Hz | [c [Hin Hc]]]].
    - rewrite E. reflexivity.
    - apply (safe_name_false_of_bad_char _ _ Hz). reflexivity.
    - apply (safe_name_false_of_bad_char _ _ Hin Hc). }
  now rewrite U.
Qed.

Lemma sanitizeFilename_refuses_unsafe_segment_witness :
  sanitizeFilename (JStr "../uploads/my song.mp3") = None.
Proof.
  apply (sanitizeFilename_refuses_unsafe_segment "../uploads/my song.mp3").
  right. right. exists " "%char. split; [simpl; tauto | reflexivity].
Defined.

(** ** The collections and the upload directory *)

Lemma findById_Some (l : list Music) (i : oid) (m : Music) :
  findById l i = Some m -> In m l /\ _id m = i.
Proof.
  unfold findById. intros H. apply find_some in H.
  destruct H as [Hin E]. apply String.eqb_eq in E. now split.
Qed.

Lemma findById_absent (l : list Music) (i : oid) :
  ~ In i (map _id l) -> findById l i = None.
Proof.
  induction l as [|m l IH]; simpl; [reflexivity|].
  intros H. destruct (String.eqb (_id m) i) eqn:E.
  - apply String.eqb_eq in E. tauto.
  - apply IH. tauto.
Qed.

Lemma findById_after_delete (l : list Music) (i : oid) :
  NoDup (map _id l) -> findById (findByIdAndDelete l i) i = None.
Proof.
  induction l as [|m l IH]; simpl; intros ND; [reflexivity|].
  inversion ND as [|x xs Hnotin ND']; subst.
  destruct (String.eqb (_id m) i) eqn:E.
  - apply String.eqb_eq in E. subst i. now apply findById_absent.
  - simpl. rewrite E. now apply IH.
Qed.

Lemma findById_after_update (l : list Music) (i : oid) (u : Music -> Music)
      (m : Music) :
  findById l i = Some m -> _id (u m) = i ->
  findById (findByIdAndUpdate l i u) i = Some (u m).
Proof.
  induction l as [|x l IH]; simpl; [discriminate|].
  destruct (String.eqb (_id x) i) eqn:E.
  - intros [= ->] Hu. simpl. rewrite Hu, String.eqb_refl. reflexivity.
  - intros H Hu. simpl. rewrite E. now apply IH.
Qed.

Lemma lookup_remove_entry (d : directory) (n x : string) :
  lookup (remove_entry d n) x = if String.eqb x n then None else lookup d x.
Proof.
  induction d as [|[n' k] d IH]; simpl.
  - now destruct (String.eqb x n).
  - destruct (String.eqb n n') eqn:E1.
    + apply String.eqb_eq in E1. subst n'. rewrite IH.
      now destruct (String.eqb x n).
    + simpl. destruct (String.eqb x n') eqn:E2.
      * apply String.eqb_eq in E2. subst n'.
        rewrite String.eqb_sym in E1. now rewrite E1.
      * apply IH.
Qed.

Lemma remove_entry_absent (d : directory) (n : string) :
  lookup d n = None -> remove_entry d n = d.
Proof.
  induction d as [|[n' k] d IH]; simpl; [reflexivity|].
  destruct (String.eqb n n'); [discriminate|].
  intros H. now rewrite IH.
Qed.

Lemma stat_remove_entry (d : directory) (n x : string) :
  stat (remove_entry d n) x = Some Directory -> stat d x = Some Directory.
Proof.
  unfold stat.
  destruct (String.eqb x ".."); [reflexivity|].
  destruct (String.eqb x "."); [reflexivity|].
  rewrite lookup_remove_entry. now destruct (String.eqb x n).
Qed.

Lemma stat_None_lookup (d : directory) (x : string) :
  stat d x = None -> lookup d x = None.
Proof.
  unfold stat.
  destruct (String.eqb x ".."); [discriminate|].
  now destruct (String.eqb x ".").
Qed.

Lemma stat_file_lookup (d : directory) (x : string) :
  stat d x = Some RegularFile -> lookup d x = Some RegularFile.
Proof.
  unfold stat.
  destruct (String.eqb x ".."); [discriminate|].
  now destruct (String.eqb x ".").
Qed.

Lemma removable_remove_entry (d : directory) (n : string) (url : jsval) :
  removable d url = true -> removable (remove_entry d n) url = true.
Proof.
  unfold removable. destruct (truthy url); [|reflexivity].
  destruct url; try discriminate.
  destruct (sanitizeFilename (JStr (basename s))) as [name|]; [|reflexivity].
  destruct (stat (remove_entry d n) name) as [[|]|] eqn:E; try reflexivity.
  apply stat_remove_entry in E. now rewrite E.
Qed.

(** ** The cleanup block *)

(** The cleanup block touches neither collection. *)
Lemma cleanupFile_collections (url : jsval) (w : world) :
  musics (snd (cleanupFile url w)) = musics w
  /\ categories (snd (cleanupFile url w)) = categories w.
Proof.
  unfold cleanupFile. destruct (truthy url); [|now split].
  destruct (path_basename url) as [b|]; [|now split].
  destruct (sanitizeFilename (JStr b)) as [name|]; [|now split].
  destruct (stat (uploads w) name) as [[|]|]; now split.
Qed.

(** A cleanup that completes leaves the upload directory without the
    name it was after, and changes nothing else in it. *)
Lemma cleanupFile_completed (url : jsval) (w : world) :
  fst (cleanupFile url w) = true ->
  uploads (snd (cleanupFile url w))
  = match cleanupTarget url with
    | Some name => remove_entry (uploads w) name
    | None => uploads w
    end.
Proof.
  unfold cleanupFile, cleanupTarget. destruct (truthy url); [|reflexivity].
  destruct (path_basename url) as [b|]; [|reflexivity].
  destruct (sanitizeFilename (JStr b)) as [name|]; [|reflexivity].
  destruct (stat (uploads w) name) as [[|]|] eqn:E; simpl.
  - reflexivity.
  - discriminate.
  - intros _. symmetry. apply remove_entry_absent.
    now apply stat_None_lookup.
Qed.

Lemma cleanupFile_removable (url : jsval) (w : world) :
  fst (cleanupFile url w) = removable (uploads w) url.
Proof.
  unfold cleanupFile, removable. destruct (truthy url); [|reflexivity].
  destruct url; try reflexivity.
  change (path_basename (JStr s)) with (Some (basename s)). cbv beta iota.
  destruct (sanitizeFilename (JStr (basename s))) as [name|]; [|reflexivity].
  now destruct (stat (uploads w) name) as [[|]|].
Qed.

(** ** Delete *)

Section DeleteProperties.

Context {ext : Externals}.

(** C2, amended: for every delete request whose id names an existing
    record, the record is removed and the success response is returned
    whenever the cleanup of each stored URL raises no exception, that is
    when the URL is absent or empty, is refused by the sanitizer, names
    nothing in the upload directory (a missing file is not an error), or
    names a regular file, which is then removed: afterwards no entry of
    the upload directory has the sanitized name of either stored URL, and
    every other entry is as it was.  An exception of [unlinkSync] is not
    caught by the handler and is outside this statement. *)
Theorem deleteMusic_removes_record (req : request) (w : world)
        (i : oid) (m : Music) :
  castObjectId (JStr (param req)) = Some i ->
  findById (musics w) i = Some m ->
  NoDup (map _id (musics w)) ->
  removable (uploads w) (fileUrl m) = true ->
  removable (uploads w) (thumbnailUrl m) = true ->
  fst (deleteMusic req w) = Json 200 (Message "Music deleted successfully")
  /\ findById (musics (snd (deleteMusic req w))) i = None
  /\ (forall n, cleanupTarget (fileUrl m) = Some n
                \/ cleanupTarget (thumbnailUrl m) = Some n ->
                lookup (uploads (snd (deleteMusic req w))) n = None)
  /\ forall x, cleanupTarget (fileUrl m) <> Some x ->
               cleanupTarget (thumbnailUrl m) <> Some x ->
               lookup (uploads (snd (deleteMusic req w))) x
               = lookup (uploads w) x.
Proof.
  intros Hid Hm ND Hf Ht. unfold deleteMusic. rewrite Hid, Hm.
  pose proof (cleanupFile_removable (fileUrl m) w) as R1.
  pose proof (cleanupFile_completed (fileUrl m) w) as U1.
  destruct (cleanupFile_collections (fileUrl m) w) as [M1 _].
  destruct (cleanupFile (fileUrl m) w) as [ok1 w1]. simpl in *.
  rewrite Hf in R1. subst ok1. specialize (U1 eq_refl).
  assert (Ht1 : removable (uploads w1) (thumbnailUrl m) = true).
  { rewrite U1. destruct (cleanupTarget (fileUrl m)); [|assumption].
    now apply removable_remove_entry. }
  pose proof (cleanupFile_removable (thumbnailUrl m) w1) as R2.
  pose proof (cleanupFile_completed (thumbnailUrl m) w1) as U2.
  destruct (cleanupFile_collections (thumbnailUrl m) w1) as [M2 _].
  destruct (cleanupFile (thumbnailUrl m) w1) as [ok2 w2]. simpl in *.
  rewrite Ht1 in R2. subst ok2. specialize (U2 eq_refl).
  split; [reflexivity|]. split; [|split].
  - rewrite M2, M1. now apply findById_after_delete.
  - intros n Hn.
    change (lookup (uploads w2) n = None). rewrite U2, U1.
    destruct Hn as [Hn|Hn]; rewrite Hn.
    + destruct (cleanupTarget (thumbnailUrl m)) as [n2|];
        rewrite ?lookup_remove_entry, String.eqb_refl;
        [now destruct (String.eqb n n2) | reflexivity].
    + now rewrite lookup_remove_entry, String.eqb_refl.
  - intros x Hx1 Hx2.
    change (lookup (uploads w2) x = lookup (uploads w) x). rewrite U2, U1.
    assert (L : forall t d, t <> Some x ->
              lookup (match t with
                      | Some name => remove_entry d name
                      | None => d end) x = lookup d x).
    { intros [name|] d Hne; [|reflexivity].
      rewrite lookup_remove_entry.
      destruct (String.eqb x name) eqn:E; [|reflexivity].
      apply String.eqb_eq in E. subst name. congruence. }
    rewrite (L _ _ Hx2). now apply L.
Qed.

End DeleteProperties.

(** C2, counterexample: the stored URL [/uploads/sub] names a
    subdirectory of the upload directory.  The name passes the
    sanitizer, [existsSync] answers true and [unlinkSync] throws on the
    directory; the handler has no [catch], so no success response is sent
    and the record stays in the collection. *)
Lemma deleteMusic_directory_target :
  deleteMusic (request_for id1 [] noFiles) subdirectory_library
  = (Thrown 200 Exception,
     with_uploads (uploads subdirectory_library)
                  [ExistsSync "sub"; UnlinkSync "sub"] subdirectory_library)
  /\ findById (musics (snd (deleteMusic (request_for id1 [] noFiles)
                                        subdirectory_library))) id1
     = Some (track id1 (JStr "/uploads/sub") JUndefined)
  /\ ~ deleted_as_stated (request_for id1 [] noFiles) subdirectory_library.
Proof.
  split; [reflexivity|]. split; [reflexivity|].
  intros H.
  destruct (H id1 (track id1 (JStr "/uploads/sub") JUndefined)
              eq_refl eq_refl) as [E _].
  discriminate E.
Qed.

(** A record whose audio file is gone from the upload directory and
    whose thumbnail is there: the delete succeeds, and the thumbnail is
    removed. *)
Lemma deleteMusic_removes_record_witness :
  fst (deleteMusic (request_for id1 [] noFiles)
         (library [track id1 (JStr "/uploads/gone.mp3")
                             (JStr "/uploads/cover.png")]
                  [("cover.png", RegularFile)]))
  = Json 200 (Message "Music deleted successfully")
  /\ lookup (uploads
               (snd (deleteMusic (request_for id1 [] noFiles)
                       (library [track id1 (JStr "/uploads/gone.mp3")
                                           (JStr "/uploads/cover.png")]
                                [("cover.png", RegularFile)]))))
            "cover.png" = None.
Proof.
  destruct (deleteMusic_removes_record (ext := sample)
              (request_for id1 [] noFiles)
              (library [track id1 (JStr "/uploads/gone.mp3")
                                  (JStr "/uploads/cover.png")]
                       [("cover.png", RegularFile)])
              id1
              (track id1 (JStr "/uploads/gone.mp3")
                     (JStr "/uploads/cover.png"))
              eq_refl eq_refl) as (S & _ & G & _); try reflexivity.
  - simpl. constructor; [simpl; tauto | constructor].
  - split; [exact S|]. apply G. right. reflexivity.
Defined.

(** ** Create *)

Section CreateProperties.

Context {ext : Externals}.

(** The list the handler builds is the list of required inputs that are
    absent or falsy, in the order of the specification. *)
Lemma missingFields_unusable (req : request) :
  missingFields req = filter (unusable req) required.
Proof.
  unfold missingFields, requiredFields, required, unusable. cbn.
  repeat match goal with
         | |- context [truthy ?v] => destruct (truthy v)
         end;
    destruct (present (file (req_files req))); reflexivity.
Qed.

(** C3, amended: for every create request in which one or more of
    title, artist, category, categoryType, audio file, duration and
    releaseDate is absent or falsy (undefined, null, the empty string, 0,
    NaN, false), the operation fails with HTTP 400 and a [missing] list
    naming exactly those inputs, every one of them, in that order (the
    audio file under the name [file]); nothing is stored. *)
Theorem createMusic_lists_missing (req : request) (w : world) :
  (exists f, In f required /\ unusable req f = true) ->
  createMusic req w
  = (Json 400 (MissingFields "Missing required fields"
                 (filter (unusable req) required)), w).
Proof.
  intros [f [Hin Hf]]. unfold createMusic.
  rewrite missingFields_unusable.
  assert (In f (filter (unusable req) required)) as Hmiss
      by (apply filter_In; now split).
  destruct (filter (unusable req) required) as [|x l]; [contradiction|].
  reflexivity.
Qed.

(** The description guard of the create handler, once the required
    inputs are there. *)
Lemma createMusic_description (req : request) (w : world) :
  missingFields req = [] ->
  (status_of (fst (createMusic req w)) = 400
   <-> 1000 < String.length (sanitizeText (get (body req) "description")))
  /\ (status_of (fst (createMusic req w)) = 201 ->
      exists m, musics (snd (createMusic req w)) = (musics w ++ [m])%list
                /\ description m
                   = JStr (sanitizeText (get (body req) "description"))).
Proof.
  intros Hmiss. unfold createMusic. rewrite Hmiss.
  change (Nat.ltb 0 (List.length (@nil string))) with false. cbv iota.
  destruct (Nat.ltb 1000
              (String.length (sanitizeText (get (body req) "description"))))
    eqn:E.
  - apply Nat.ltb_lt in E. cbn [fst snd status_of].
    split; [split; [intros _; exact E | reflexivity] | discriminate].
  - apply Nat.ltb_ge in E.
    destruct (castObjectId (get (body req) "category"));
      destruct (castObjectId (get (body req) "categoryType"));
      destruct (file (req_files req)); cbn [fst snd status_of];
      (split; [split; [discriminate | lia] | try discriminate]).
    intros _. eexists. split; reflexivity.
Qed.

End CreateProperties.

(** C3, counterexample: a request that lacks the title and the file
    and carries duration 0.  The absent inputs are the title and the
    file, yet the handler reports [["title"; "file"; "duration"]]: a
    supplied falsy value counts as missing. *)
Lemma createMusic_zero_duration_listed :
  filter (absent zero_duration) required = ["title"; "file"]
  /\ fst (createMusic zero_duration empty_library)
     = Json 400 (MissingFields "Missing required fields"
                   ["title"; "file"; "duration"])
  /\ ~ missing_as_stated zero_duration empty_library.
Proof.
  split; [reflexivity|]. split; [reflexivity|].
  intros H. destruct H as [msg E].
  - exists "title". split; [simpl; tauto | reflexivity].
  - discriminate E.
Qed.

(** A request missing only title and duration is answered with
    [missing = ["title"; "duration"]]. *)
Lemma createMusic_lists_missing_witness :
  createMusic untitled empty_library
  = (Json 400 (MissingFields "Missing required fields"
                 ["title"; "duration"]), empty_library).
Proof.
  apply (createMusic_lists_missing (ext := sample) untitled empty_library).
  exists "title". split; [simpl; tauto | reflexivity].
Defined.

(** ** Update *)

Section UpdateProperties.

Context {ext : Externals}.

(** An early response of the body assignments is a 400. *)
Lemma assignBody_inl (b : jsobject) (m : Music) (r : response) :
  assignBody b m = inl r -> exists msg, r = Json 400 (Message msg).
Proof.
  unfold assignBody.
  destruct (truthy (get b "category") && negb (isValid (get b "category")));
    [intros [= <-]; eexists; reflexivity|].
  destruct (truthy (get b "categoryType")
            && negb (isValid (get b "categoryType")));
    [intros [= <-]; eexists; reflexivity|].
  destruct (get b "description"); try discriminate;
    match goal with
    | |- context [Nat.ltb 1000 ?n] => destruct (Nat.ltb 1000 n)
    end; try discriminate; intros [= <-]; eexists; reflexivity.
Qed.

(** The document the body assignments produce, field by field. *)
Lemma assignBody_inr (b : jsobject) (m m' : Music) :
  assignBody b m = inr m' ->
  _id m' = _id m
  /\ title m' = js_or (get b "title") (title m)
  /\ artist m' = js_or (get b "artist") (artist m)
  /\ duration m' = js_or (get b "duration") (duration m)
  /\ releaseDate m' = js_or (get b "releaseDate") (releaseDate m)
  /\ fileUrl m'
     = (if truthy (get b "fileUrl") then get b "fileUrl" else fileUrl m)
  /\ thumbnailUrl m'
     = (if truthy (get b "thumbnailUrl") then get b "thumbnailUrl"
        else thumbnailUrl m)
  /\ description m'
     = match get b "description" with
       | JUndefined => description m
       | d => JStr (sanitizeText d)
       end.
Proof.
  unfold assignBody.
  destruct (truthy (get b "category") && negb (isValid (get b "category")));
    [discriminate|].
  destruct (truthy (get b "categoryType")
            && negb (isValid (get b "categoryType")));
    [discriminate|].
  destruct (truthy (get b "fileUrl")), (truthy (get b "thumbnailUrl")),
    (truthy (get b "category")), (truthy (get b "categoryType"));
    destruct (get b "description");
    try match goal with
      | |- context [Nat.ltb 1000 ?n] => destruct (Nat.ltb 1000 n)
      end;
    try discriminate; intros [= <-]; repeat split.
Qed.

(** The description guard of the update handler, for a body whose
    category identifiers pass. *)
Lemma assignBody_description (b : jsobject) (m : Music) :
  (truthy (get b "category") = true -> isValid (get b "category") = true) ->
  (truthy (get b "categoryType") = true ->
   isValid (get b "categoryType") = true) ->
  get b "description" <> JUndefined ->
  (1000 < String.length (sanitizeText (get b "description")) ->
   assignBody b m = inl (Json 400 tooLong))
  /\ (String.length (sanitizeText (get b "description")) <= 1000 ->
      exists m', assignBody b m = inr m').
Proof.
  intros Hc Ht Hd. unfold assignBody.
  assert (C : truthy (get b "category")
              && negb (isValid (get b "category")) = false).
  { destruct (truthy (get b "category")); [|reflexivity].
    now rewrite Hc. }
  assert (T : truthy (get b "categoryType")
              && negb (isValid (get b "categoryType")) = false).
  { destruct (truthy (get b "categoryType")); [|reflexivity].
    now rewrite Ht. }
  rewrite C, T.
  split; intros L.
  - apply Nat.ltb_lt in L.
    destruct (get b "description"); try congruence; now rewrite L.
  - apply Nat.ltb_ge in L.
    destruct (get b "description"); try congruence;
      rewrite L; eexists; reflexivity.
Qed.

(** Replacing the files changes the two URL fields only, and neither
    collection. *)
Lemma replaceFiles_keeps (fs : files) (m : Music) (w : world) :
  let r := replaceFiles fs m w in
  _id (snd (fst r)) = _id m
  /\ title (snd (fst r)) = title m
  /\ artist (snd (fst r)) = artist m
  /\ duration (snd (fst r)) = duration m
  /\ releaseDate (snd (fst r)) = releaseDate m
  /\ description (snd (fst r)) = description m
  /\ musics (snd r) = musics w.
Proof.
  unfold replaceFiles.
  destruct (file fs) as [a|].
  - destruct (cleanupFile_collections (fileUrl m) w) as [M1 _].
    destruct (cleanupFile (fileUrl m) w) as [[|] w1]; simpl in M1.
    + destruct (thumbnail fs) as [t|].
      * destruct (cleanupFile_collections
                    (thumbnailUrl (set_fileUrl (uploadUrl a) m)) w1)
          as [M2 _].
        destruct (cleanupFile (thumbnailUrl (set_fileUrl (uploadUrl a) m)) w1)
          as [ok w2]; simpl in *.
        repeat split; congruence.
      * simpl. repeat split; congruence.
    + simpl. repeat split; congruence.
  - destruct (thumbnail fs) as [t|].
    + destruct (cleanupFile_collections (thumbnailUrl m) w) as [M2 _].
      destruct (cleanupFile (thumbnailUrl m) w) as [ok w2]; simpl in *.
      repeat split; congruence.
    + simpl. repeat split; congruence.
Qed.

(** The three ways an update of an existing record ends: an early 400,
    a 500 after a failed cleanup, or the save. *)
Lemma updateMusic_outcome (req : request) (w : world) (i : oid) (m : Music) :
  castObjectId (JStr (param req)) = Some i ->
  findById (musics w) i = Some m ->
  (exists r, assignBody (body req) m = inl r /\ updateMusic req w = (r, w))
  \/ (exists m1 m2 w2,
        assignBody (body req) m = inr m1
        /\ replaceFiles (req_files req) m1 w = (false, m2, w2)
        /\ updateMusic req w = (Json 500 ServerError, w2))
  \/ (exists m1 m2 w2,
        assignBody (body req) m = inr m1
        /\ replaceFiles (req_files req) m1 w = (true, m2, w2)
        /\ updateMusic req w
           = (Json 200 (Document
                 (findPopulated (with_musics (save m2 (musics w2)) w2)
                                (_id m2))),
              with_musics (save m2 (musics w2)) w2)).
Proof.
  intros Hid Hm. unfold updateMusic. rewrite Hid, Hm.
  destruct (assignBody (body req) m) as [r|m1] eqn:A.
  - left. exists r. now split.
  - right.
    destruct (replaceFiles (req_files req) m1 w) as [[[|] m2] w2] eqn:R.
    + right. exists m1, m2, w2. auto.
    + left. exists m1, m2, w2. auto.
Qed.

(** After the save, the record found under the id is the saved one. *)
Lemma saved_found (w w2 : world) (i : oid) (m m2 : Music) :
  findById (musics w) i = Some m -> musics w2 = musics w -> _id m2 = i ->
  findById (musics (with_musics (save m2 (musics w2)) w2)) i = Some m2.
Proof.
  intros Hm Hw Hi. simpl. unfold save. rewrite Hw, Hi.
  now apply (findById_after_update (musics w) i (fun _ => m2) m Hm).
Qed.

End UpdateProperties.

(** The case analysis of [updateMusic_outcome], with the names the
    proofs below use: [A] for the body assignments, [R] for the
    replacement of the files, [E] for the result of the handler. *)
Ltac update_outcome Hid Hm :=
  destruct (updateMusic_outcome _ _ _ _ Hid Hm)
    as [(r & A & E) | [(m1 & m2 & w2 & A & R & E)
                      | (m1 & m2 & w2 & A & R & E)]].

Section UpdateClaims.

Context {ext : Externals}.

Lemma js_or_kept (supplied old : jsval) :
  kept_or_truthy supplied old (js_or supplied old).
Proof.
  unfold kept_or_truthy, js_or.
  destruct (truthy supplied) eqn:E; split; auto; discriminate.
Qed.

Lemma kept_refl (supplied old : jsval) : kept_or_truthy supplied old old.
Proof. unfold kept_or_truthy. auto. Qed.

(** The files replaced and the upload directory after a replacement
    that raised nothing. *)
Lemma replaceFiles_ok (fs : files) (m m2 : Music) (w w2 : world) :
  replaceFiles fs m w = (true, m2, w2) ->
  fileUrl m2 = match file fs with
               | Some a => uploadUrl a
               | None => fileUrl m
               end
  /\ thumbnailUrl m2 = match thumbnail fs with
                       | Some t => uploadUrl t
                       | None => thumbnailUrl m
                       end
  /\ uploads w2
     = without (match thumbnail fs with
                | Some _ => cleanupTarget (thumbnailUrl m)
                | None => None
                end)
         (without (match file fs with
                   | Some _ => cleanupTarget (fileUrl m)
                   | None => None
                   end) (uploads w)).
Proof.
  unfold replaceFiles.
  destruct (file fs) as [a|].
  - pose proof (cleanupFile_completed (fileUrl m) w) as U1.
    destruct (cleanupFile (fileUrl m) w) as [[|] w1]; simpl in U1;
      [|discriminate].
    specialize (U1 eq_refl).
    destruct (thumbnail fs) as [t|].
    + change (thumbnailUrl (set_fileUrl (uploadUrl a) m))
        with (thumbnailUrl m).
      pose proof (cleanupFile_completed (thumbnailUrl m) w1) as U2.
      destruct (cleanupFile (thumbnailUrl m) w1) as [ok w2']; simpl in U2.
      intros [= -> <- <-]. specialize (U2 eq_refl).
      repeat split. rewrite U2, U1. reflexivity.
    + intros [= <- <-]. repeat split. exact U1.
  - destruct (thumbnail fs) as [t|].
    + pose proof (cleanupFile_completed (thumbnailUrl m) w) as U2.
      destruct (cleanupFile (thumbnailUrl m) w) as [ok w2']; simpl in U2.
      intros [= -> <- <-]. specialize (U2 eq_refl).
      repeat split. exact U2.
    + intros [= <- <-]. repeat split.
Qed.

Lemma lookup_without (t : option string) (d : directory) (x : string) :
  lookup (without t d) x = None
  \/ lookup (without t d) x = lookup d x.
Proof.
  destruct t as [n|]; simpl; [|now right].
  rewrite lookup_remove_entry. destruct (String.eqb x n); auto.
Qed.

Lemma lookup_without_other (t : option string) (d : directory) (x : string) :
  t <> Some x -> lookup (without t d) x = lookup d x.
Proof.
  destruct t as [n|]; simpl; [|reflexivity].
  intros Hne. rewrite lookup_remove_entry.
  destruct (String.eqb x n) eqn:E; [|reflexivity].
  apply String.eqb_eq in E. congruence.
Qed.

Lemma lookup_without_same (d : directory) (x : string) :
  lookup (without (Some x) d) x = None.
Proof. simpl. rewrite lookup_remove_entry. now rewrite String.eqb_refl. Qed.

(** The description guard of both handlers, in terms of
    [sanitizeText]. *)
Lemma description_guard :
  (forall (req : request) (w : world),
      missingFields req = [] ->
      (status_of (fst (createMusic req w)) = 400
       <-> 1000 < String.length
                    (sanitizeText (get (body req) "description")))
      /\ (status_of (fst (createMusic req w)) = 201 ->
          exists m, musics (snd (createMusic req w)) = (musics w ++ [m])%list
                    /\ description m
                       = JStr (sanitizeText (get (body req) "description"))))
  /\ (forall (req : request) (w : world) (i : oid) (m : Music),
         castObjectId (JStr (param req)) = Some i ->
         findById (musics w) i = Some m ->
         (truthy (get (body req) "category") = true ->
          isValid (get (body req) "category") = true) ->
         (truthy (get (body req) "categoryType") = true ->
          isValid (get (body req) "categoryType") = true) ->
         get (body req) "description" <> JUndefined ->
         (status_of (fst (updateMusic req w)) = 400
          <-> 1000 < String.length
                       (sanitizeText (get (body req) "description")))
         /\ (status_of (fst (updateMusic req w)) = 200 ->
             exists m', findById (musics (snd (updateMusic req w))) i
                        = Some m'
                        /\ description m'
                           = JStr (sanitizeText
                                     (get (body req) "description")))).
Proof.
  split; [exact createMusic_description|].
  intros req w i m Hid Hm Hc Ht Hd.
  destruct (assignBody_description (body req) m Hc Ht Hd) as [Long Short].
  destruct (Nat.lt_ge_cases 1000
              (String.length (sanitizeText (get (body req) "description"))))
    as [L|L].
  - specialize (Long L).
    update_outcome Hid Hm; try congruence.
    rewrite E. rewrite Long in A. injection A as <-. simpl.
    split; [tauto | discriminate].
  - destruct (Short L) as [m1' A'].
    update_outcome Hid Hm; try congruence;
      rewrite E; cbn [fst snd status_of].
    + split; [split; [discriminate | lia] | discriminate].
    + split; [split; [discriminate | lia] |]. intros _.
      pose proof (replaceFiles_keeps (req_files req) m1 w) as K.
      rewrite R in K. simpl in K.
      destruct K as (K1 & _ & _ & _ & _ & K6 & K7).
      destruct (assignBody_inr _ _ _ A) as (B1 & _ & _ & _ & _ & _ & _ & B8).
      exists m2. split.
      * apply (saved_found w w2 i m m2 Hm K7). rewrite K1, B1.
        now destruct (findById_Some _ _ _ Hm).
      * rewrite K6, B8.
        destruct (get (body req) "description"); congruence.
Qed.

Lemma sanitizeText_plain (d : jsval) :
  sanitizeText d = plain_description d.
Proof.
  unfold sanitizeText, plain_description. destruct d; try reflexivity.
  simpl. now destruct (String.eqb (trim s) "").
Qed.

Lemma required_file_present (req : request) :
  missingFields req = [] -> file (req_files req) <> None.
Proof.
  rewrite missingFields_unusable. unfold required, unusable. cbn.
  destruct (file (req_files req)) as [a|]; [discriminate|].
  cbn.
  repeat match goal with
         | |- context [truthy ?v] => destruct (truthy v)
         end; discriminate.
Qed.

(** The replacement of the files raises nothing when each cleanup it
    runs is on a removable URL. *)
Lemma replaceFiles_completes (fs : files) (m : Music) (w : world) :
  (file fs = None \/ removable (uploads w) (fileUrl m) = true) ->
  (thumbnail fs = None \/ removable (uploads w) (thumbnailUrl m) = true) ->
  fst (fst (replaceFiles fs m w)) = true.
Proof.
  unfold replaceFiles. intros Hf Ht.
  assert (Thumb : forall m1 w1,
            thumbnailUrl m1 = thumbnailUrl m ->
            (thumbnail fs = None
             \/ removable (uploads w1) (thumbnailUrl m) = true) ->
            fst (fst (match thumbnail fs with
                      | Some thumbnailFile =>
                          let (ok, w') :=
                            cleanupFile (thumbnailUrl m1) w1 in
                          (ok, set_thumbnailUrl (uploadUrl thumbnailFile) m1,
                           w')
                      | None => (true, m1, w1)
                      end)) = true).
  { intros m1 w1 E H. destruct (thumbnail fs) as [t|]; [|reflexivity].
    destruct H as [H|H]; [discriminate|]. rewrite E.
    pose proof (cleanupFile_removable (thumbnailUrl m) w1) as R.
    destruct (cleanupFile (thumbnailUrl m) w1) as [ok w2]. simpl in *.
    congruence. }
  destruct (file fs) as [a|].
  - destruct Hf as [Hf|Hf]; [discriminate|].
    pose proof (cleanupFile_removable (fileUrl m) w) as R1.
    pose proof (cleanupFile_completed (fileUrl m) w) as U1.
    destruct (cleanupFile (fileUrl m) w) as [ok1 w1]. simpl in R1, U1.
    rewrite Hf in R1. subst ok1. specialize (U1 eq_refl).
    apply Thumb; [reflexivity|].
    destruct Ht as [Ht|Ht]; [now left | right].
    rewrite U1. destruct (cleanupTarget (fileUrl m)); [|assumption].
    now apply removable_remove_entry.
  - now apply Thumb.
Qed.

(** C4, amended: a create request that carries every required input,
    and an update request for an existing record whose category
    identifiers, if supplied, are well formed, has its description turned
    into plain text (white space trimmed, markup removed by the HTML
    sanitizer) and is answered 400, nothing being stored, exactly when
    the plain text is longer than 1000 characters: 1001 characters are
    refused, 1000 are accepted.  Accepted means: the create, its category
    identifiers being well formed, is answered 201 and appends a record
    whose description is the plain text; the update, the cleanup of each
    replaced file raising nothing, is answered 200 and the record then
    holds the plain text. *)
Theorem description_limit :
  (forall (req : request) (w : world),
      missingFields req = [] ->
      (1000 < String.length
                (plain_description (get (body req) "description")) ->
       createMusic req w = (Json 400 tooLong, w))
      /\ (String.length
            (plain_description (get (body req) "description")) <= 1000 ->
          forall c ct,
            castObjectId (get (body req) "category") = Some c ->
            castObjectId (get (body req) "categoryType") = Some ct ->
            status_of (fst (createMusic req w)) = 201
            /\ exists m,
                musics (snd (createMusic req w)) = (musics w ++ [m])%list
                /\ description m
                   = JStr (plain_description
                             (get (body req) "description")))
      /\ (status_of (fst (createMusic req w)) = 400
          <-> 1000 < String.length
                       (plain_description (get (body req) "description"))))
  /\ (forall (req : request) (w : world) (i : oid) (m : Music),
         castObjectId (JStr (param req)) = Some i ->
         findById (musics w) i = Some m ->
         (truthy (get (body req) "category") = true ->
          isValid (get (body req) "category") = true) ->
         (truthy (get (body req) "categoryType") = true ->
          isValid (get (body req) "categoryType") = true) ->
         get (body req) "description" <> JUndefined ->
         (1000 < String.length
                   (plain_description (get (body req) "description")) ->
          updateMusic req w = (Json 400 tooLong, w))
         /\ (String.length
               (plain_description (get (body req) "description")) <= 1000 ->
             (file (req_files req) = None
              \/ removable (uploads w)
                   (if truthy (get (body req) "fileUrl")
                    then get (body req) "fileUrl" else fileUrl m) = true) ->
             (thumbnail (req_files req) = None
              \/ removable (uploads w)
                   (if truthy (get (body req) "thumbnailUrl")
                    then get (body req) "thumbnailUrl"
                    else thumbnailUrl m) = true) ->
             status_of (fst (updateMusic req w)) = 200
             /\ exists m',
                 findById (musics (snd (updateMusic req w))) i = Some m'
                 /\ description m'
                    = JStr (plain_description
                              (get (body req) "description")))
         /\ (status_of (fst (updateMusic req w)) = 400
             <-> 1000 < String.length
                          (plain_description
                             (get (body req) "description")))).
Proof.
  destruct description_guard as [C U]. split.
  - intros req w Hmiss. destruct (C req w Hmiss) as [Iff _].
    rewrite sanitizeText_plain in Iff.
    split; [|split; [|exact Iff]].
    + intros L. apply Nat.ltb_lt in L. unfold createMusic. rewrite Hmiss.
      change (Nat.ltb 0 (List.length (@nil string))) with false. cbv iota.
      rewrite sanitizeText_plain. now rewrite L.
    + intros L c ct Hc Hct. apply Nat.ltb_ge in L.
      unfold createMusic. rewrite Hmiss.
      change (Nat.ltb 0 (List.length (@nil string))) with false. cbv iota.
      rewrite sanitizeText_plain, L, Hc, Hct.
      destruct (file (req_files req)) as [a|] eqn:Ha;
        [|now elim (required_file_present req Hmiss)].
      split; [reflexivity|]. eexists. split; reflexivity.
  - intros req w i m Hid Hm Hc Ht Hd.
    destruct (U req w i m Hid Hm Hc Ht Hd) as [Iff Stored].
    rewrite sanitizeText_plain in Iff, Stored.
    destruct (assignBody_description (body req) m Hc Ht Hd) as [Long Short].
    rewrite sanitizeText_plain in Long, Short.
    split; [|split; [|exact Iff]].
    + intros L. unfold updateMusic. now rewrite Hid, Hm, (Long L).
    + intros L Rf Rt. destruct (Short L) as [m1 A].
      destruct (assignBody_inr _ _ _ A) as (_ & _ & _ & _ & _ & B6 & B7 & _).
      assert (Ok : fst (fst (replaceFiles (req_files req) m1 w)) = true).
      { apply replaceFiles_completes; now rewrite ?B6, ?B7. }
      assert (S200 : status_of (fst (updateMusic req w)) = 200).
      { unfold updateMusic. rewrite Hid, Hm, A.
        destruct (replaceFiles (req_files req) m1 w) as [[ok m2] w2].
        simpl in Ok. subst ok. reflexivity. }
      split; [exact S200 | exact (Stored S200)].
Qed.

(** C10: for every update request on an existing record, a falsy value
    supplied for title, artist, duration or releaseDate (the empty
    string, 0, null, ...) leaves the stored value of that field as it
    was; whatever the request, each of these fields ends up holding
    either its previous value or the supplied value, which is then
    truthy, so none of them can be cleared or set to a falsy value. *)
Theorem update_keeps_field_on_falsy (req : request) (w : world)
        (i : oid) (m : Music) :
  castObjectId (JStr (param req)) = Some i ->
  findById (musics w) i = Some m ->
  exists m',
    findById (musics (snd (updateMusic req w))) i = Some m'
    /\ kept_or_truthy (get (body req) "title") (title m) (title m')
    /\ kept_or_truthy (get (body req) "artist") (artist m) (artist m')
    /\ kept_or_truthy (get (body req) "duration") (duration m) (duration m')
    /\ kept_or_truthy (get (body req) "releaseDate") (releaseDate m)
                      (releaseDate m').
Proof.
  intros Hid Hm.
  update_outcome Hid Hm; rewrite E; cbn [fst snd].
  - exists m. repeat split; auto; apply kept_refl.
  - pose proof (replaceFiles_keeps (req_files req) m1 w) as K.
    rewrite R in K. simpl in K. destruct K as (_ & _ & _ & _ & _ & _ & K7).
    exists m. rewrite K7. repeat split; auto; apply kept_refl.
  - pose proof (replaceFiles_keeps (req_files req) m1 w) as K.
    rewrite R in K. simpl in K.
    destruct K as (K1 & K2 & K3 & K4 & K5 & _ & K7).
    destruct (assignBody_inr _ _ _ A) as (B1 & B2 & B3 & B4 & B5 & _).
    exists m2. split.
    + apply (saved_found w w2 i m m2 Hm K7). rewrite K1, B1.
      now destruct (findById_Some _ _ _ Hm).
    + rewrite K2, K3, K4, K5, B2, B3, B4, B5.
      repeat split; apply js_or_kept.
Qed.

End UpdateClaims.

(** C4, counterexample: a create request that carries the
    description ["hi"] and no title is answered 400, although the plain
    text is two characters long: a 400 has other causes than the
    description. *)
Lemma create_short_description_refused :
  fst (createMusic untitled_hi empty_library)
  = Json 400 (MissingFields "Missing required fields" ["title"])
  /\ plain_description (get (body untitled_hi) "description") = "hi"
  /\ ~ description_as_stated untitled_hi empty_library.
Proof.
  split; [reflexivity|]. split; [reflexivity|].
  intros H. assert (L : 1000 < 2).
  { apply H; [discriminate | reflexivity]. }
  lia.
Qed.

Lemma description_limit_witness :
  createMusic (described 1001) empty_library
  = (Json 400 tooLong, empty_library)
  /\ status_of (fst (createMusic (described 1000) empty_library)) = 201
  /\ status_of (fst (updateMusic (redescribed 1000) one_track)) = 200
  /\ updateMusic (redescribed 1001) one_track
     = (Json 400 tooLong, one_track).
Proof.
  destruct (description_limit (ext := sample)) as [C U].
  split; [|split; [|split]].
  - apply (C (described 1001) empty_library); [reflexivity|].
    apply Nat.ltb_lt. vm_compute. reflexivity.
  - destruct (C (described 1000) empty_library eq_refl) as (_ & A & _).
    apply (A ltac:(apply Nat.ltb_ge; vm_compute; reflexivity)
             "64b000000000000000000001" "64b0000000000000000000a1");
      reflexivity.
  - destruct (U (redescribed 1000) one_track id1 a_track eq_refl eq_refl)
      as (_ & A & _); try discriminate.
    apply A; [apply Nat.ltb_ge; vm_compute; reflexivity | now left
             | now left].
  - destruct (U (redescribed 1001) one_track id1 a_track eq_refl eq_refl)
      as (A & _); try discriminate.
    apply A. apply Nat.ltb_lt. vm_compute. reflexivity.
Defined.

Example update_stores_plain_text :
  option_map description
    (findById (musics (snd (updateMusic (redescribed 3) one_track))) id1)
  = Some (JStr "aaa").
Proof. vm_compute. reflexivity. Qed.

Example create_1000_accepted :
  status_of (fst (createMusic (described 1000) empty_library)) = 201.
Proof. vm_compute. reflexivity. Qed.

Example create_1001_refused :
  fst (createMusic (described 1001) empty_library) = Json 400 tooLong.
Proof. vm_compute. reflexivity. Qed.

Lemma update_keeps_field_on_falsy_witness :
  exists m',
    findById (musics (snd (updateMusic
                             (update_of [("title", JStr "");
                                         ("duration", JNum 0)] noFiles)
                             one_track))) id1 = Some m'
    /\ kept_or_truthy (JStr "") (title a_track) (title m')
    /\ kept_or_truthy JUndefined (artist a_track) (artist m')
    /\ kept_or_truthy (JNum 0) (duration a_track) (duration m')
    /\ kept_or_truthy JUndefined (releaseDate a_track) (releaseDate m').
Proof.
  apply (update_keeps_field_on_falsy (ext := sample)
           (update_of [("title", JStr ""); ("duration", JNum 0)] noFiles)
           one_track id1 a_track); reflexivity.
Defined.

Example update_falsy_title_and_duration :
  option_map (fun m => (title m, duration m))
    (findById (musics (snd (updateMusic
                              (update_of [("title", JStr "");
                                          ("duration", JNum 0)] noFiles)
                              one_track))) id1)
  = Some (JStr "Morning Calm", JNum 180).
Proof. vm_compute. reflexivity. Qed.

Section UrlEdits.

Context {ext : Externals}.

(** C6, amended: for every update request without an uploaded file, no
    filesystem operation is performed: the upload directory is what it
    was and no existence check or deletion is made.  When such a request
    goes through (200), a non-empty [fileUrl] or [thumbnailUrl] string of
    the body (any truthy value) has overwritten the stored field, and an
    empty string (any falsy value) has left it as it was. *)
Theorem update_url_without_files (req : request) (w : world) :
  file (req_files req) = None ->
  thumbnail (req_files req) = None ->
  uploads (snd (updateMusic req w)) = uploads w
  /\ fslog (snd (updateMusic req w)) = fslog w
  /\ forall i m,
      castObjectId (JStr (param req)) = Some i ->
      findById (musics w) i = Some m ->
      status_of (fst (updateMusic req w)) = 200 ->
      exists m',
        findById (musics (snd (updateMusic req w))) i = Some m'
        /\ fileUrl m'
           = (if truthy (get (body req) "fileUrl")
              then get (body req) "fileUrl" else fileUrl m)
        /\ thumbnailUrl m'
           = (if truthy (get (body req) "thumbnailUrl")
              then get (body req) "thumbnailUrl" else thumbnailUrl m).
Proof.
  intros Hf Ht.
  assert (NoFiles : forall m1,
             replaceFiles (req_files req) m1 w = (true, m1, w)).
  { intros m1. unfold replaceFiles. now rewrite Hf, Ht. }
  split; [|split].
  - unfold updateMusic.
    destruct (castObjectId (JStr (param req))); [|reflexivity].
    destruct (findById (musics w) o); [|reflexivity].
    destruct (assignBody (body req) m); [reflexivity|].
    now rewrite NoFiles.
  - unfold updateMusic.
    destruct (castObjectId (JStr (param req))); [|reflexivity].
    destruct (findById (musics w) o); [|reflexivity].
    destruct (assignBody (body req) m); [reflexivity|].
    now rewrite NoFiles.
  - intros i m Hid Hm.
    update_outcome Hid Hm; rewrite E; cbn [fst snd status_of].
    + destruct (assignBody_inl _ _ _ A) as [msg ->]. discriminate.
    + discriminate.
    + intros _. rewrite NoFiles in R. injection R as <- <-.
      destruct (assignBody_inr _ _ _ A)
        as (B1 & _ & _ & _ & _ & B6 & B7 & _).
      exists m1. split; [|now split].
      apply (saved_found w w i m m1 Hm eq_refl). rewrite B1.
      now destruct (findById_Some _ _ _ Hm).
Qed.

(** C9, amended: for every update request on an existing record that
    supplies both a non-empty raw [fileUrl] string and an uploaded audio
    file and goes through (200): the body-supplied URL is assigned first,
    so the cleanup is after the sanitized final segment of the
    body-supplied URL, and no entry of that name is left in the upload
    directory; every other entry, the file the record referred to before
    included when its name is a different one, is left as it was (unless
    the cleanup for an uploaded thumbnail is after it); the stored
    [fileUrl] is that of the newly uploaded file. *)
Theorem update_reupload_cleans_body_url (req : request) (w : world)
        (i : oid) (m : Music) (s : string) (audio : upload) :
  castObjectId (JStr (param req)) = Some i ->
  findById (musics w) i = Some m ->
  get (body req) "fileUrl" = JStr s ->
  s <> "" ->
  file (req_files req) = Some audio ->
  status_of (fst (updateMusic req w)) = 200 ->
  (exists m', findById (musics (snd (updateMusic req w))) i = Some m'
              /\ fileUrl m' = uploadUrl audio)
  /\ (forall n, sanitizeFilename (JStr (basename s)) = Some n ->
                lookup (uploads (snd (updateMusic req w))) n = None)
  /\ (forall x,
         sanitizeFilename (JStr (basename s)) <> Some x ->
         (thumbnail (req_files req) = None
          \/ cleanupTarget
               (if truthy (get (body req) "thumbnailUrl")
                then get (body req) "thumbnailUrl" else thumbnailUrl m)
             <> Some x) ->
         lookup (uploads (snd (updateMusic req w))) x
         = lookup (uploads w) x).
Proof.
  intros Hid Hm Hs Hne Ha.
  assert (Tr : truthy (JStr s) = true).
  { simpl. destruct (String.eqb s "") eqn:E; [|reflexivity].
    apply String.eqb_eq in E. contradiction. }
  update_outcome Hid Hm; rewrite E; cbn [fst snd status_of].
  - destruct (assignBody_inl _ _ _ A) as [msg ->]. discriminate.
  - discriminate.
  - intros _.
    destruct (assignBody_inr _ _ _ A) as (B1 & _ & _ & _ & _ & B6 & B7 & _).
    rewrite Hs, Tr in B6.
    pose proof (replaceFiles_keeps (req_files req) m1 w) as K.
    rewrite R in K. simpl in K. destruct K as (K1 & _ & _ & _ & _ & _ & K7).
    destruct (replaceFiles_ok _ _ _ _ _ R) as (F1 & _ & U).
    rewrite Ha in F1, U. rewrite B6 in U.
    assert (T : cleanupTarget (JStr s) = sanitizeFilename (JStr (basename s))).
    { unfold cleanupTarget. now rewrite Tr. }
    rewrite T in U. cbn [uploads with_musics]. rewrite U.
    split; [|split].
    + exists m2. split; [|exact F1].
      apply (saved_found w w2 i m m2 Hm K7). rewrite K1, B1.
      now destruct (findById_Some _ _ _ Hm).
    + intros n Hn. rewrite Hn.
      destruct (lookup_without
                  (match thumbnail (req_files req) with
                   | Some _ => cleanupTarget (thumbnailUrl m1)
                   | None => None
                   end)
                  (without (Some n) (uploads w)) n) as [L|L];
        [exact L|]. rewrite L. apply lookup_without_same.
    + intros x Hx Hthumb. rewrite lookup_without_other.
      * now apply lookup_without_other.
      * destruct (thumbnail (req_files req)); [|discriminate].
        rewrite B7. destruct Hthumb as [Hth|Hth]; [discriminate|exact Hth].
Qed.

End UrlEdits.

(** C6, counterexample: the body supplies the empty string as
    [fileUrl] and no file is uploaded; the update goes through and the
    stored URL is still ["/uploads/a.mp3"], not the supplied string. *)
Lemma update_empty_url_ignored :
  option_map fileUrl
    (findById (musics (snd (updateMusic
                              (update_of [("fileUrl", JStr "")] noFiles)
                              one_track))) id1)
  = Some (JStr "/uploads/a.mp3")
  /\ status_of (fst (updateMusic (update_of [("fileUrl", JStr "")] noFiles)
                                 one_track)) = 200
  /\ ~ overwritten_as_stated (update_of [("fileUrl", JStr "")] noFiles)
                             one_track.
Proof.
  split; [vm_compute; reflexivity|]. split; [vm_compute; reflexivity|].
  intros H.
  destruct (H id1 a_track "" eq_refl eq_refl eq_refl eq_refl)
    as [(m' & F & U) _].
  vm_compute in F. injection F as <-. discriminate U.
Qed.

Lemma update_url_without_files_witness :
  exists m',
    findById (musics (snd (updateMusic
                             (update_of [("fileUrl", JStr "/uploads/c.mp3")]
                                        noFiles) one_track))) id1 = Some m'
    /\ fileUrl m' = JStr "/uploads/c.mp3"
    /\ thumbnailUrl m' = JUndefined.
Proof.
  destruct (update_url_without_files (ext := sample)
              (update_of [("fileUrl", JStr "/uploads/c.mp3")] noFiles)
              one_track eq_refl eq_refl) as (_ & _ & H).
  apply (H id1 a_track); reflexivity.
Defined.

(** C9, counterexample: the body repeats the stored URL and a new audio
    file [b.mp3] is uploaded.  The cleanup is after [a.mp3], which is the
    file the record referred to: it is deleted, it does not stay. *)
Lemma update_same_url_removes_previous :
  lookup (uploads one_track) "a.mp3" = Some RegularFile
  /\ lookup (uploads (snd (updateMusic
                             (update_of [("fileUrl", JStr "/uploads/a.mp3")]
                                        audio_b) one_track))) "a.mp3" = None
  /\ ~ reupload_as_stated
         (update_of [("fileUrl", JStr "/uploads/a.mp3")] audio_b) one_track.
Proof.
  split; [reflexivity|]. split; [vm_compute; reflexivity|].
  intros H.
  destruct (H id1 a_track "/uploads/a.mp3" "/uploads/a.mp3"
              {| filename := "b.mp3"; fieldname := "file" |}
              eq_refl eq_refl eq_refl eq_refl eq_refl eq_refl)
    as (_ & K & _).
  vm_compute in K. discriminate K.
Qed.

(** The body names [c.mp3], the record referred to [a.mp3]: after the
    update [a.mp3] is still in the upload directory. *)
Lemma update_reupload_cleans_body_url_witness :
  lookup (uploads (snd (updateMusic
                          (update_of [("fileUrl", JStr "/uploads/c.mp3")]
                                     audio_b)
                          (library [a_track]
                                   [("a.mp3", RegularFile);
                                    ("c.mp3", RegularFile)])))) "a.mp3"
  = Some RegularFile.
Proof.
  destruct (update_reupload_cleans_body_url (ext := sample)
              (update_of [("fileUrl", JStr "/uploads/c.mp3")] audio_b)
              (library [a_track]
                       [("a.mp3", RegularFile); ("c.mp3", RegularFile)])
              id1 a_track "/uploads/c.mp3"
              {| filename := "b.mp3"; fieldname := "file" |}
              eq_refl eq_refl eq_refl ltac:(discriminate) eq_refl eq_refl)
    as (_ & _ & H).
  rewrite H; [reflexivity | discriminate | left; reflexivity].
Defined.

(** ** Lists by category *)

Section ListProperties.

Context {ext : Externals}.

(** C5: a category-filtered list request with a malformed identifier is
    answered 400; with a well-formed identifier that no record carries it
    is answered 404; and a 404 is sent in that case only: the identifier
    is well formed and the list of matching records is empty. *)
Theorem getMusicByCategory_status (req : request) (w : world) :
  (isValid (JStr (param req)) = false ->
   getMusicByCategory req w = Json 400 (Message "Invalid category ID"))
  /\ (forall c, castObjectId (JStr (param req)) = Some c ->
                inCategory c w = [] ->
                getMusicByCategory req w
                = Json 404 (Message "No music found for this category"))
  /\ (status_of (getMusicByCategory req w) = 404 ->
      exists c, castObjectId (JStr (param req)) = Some c
                /\ inCategory c w = [])
  /\ (status_of (getMusicByCategory req w) = 400 ->
      isValid (JStr (param req)) = false).
Proof.
  unfold getMusicByCategory, isValid, inCategory.
  destruct (castObjectId (JStr (param req))) as [c|]; cbv beta iota.
  - split; [discriminate|]. split; [|split].
    + intros c' [= <-] E. now rewrite E.
    + destruct (filter _ (musics w)) as [|m l] eqn:E.
      * intros _. exists c. now split.
      * change (Nat.eqb (List.length (m :: l)) 0) with false. cbv iota.
        destruct (views w (m :: l)); discriminate.
    + destruct (filter _ (musics w)) as [|m l] eqn:E; [discriminate|].
      change (Nat.eqb (List.length (m :: l)) 0) with false. cbv iota.
      destruct (views w (m :: l)); discriminate.
  - split; [reflexivity|]. split; [discriminate|].
    split; [discriminate|reflexivity].
Qed.

End ListProperties.

Lemma getMusicByCategory_status_witness :
  getMusicByCategory (request_for "not-an-id" [] noFiles) one_track
  = Json 400 (Message "Invalid category ID")
  /\ getMusicByCategory
       (request_for "64b000000000000000000002" [] noFiles) one_track
     = Json 404 (Message "No music found for this category").
Proof.
  split.
  - apply (getMusicByCategory_status (ext := sample)
             (request_for "not-an-id" [] noFiles) one_track).
    reflexivity.
  - apply (getMusicByCategory_status (ext := sample)
             (request_for "64b000000000000000000002" [] noFiles) one_track)
      with (c := "64b000000000000000000002"); reflexivity.
Defined.

Example list_of_category :
  status_of (getMusicByCategory
               (request_for "64b000000000000000000001" [] noFiles)
               one_track) = 200.
Proof. vm_compute. reflexivity. Qed.

(** ** URL migration *)

Lemma newUrl_typed (old new host : string) (v : jsval) :
  url_typed v = true ->
  newUrl old new host v = Some (change old new host v).
Proof.
  unfold newUrl, change.
  destruct v; simpl; try reflexivity.
  - intros H. apply negb_true_iff in H. now rewrite H.
  - intros H. apply negb_true_iff in H. now rewrite H.
  - intros _. destruct (negb (String.eqb s "")); [|reflexivity].
    now destruct (includes s host).
  - discriminate.
Qed.

Lemma change_matches (old new host : string) (v : jsval) (u : jsval) :
  change old new host v = Some u -> matchesHost host v = true.
Proof.
  unfold change, matchesHost. destruct v; try discriminate.
  destruct (includes s host); [reflexivity|].
  now rewrite andb_false_r.
Qed.

Lemma counted_found (old new host : string) (m : Music) :
  counted old new host m = true -> found host m = true.
Proof.
  unfold counted, found, needsUpdate.
  destruct (change old new host (fileUrl m)) as [u|] eqn:F.
  - intros _. now rewrite (change_matches old new host _ u F).
  - destruct (change old new host (thumbnailUrl m)) as [u|] eqn:T;
      [|discriminate].
    intros _. rewrite (change_matches old new host _ u T).
    apply orb_true_r.
Qed.

Lemma not_counted_same (old new host : string) (m : Music) :
  counted old new host m = false -> migrateOne old new host m = m.
Proof.
  unfold counted, migrateOne, needsUpdate.
  destruct (change old new host (fileUrl m));
    destruct (change old new host (thumbnailUrl m));
    try discriminate.
  reflexivity.
Qed.

Lemma applyUpdate_fields (f t : option jsval) (m : Music) :
  _id (applyUpdate f t m) = _id m
  /\ fileUrl (applyUpdate f t m)
     = match f with Some u => u | None => fileUrl m end
  /\ thumbnailUrl (applyUpdate f t m)
     = match t with Some u => u | None => thumbnailUrl m end.
Proof. destruct f, t; repeat split. Qed.

Lemma findByIdAndUpdate_app (done l : list Music) (m : Music)
      (u : Music -> Music) :
  ~ In (_id m) (map _id done) ->
  findByIdAndUpdate (done ++ m :: l) (_id m) u = (done ++ u m :: l)%list.
Proof.
  induction done as [|x done IH]; simpl; intros H.
  - now rewrite String.eqb_refl.
  - destruct (String.eqb (_id x) (_id m)) eqn:E.
    + apply String.eqb_eq in E. tauto.
    + rewrite IH; [reflexivity | tauto].
Qed.

Lemma findById_map (f : Music -> Music) (l : list Music) (m : Music) :
  NoDup (map _id l) -> (forall x, _id (f x) = _id x) -> In m l ->
  findById (map f l) (_id m) = Some (f m).
Proof.
  intros ND Hf. induction l as [|a l IH]; simpl; [tauto|].
  inversion ND as [|x xs Hnotin ND']; subst.
  intros [->|Hin].
  - now rewrite Hf, String.eqb_refl.
  - rewrite Hf. destruct (String.eqb (_id a) (_id m)) eqn:E.
    + apply String.eqb_eq in E. exfalso. apply Hnotin. rewrite E.
      now apply in_map.
    + now apply IH.
Qed.

(** The loop, run on the records found in a collection whose ids are
    distinct and whose URL fields are strings or nothing, rewrites every
    document by [migrateOne] and counts the documents that [counted]
    accepts.  [done] is the part of the collection already passed. *)
Lemma migrate_map (old new host : string) (l : list Music) :
  forall (done : list Music) (n : nat),
    NoDup (map _id (done ++ l)) ->
    forallb typed l = true ->
    migrate old new host (filter (found host) l) (done ++ l) n
    = ((done ++ map (migrateOne old new host) l)%list,
       Some (n + List.length (filter (counted old new host) l))).
Proof.
  induction l as [|m l IH]; intros done n ND Ty.
  - simpl. now rewrite Nat.add_0_r.
  - simpl in Ty. apply andb_true_iff in Ty. destruct Ty as [Tm Tl].
    unfold typed in Tm. apply andb_true_iff in Tm. destruct Tm as [Tf Tt].
    assert (Step : forall x, _id x = _id m ->
              migrate old new host (filter (found host) l)
                      (done ++ x :: l) n
              = ((done ++ x :: map (migrateOne old new host) l)%list,
                 Some (n + List.length (filter (counted old new host) l)))
              /\ migrate old new host (filter (found host) l)
                         (done ++ x :: l) (S n)
                 = ((done ++ x :: map (migrateOne old new host) l)%list,
                    Some (S n + List.length
                                  (filter (counted old new host) l)))).
    { intros x Hx.
      assert (ND' : NoDup (map _id ((done ++ [x]) ++ l))).
      { rewrite <- app_assoc. simpl. rewrite map_app. simpl. rewrite Hx.
        rewrite map_app in ND. exact ND. }
      pose proof (IH (done ++ [x])%list n ND' Tl) as H1.
      pose proof (IH (done ++ [x])%list (S n) ND' Tl) as H2.
      rewrite <- !app_assoc in H1, H2. simpl in H1, H2. now split. }
    cbn [filter map].
    destruct (counted old new host m) eqn:C.
    + rewrite (counted_found old new host m C). cbn [migrate].
      rewrite (newUrl_typed old new host _ Tf),
              (newUrl_typed old new host _ Tt).
      unfold counted in C. rewrite C.
      rewrite findByIdAndUpdate_app.
      * destruct (Step (migrateOne old new host m)) as [_ S2].
        { apply applyUpdate_fields. }
        unfold migrateOne in S2 at 1 2. rewrite S2.
        cbn [List.length]. f_equal. f_equal. lia.
      * rewrite map_app in ND. apply NoDup_remove_2 in ND.
        intros Hin. apply ND. apply in_or_app. now left.
    + rewrite (not_counted_same old new host m C).
      destruct (Step m eq_refl) as [S1 _].
      destruct (found host m).
      * cbn [migrate].
        rewrite (newUrl_typed old new host _ Tf),
                (newUrl_typed old new host _ Tt).
        unfold counted in C. rewrite C. exact S1.
      * exact S1.
Qed.

Section MigrationProperties.

Context {ext : Externals}.

Lemma truthy_JStr (s : string) : s <> "" -> truthy (JStr s) = true.
Proof.
  intros H. simpl. destruct (String.eqb s "") eqn:E; [|reflexivity].
  apply String.eqb_eq in E. contradiction.
Qed.

(** A run that finds nothing. *)
Lemma migration_nothing_found (env : environment) (w : world)
      (old new host : string) :
  OLD_BASE_URL env = Some old -> NEW_BASE_URL env = Some new ->
  old <> "" -> new <> "" -> urlHostname old = Some host ->
  filter (found host) (musics w) = [] ->
  updateDatabaseUrls env w = (Json 200 (MigrationReport 0 None), w).
Proof.
  intros Ho Hn Eo En Hh Hf. unfold updateDatabaseUrls.
  rewrite Ho, Hn. unfold js_or.
  change (env_value (Some new)) with (JStr new).
  change (env_value (Some old)) with (JStr old).
  rewrite (truthy_JStr new En). cbv beta iota.
  rewrite (truthy_JStr new En), (truthy_JStr old Eo). cbn [negb orb].
  rewrite Hh, Hf. reflexivity.
Qed.

(** The report and the collection after a run, for a collection whose
    ids are distinct and whose URL fields are strings or nothing. *)
Lemma migration_report (env : environment) (w : world)
      (old new host : string) :
  OLD_BASE_URL env = Some old -> NEW_BASE_URL env = Some new ->
  old <> "" -> new <> "" -> urlHostname old = Some host ->
  NoDup (map _id (musics w)) -> forallb typed (musics w) = true ->
  filter (found host) (musics w) <> [] ->
  updateDatabaseUrls env w
  = (Json 200 (MigrationReport
                 (List.length (filter (counted old new host) (musics w)))
                 (Some (List.length (filter (found host) (musics w))))),
     with_musics (map (migrateOne old new host) (musics w)) w).
Proof.
  intros Ho Hn Eo En Hh ND Ty Hf. unfold updateDatabaseUrls.
  rewrite Ho, Hn. unfold js_or.
  change (env_value (Some new)) with (JStr new).
  change (env_value (Some old)) with (JStr old).
  rewrite (truthy_JStr new En). cbv beta iota.
  rewrite (truthy_JStr new En), (truthy_JStr old Eo). cbn [negb orb].
  rewrite Hh.
  pose proof (migrate_map old new host (musics w) [] 0 ND Ty) as M.
  simpl in M. rewrite M.
  destruct (filter (found host) (musics w)) as [|x l]; [contradiction|].
  reflexivity.
Qed.

End MigrationProperties.

Lemma scenario_url_after (v : jsval) :
  scenario_url v = true ->
  url_typed v = true
  /\ matchesHost old_host
       (match change old_base new_base old_host v with
        | Some u => u
        | None => v
        end) = false.
Proof.
  destruct v; simpl; intros H; try (split; [exact H | reflexivity]).
  destruct (String.eqb s old_a) eqn:E.
  - apply String.eqb_eq in E. subst s. split; reflexivity.
  - simpl in H. apply negb_true_iff in H. split; [reflexivity|].
    rewrite H, andb_false_r. exact H.
Qed.

Lemma scenario_not_found (m : Music) :
  scenario m = true ->
  typed m = true
  /\ found old_host (migrateOne old_base new_base old_host m) = false.
Proof.
  unfold scenario, typed, found, migrateOne. intros H.
  apply andb_true_iff in H. destruct H as [Hf Ht].
  destruct (scenario_url_after _ Hf) as [Tf Mf].
  destruct (scenario_url_after _ Ht) as [Tt Mt].
  split; [now rewrite Tf, Tt|].
  destruct (applyUpdate_fields
              (change old_base new_base old_host (fileUrl m))
              (change old_base new_base old_host (thumbnailUrl m)) m)
    as (_ & -> & ->).
  now rewrite Mf, Mt.
Qed.

Lemma scenario_nothing_left (l : list Music) :
  forallb scenario l = true ->
  filter (found old_host) (map (migrateOne old_base new_base old_host) l)
  = [].
Proof.
  induction l as [|m l IH]; simpl; [reflexivity|].
  intros H. apply andb_true_iff in H. destruct H as [Hm Hl].
  destruct (scenario_not_found m Hm) as [_ ->]. now apply IH.
Qed.

Section MigrationClaims.

Context {ext : Externals}.

(** The example of the migration, for any configuration with these two
    base URLs: a record whose fileUrl is
    ["http://old.example.com/uploads/a.mp3"] is left with fileUrl
    ["http://new.example.com/uploads/a.mp3"]; and when the URLs of the
    collection that mention the old host are all of that form, a second
    run finds nothing. *)
Lemma migration_example (env : environment) (w : world) (m : Music) :
  OLD_BASE_URL env = Some old_base ->
  NEW_BASE_URL env = Some new_base ->
  urlHostname old_base = Some old_host ->
  NoDup (map _id (musics w)) ->
  forallb typed (musics w) = true ->
  In m (musics w) ->
  fileUrl m = JStr old_a ->
  (exists m',
      findById (musics (snd (updateDatabaseUrls env w))) (_id m) = Some m'
      /\ fileUrl m' = JStr new_a)
  /\ (forallb scenario (musics w) = true ->
      fst (updateDatabaseUrls env (snd (updateDatabaseUrls env w)))
      = Json 200 (MigrationReport 0 None)).
Proof.
  intros Ho Hn Hh ND Ty Hin Hf.
  assert (Eo : old_base <> "") by discriminate.
  assert (En : new_base <> "") by discriminate.
  assert (F : found old_host m = true).
  { unfold found. rewrite Hf. reflexivity. }
  assert (NE : filter (found old_host) (musics w) <> []).
  { intros E. assert (I : In m (filter (found old_host) (musics w)))
      by (apply filter_In; now split).
    rewrite E in I. contradiction. }
  rewrite (migration_report env w old_base new_base old_host
             Ho Hn Eo En Hh ND Ty NE).
  cbn [fst snd]. split.
  - exists (migrateOne old_base new_base old_host m). split.
    + cbn [musics with_musics]. apply findById_map; try assumption.
      intros x. apply applyUpdate_fields.
    + unfold migrateOne.
      destruct (applyUpdate_fields
                  (change old_base new_base old_host (fileUrl m))
                  (change old_base new_base old_host (thumbnailUrl m)) m)
        as (_ & -> & _).
      rewrite Hf. reflexivity.
  - intros Sc.
    rewrite (migration_nothing_found env
               (with_musics
                  (map (migrateOne old_base new_base old_host) (musics w)) w)
               old_base new_base old_host Ho Hn Eo En Hh).
    + reflexivity.
    + cbn [musics with_musics]. now apply scenario_nothing_left.
Qed.

End MigrationClaims.

Lemma migration_example_witness :
  (exists m',
      findById (musics (snd (updateDatabaseUrls hosts old_host_library)))
               id1 = Some m'
      /\ fileUrl m' = JStr new_a)
  /\ fst (updateDatabaseUrls hosts
            (snd (updateDatabaseUrls hosts old_host_library)))
     = Json 200 (MigrationReport 0 None).
Proof.
  destruct (migration_example (ext := sample) hosts old_host_library
              (track id1 (JStr old_a) JUndefined)
              eq_refl eq_refl eq_refl) as [H1 H2].
  - simpl. repeat constructor; simpl; intuition discriminate.
  - reflexivity.
  - simpl. now left.
  - reflexivity.
  - split; [exact H1 | apply H2; reflexivity].
Defined.

Example migration_first_run :
  fst (updateDatabaseUrls hosts old_host_library)
  = Json 200 (MigrationReport 1 (Some 1)).
Proof. vm_compute. reflexivity. Qed.

(** C7, the code at the failing input: the collection holds the record
    of the example, with fileUrl
    ["http://old.example.com/uploads/a.mp3"], beside a record served over
    https from the old host.  The first run rewrites the fileUrl of the
    example record to ["http://new.example.com/uploads/a.mp3"]; the
    second run then finds the other record by its host name, changes no
    field of any record, and still reports one updated record instead of
    zero. *)
Lemma migration_second_run_counts_again :
  In (track id1 (JStr old_a) JUndefined) (musics mixed_scheme_library)
  /\ option_map fileUrl
       (findById
          (musics (snd (updateDatabaseUrls hosts mixed_scheme_library)))
          id1)
     = Some (JStr new_a)
  /\ updateDatabaseUrls hosts
       (snd (updateDatabaseUrls hosts mixed_scheme_library))
     = (Json 200 (MigrationReport 1 (Some 1)),
        snd (updateDatabaseUrls hosts mixed_scheme_library))
  /\ modifiedCount
       (musics (snd (updateDatabaseUrls hosts mixed_scheme_library)))
       (musics (snd (updateDatabaseUrls hosts
                       (snd (updateDatabaseUrls hosts
                               mixed_scheme_library))))) = 0.
Proof.
  split; [now left|]. repeat split; vm_compute; reflexivity.
Qed.

(** C8, the code at the failing input: the only record is served over
    https from the old host.  It is found by its host name, the
    replacement of ["http://old.example.com"] changes nothing in it, and
    the run still reports one updated record while the collection is
    what it was. *)
Lemma migration_counts_unchanged_record :
  updateDatabaseUrls hosts https_library
  = (Json 200 (MigrationReport 1 (Some 1)), https_library)
  /\ modifiedCount (musics https_library)
       (musics (snd (updateDatabaseUrls hosts https_library))) = 0.
Proof. split; vm_compute; reflexivity. Qed.

(** * Further properties of the controller *)

(** ** Paths and the sanitizer *)

Lemma chars_app (a b : string) : chars (a ++ b) = (chars a ++ chars b)%list.
Proof. induction a as [|c a IH]; simpl; [reflexivity | now rewrite IH]. Qed.

Lemma string_of_chars (s : string) : string_of_list_ascii (chars s) = s.
Proof. apply string_of_list_ascii_of_string. Qed.

Lemma take_component_all (l : list ascii) :
  ~ In slash l -> take_component l = l.
Proof.
  induction l as [|c l IH]; simpl; [reflexivity|].
  intros H. destruct (Ascii.eqb c slash) eqn:E.
  - apply Ascii.eqb_eq in E. tauto.
  - rewrite IH; tauto.
Qed.

Lemma take_component_app (a b : list ascii) :
  ~ In slash a -> take_component (a ++ slash :: b) = a.
Proof.
  induction a as [|c a IH]; intros H.
  - reflexivity.
  - simpl. destruct (Ascii.eqb c slash) eqn:E.
    + apply Ascii.eqb_eq in E. simpl in H. tauto.
    + rewrite IH; simpl in H; tauto.
Qed.

Lemma skip_separators_segment (l : list ascii) :
  ~ In slash l -> skip_separators l = l.
Proof.
  destruct l as [|c l]; simpl; [reflexivity|].
  intros H. destruct (Ascii.eqb c slash) eqn:E; [|reflexivity].
  apply Ascii.eqb_eq in E. tauto.
Qed.

(** A single path segment is its own base name. *)
Lemma basename_segment (n : string) :
  ~ In slash (chars n) -> basename n = n.
Proof.
  intros H. unfold basename.
  assert (R : ~ In slash (rev (chars n))) by now rewrite <- in_rev.
  rewrite (skip_separators_segment _ R), (take_component_all _ R).
  rewrite rev_involutive. apply string_of_chars.
Qed.

(** The base name of [dir/n] is [n], for a non-empty segment [n]. *)
Lemma basename_join (dir n : string) :
  n <> "" -> ~ In slash (chars n) ->
  basename (dir ++ String slash n) = n.
Proof.
  intros Hne H. unfold basename.
  rewrite chars_app. simpl. rewrite rev_app_distr. simpl.
  rewrite <- app_assoc. simpl.
  assert (R : ~ In slash (rev (chars n))) by now rewrite <- in_rev.
  assert (S : skip_separators (rev (chars n) ++ slash :: rev (chars dir))
              = (rev (chars n) ++ slash :: rev (chars dir))%list).
  { destruct (rev (chars n)) as [|c l] eqn:E.
    - exfalso. apply Hne. rewrite <- (string_of_chars n).
      rewrite <- (rev_involutive (chars n)), E. reflexivity.
    - simpl. destruct (Ascii.eqb c slash) eqn:E'; [|reflexivity].
      apply Ascii.eqb_eq in E'. subst c. exfalso. apply R. now left. }
  rewrite S, (take_component_app _ _ R), rev_involutive.
  apply string_of_chars.
Qed.

Lemma safe_name_segment (n : string) :
  safe_name n = true -> n <> "" /\ ~ In slash (chars n).
Proof.
  unfold safe_name. intros H. apply andb_true_iff in H.
  destruct H as [H1 H2]. split.
  - intros E. rewrite E in H1. discriminate H1.
  - intros Hin. rewrite forallb_forall in H2.
    specialize (H2 _ Hin). discriminate H2.
Qed.

Lemma sanitized_name_safe (s name : string) :
  sanitizeFilename (JStr s) = Some name ->
  safe_name name = true /\ name = basename s.
Proof.
  intros H.
  destruct (sanitizeFilename_accepts s name H) as (E & Hne & Hall & _).
  split; [|exact E]. unfold safe_name. rewrite Hall, andb_true_r.
  destruct (String.eqb name "") eqn:E'; [|reflexivity].
  apply String.eqb_eq in E'. contradiction.
Qed.

(** X1: a name the sanitizer returns comes from a string, is the final
    path segment of that string, is not empty, is made of characters of
    [[a-zA-Z0-9._-]] only, holds no separator, and is accepted unchanged
    when sanitized again. *)
Theorem sanitizeFilename_result_safe (v : jsval) (name : string) :
  sanitizeFilename v = Some name ->
  (exists s, v = JStr s /\ name = basename s)
  /\ safe_name name = true
  /\ ~ In slash (chars name)
  /\ sanitizeFilename (JStr name) = Some name.
Proof.
  intros H. destruct v; try discriminate H.
  destruct (sanitizeFilename_accepts s name H) as (E & Hne & Hall & Hs).
  assert (Safe : safe_name name = true).
  { unfold safe_name. rewrite Hall, andb_true_r.
    destruct (String.eqb name "") eqn:E'; [|reflexivity].
    apply String.eqb_eq in E'. contradiction. }
  split; [exists s; now split|]. split; [exact Safe|]. split; [exact Hs|].
  unfold sanitizeFilename. rewrite (basename_segment name Hs), Safe.
  simpl. destruct (String.eqb name "") eqn:E'; [|reflexivity].
  apply String.eqb_eq in E'. contradiction.
Qed.

Lemma sanitizeFilename_result_safe_witness :
  safe_name "a.mp3" = true
  /\ sanitizeFilename (JStr "a.mp3") = Some "a.mp3".
Proof.
  destruct (sanitizeFilename_result_safe
              (JStr "/var/www/uploads/a.mp3") "a.mp3" eq_refl)
    as (_ & S & _ & F).
  now split.
Defined.

(** X2: the handlers pass [path.basename(url)] to the sanitizer, which
    takes the base name again; the sanitizer gives the same answer on
    the base name as on the whole string. *)
Theorem sanitizeFilename_of_basename (s : string) :
  sanitizeFilename (JStr (basename s)) = sanitizeFilename (JStr s).
Proof.
  unfold sanitizeFilename.
  rewrite (basename_segment (basename s) (basename_no_slash s)).
  simpl. destruct (String.eqb (basename s) "") eqn:B.
  - apply String.eqb_eq in B. simpl.
    destruct (String.eqb s ""); simpl; [reflexivity|].
    rewrite B. reflexivity.
  - simpl. destruct (String.eqb s "") eqn:E; [|reflexivity].
    apply String.eqb_eq in E. subst s. discriminate B.
Qed.

(** ** What the handlers do to the filesystem *)

Lemma tidy_refl (w : world) : tidy w w.
Proof. split; [intros x; now left | intros c H; now left]. Qed.

Lemma tidy_trans (w1 w2 w3 : world) : tidy w1 w2 -> tidy w2 w3 -> tidy w1 w3.
Proof.
  intros [S12 C12] [S23 C23]. split.
  - intros x. destruct (S23 x) as [E|[F N]].
    + rewrite E. apply S12.
    + destruct (S12 x) as [E|[F' N']].
      * right. split; [now rewrite <- E | exact N].
      * rewrite N' in F. discriminate F.
  - intros c H. destruct (C23 c H) as [H2|S]; [|now right].
    now apply C12.
Qed.

Lemma tidy_with_musics (w w' : world) (l : list Music) :
  tidy w w' -> tidy w (with_musics l w').
Proof. intros [S C]. split; assumption. Qed.

Lemma cleanupFile_tidy (url : jsval) (w : world) :
  tidy w (snd (cleanupFile url w)).
Proof.
  unfold cleanupFile. destruct (truthy url); [|apply tidy_refl].
  destruct (path_basename url) as [b|]; [|apply tidy_refl].
  destruct (sanitizeFilename (JStr b)) as [name|] eqn:San; [|apply tidy_refl].
  destruct (sanitized_name_safe b name San) as [Safe _].
  assert (Calls : forall d calls,
             (forall c, In c calls -> call_name c = name) ->
             only_safe_calls w (with_uploads d calls w)).
  { intros d calls Hc c Hin. simpl in Hin. apply in_app_or in Hin.
    destruct Hin as [Hin|Hin]; [now left|]. right.
    now rewrite (Hc c Hin). }
  assert (Two : forall c, In c [ExistsSync name; UnlinkSync name] ->
                          call_name c = name).
  { intros c [<-|[<-|[]]]; reflexivity. }
  assert (One : forall c, In c [ExistsSync name] -> call_name c = name).
  { intros c [<-|[]]; reflexivity. }
  destruct (stat (uploads w) name) as [[|]|] eqn:St; simpl; split;
    try (now apply Calls); try (intros x; now left).
  intros x. simpl. rewrite lookup_remove_entry.
  destruct (String.eqb x name) eqn:E; [|now left].
  apply String.eqb_eq in E. subst x. right.
  split; [now apply stat_file_lookup | reflexivity].
Qed.

Lemma replaceFiles_tidy (fs : files) (m : Music) (w : world) :
  tidy w (snd (replaceFiles fs m w)).
Proof.
  unfold replaceFiles.
  assert (Thumb : forall m1 w1, tidy w w1 ->
            tidy w (snd (match thumbnail fs with
                         | Some thumbnailFile =>
                             let (ok, w') :=
                               cleanupFile (thumbnailUrl m1) w1 in
                             (ok, set_thumbnailUrl (uploadUrl thumbnailFile) m1,
                              w')
                         | None => (true, m1, w1)
                         end))).
  { intros m1 w1 T. destruct (thumbnail fs) as [t|]; [|exact T].
    pose proof (cleanupFile_tidy (thumbnailUrl m1) w1) as T2.
    destruct (cleanupFile (thumbnailUrl m1) w1) as [ok w2].
    exact (tidy_trans w w1 (snd (ok, w2)) T T2). }
  destruct (file fs) as [a|].
  - pose proof (cleanupFile_tidy (fileUrl m) w) as T1.
    destruct (cleanupFile (fileUrl m) w) as [[|] w1]; simpl in T1.
    + now apply Thumb.
    + exact T1.
  - apply Thumb. apply tidy_refl.
Qed.

Section FilesystemProperties.

Context {ext : Externals}.

Lemma updateMusic_tidy (req : request) (w : world) :
  tidy w (snd (updateMusic req w)).
Proof.
  unfold updateMusic.
  destruct (castObjectId (JStr (param req))) as [i|]; [|apply tidy_refl].
  destruct (findById (musics w) i) as [m|]; [|apply tidy_refl].
  destruct (assignBody (body req) m) as [r|m1]; [apply tidy_refl|].
  pose proof (replaceFiles_tidy (req_files req) m1 w) as T.
  destruct (replaceFiles (req_files req) m1 w) as [[[|] m2] w2];
    simpl in T; [now apply tidy_with_musics | exact T].
Qed.

Lemma deleteMusic_tidy (req : request) (w : world) :
  tidy w (snd (deleteMusic req w)).
Proof.
  unfold deleteMusic.
  destruct (castObjectId (JStr (param req))) as [i|]; [|apply tidy_refl].
  destruct (findById (musics w) i) as [m|]; [|apply tidy_refl].
  pose proof (cleanupFile_tidy (fileUrl m) w) as T1.
  destruct (cleanupFile (fileUrl m) w) as [[|] w1]; simpl in T1;
    [|exact T1].
  pose proof (cleanupFile_tidy (thumbnailUrl m) w1) as T2.
  destruct (cleanupFile (thumbnailUrl m) w1) as [[|] w2]; simpl in T2.
  - apply tidy_with_musics. exact (tidy_trans w w1 w2 T1 T2).
  - exact (tidy_trans w w1 w2 T1 T2).
Qed.

(** X3: whatever the request and the stored URLs, every [existsSync]
    and [unlinkSync] call an update or a delete makes is on a name that
    passes the sanitizer's test: one non-empty path segment of
    characters of [[a-zA-Z0-9._-]], never a path with a separator. *)
Theorem handlers_call_fs_on_safe_names (req : request) (w : world) :
  only_safe_calls w (snd (updateMusic req w))
  /\ only_safe_calls w (snd (deleteMusic req w)).
Proof.
  split; [apply updateMusic_tidy | apply deleteMusic_tidy].
Qed.

(** X4: an update or a delete never creates or changes an entry of the
    upload directory and never removes a directory: each name is found
    afterwards as it was before, or was a regular file and is gone. *)
Theorem handlers_only_remove_regular_files (req : request) (w : world) :
  shrinks (uploads w) (uploads (snd (updateMusic req w)))
  /\ shrinks (uploads w) (uploads (snd (deleteMusic req w))).
Proof.
  split; [apply updateMusic_tidy | apply deleteMusic_tidy].
Qed.

(** X5: creating a record and migrating URLs perform no filesystem
    operation: the upload directory and the log of filesystem calls are
    what they were, whatever the outcome. *)
Theorem create_and_migration_leave_files (req : request)
        (env : environment) (w : world) :
  (uploads (snd (createMusic req w)) = uploads w
   /\ fslog (snd (createMusic req w)) = fslog w)
  /\ (uploads (snd (updateDatabaseUrls env w)) = uploads w
      /\ fslog (snd (updateDatabaseUrls env w)) = fslog w).
Proof.
  split.
  - unfold createMusic.
    destruct (Nat.ltb 0 (List.length (missingFields req))); [now split|].
    destruct (Nat.ltb 1000 _); [now split|].
    destruct (castObjectId (get (body req) "category"));
      destruct (castObjectId (get (body req) "categoryType"));
      destruct (file (req_files req)); now split.
  - unfold updateDatabaseUrls.
    destruct (env_value (OLD_BASE_URL env)); try (now split).
    destruct (js_or _ _); try (now split).
    destruct (negb (truthy (JStr s)) || negb (truthy (JStr s0)));
      [now split|].
    destruct (urlHostname s) as [h|]; [|now split].
    destruct (Nat.eqb _ 0); [now split|].
    destruct (migrate s s0 h _ (musics w) 0) as [store [n|]]; now split.
Qed.

End FilesystemProperties.

(** ** What the handlers do to the collection *)

Lemma findByIdAndDelete_other (l : list Music) (i j : oid) :
  j <> i -> findById (findByIdAndDelete l i) j = findById l j.
Proof.
  intros Hne. induction l as [|m l IH]; simpl; [reflexivity|].
  destruct (String.eqb (_id m) i) eqn:E.
  - apply String.eqb_eq in E.
    destruct (String.eqb (_id m) j) eqn:E'; [|reflexivity].
    apply String.eqb_eq in E'. congruence.
  - simpl. now rewrite IH.
Qed.

Lemma findByIdAndDelete_absent (l : list Music) (i : oid) :
  findById l i = None -> findByIdAndDelete l i = l.
Proof.
  induction l as [|m l IH]; simpl; [reflexivity|].
  destruct (String.eqb (_id m) i); [discriminate|].
  intros H. now rewrite IH.
Qed.

Lemma ids_after_delete (l : list Music) (i : oid) :
  NoDup (map _id l) -> NoDup (map _id (findByIdAndDelete l i))
  /\ forall x, In x (map _id (findByIdAndDelete l i)) -> In x (map _id l).
Proof.
  induction l as [|m l IH]; simpl; intros ND; [now split|].
  inversion ND as [|x xs Hnotin ND']; subst.
  destruct (String.eqb (_id m) i).
  - split; [exact ND' | intros x Hx; now right].
  - destruct (IH ND') as [N S]. simpl. split.
    + constructor; [|exact N]. intros Hin. apply Hnotin. now apply S.
    + intros x [Hx|Hx]; [now left | right; now apply S].
Qed.

Lemma ids_after_update (l : list Music) (i : oid) (u : Music -> Music) :
  (forall m, _id m = i -> _id (u m) = i) ->
  map _id (findByIdAndUpdate l i u) = map _id l.
Proof.
  intros Hu. induction l as [|m l IH]; simpl; [reflexivity|].
  destruct (String.eqb (_id m) i) eqn:E; simpl.
  - apply String.eqb_eq in E. rewrite (Hu m E). now rewrite E.
  - now rewrite IH.
Qed.

Lemma findByIdAndUpdate_other (l : list Music) (i j : oid)
      (u : Music -> Music) :
  (forall m, _id m = i -> _id (u m) = i) -> j <> i ->
  findById (findByIdAndUpdate l i u) j = findById l j.
Proof.
  intros Hu Hne. induction l as [|m l IH]; simpl; [reflexivity|].
  destruct (String.eqb (_id m) i) eqn:E; simpl.
  - apply String.eqb_eq in E. rewrite (Hu m E).
    destruct (String.eqb i j) eqn:E1.
    + apply String.eqb_eq in E1. congruence.
    + rewrite E. now rewrite E1.
  - now rewrite IH.
Qed.

Lemma migrate_ids (old new host : string) (recs : list Music) :
  forall (store : list Music) (n : nat),
    map _id (fst (migrate old new host recs store n)) = map _id store.
Proof.
  induction recs as [|m recs IH]; intros store n; simpl; [reflexivity|].
  destruct (newUrl old new host (fileUrl m)) as [f|]; [|reflexivity].
  destruct (newUrl old new host (thumbnailUrl m)) as [t|]; [|reflexivity].
  destruct (needsUpdate f t); [|apply IH].
  rewrite IH. apply ids_after_update.
  intros x Hx. now destruct (applyUpdate_fields f t x) as [-> _].
Qed.

Section CollectionProperties.

Context {ext : Externals}.

(** X6: a delete answers 400 to a malformed id and throws with status
    404 for an id that names no record, leaving everything as it was;
    unless it answers with the success message the collection is
    unchanged; it never touches a record other than the one addressed,
    nor the categories, and keeps the ids distinct. *)
Theorem deleteMusic_frame (req : request) (w : world) :
  (isValid (JStr (param req)) = false ->
   deleteMusic req w = (Json 400 (Message "Invalid music ID"), w))
  /\ (forall i, castObjectId (JStr (param req)) = Some i ->
                findById (musics w) i = None ->
                deleteMusic req w
                = (Thrown 404 (ErrorMessage "Music not found"), w))
  /\ (fst (deleteMusic req w)
      <> Json 200 (Message "Music deleted successfully") ->
      musics (snd (deleteMusic req w)) = musics w)
  /\ (forall j, castObjectId (JStr (param req)) <> Some j ->
                findById (musics (snd (deleteMusic req w))) j
                = findById (musics w) j)
  /\ categories (snd (deleteMusic req w)) = categories w
  /\ (NoDup (map _id (musics w)) ->
      NoDup (map _id (musics (snd (deleteMusic req w))))).
Proof.
  unfold deleteMusic, isValid.
  destruct (castObjectId (JStr (param req))) as [i|].
  2:{ repeat split; auto; discriminate. }
  destruct (findById (musics w) i) as [m|] eqn:Hm.
  2:{ split; [discriminate|]. split; [reflexivity|]. repeat split; auto. }
  destruct (cleanupFile_collections (fileUrl m) w) as [M1 C1].
  destruct (cleanupFile (fileUrl m) w) as [[|] w1]; simpl in M1, C1.
  2:{ split; [discriminate|]. split; [intros i' [= <-] H'; congruence|].
      simpl. rewrite M1. repeat split; auto. }
  destruct (cleanupFile_collections (thumbnailUrl m) w1) as [M2 C2].
  destruct (cleanupFile (thumbnailUrl m) w1) as [[|] w2]; simpl in M2, C2.
  2:{ split; [discriminate|]. split; [intros i' [= <-] H'; congruence|].
      simpl. rewrite M2, M1. repeat split; auto. congruence. }
  split; [discriminate|]. split; [intros i' [= <-] H'; congruence|].
  simpl. rewrite M2, M1. split; [congruence|]. split; [|split].
  - intros j Hj. apply findByIdAndDelete_other. congruence.
  - congruence.
  - intros ND. now apply ids_after_delete.
Qed.

(** The fields the body assignments leave alone or set from an
    identifier. *)
Lemma assignBody_identifiers (b : jsobject) (m m' : Music) :
  assignBody b m = inr m' ->
  user m' = user m
  /\ category m'
     = (if truthy (get b "category") then castObjectId (get b "category")
        else category m)
  /\ categoryType m'
     = (if truthy (get b "categoryType")
        then castObjectId (get b "categoryType") else categoryType m)
  /\ (truthy (get b "category") = true -> isValid (get b "category") = true)
  /\ (truthy (get b "categoryType") = true ->
      isValid (get b "categoryType") = true).
Proof.
  unfold assignBody.
  destruct (truthy (get b "category")) eqn:Tc;
    destruct (isValid (get b "category")) eqn:Vc; simpl;
    try discriminate;
    destruct (truthy (get b "categoryType")) eqn:Tt;
    destruct (isValid (get b "categoryType")) eqn:Vt; simpl;
    try discriminate;
    destruct (truthy (get b "fileUrl")), (truthy (get b "thumbnailUrl"));
    destruct (get b "description");
    try match goal with
      | |- context [Nat.ltb 1000 ?n] => destruct (Nat.ltb 1000 n)
      end;
    try discriminate; intros [= <-]; repeat split; auto; discriminate.
Qed.

Lemma replaceFiles_identifiers (fs : files) (m : Music) (w : world) :
  let r := replaceFiles fs m w in
  user (snd (fst r)) = user m
  /\ category (snd (fst r)) = category m
  /\ categoryType (snd (fst r)) = categoryType m
  /\ categories (snd r) = categories w.
Proof.
  unfold replaceFiles.
  destruct (file fs) as [a|].
  - destruct (cleanupFile_collections (fileUrl m) w) as [_ C1].
    destruct (cleanupFile (fileUrl m) w) as [[|] w1]; simpl in C1.
    + destruct (thumbnail fs) as [t|].
      * destruct (cleanupFile_collections
                    (thumbnailUrl (set_fileUrl (uploadUrl a) m)) w1)
          as [_ C2].
        destruct (cleanupFile (thumbnailUrl (set_fileUrl (uploadUrl a) m)) w1)
          as [ok w2]; simpl in *.
        repeat split; congruence.
      * simpl. repeat split; congruence.
    + simpl. repeat split; congruence.
  - destruct (thumbnail fs) as [t|].
    + destruct (cleanupFile_collections (thumbnailUrl m) w) as [_ C2].
      destruct (cleanupFile (thumbnailUrl m) w) as [ok w2]; simpl in *.
      repeat split; congruence.
    + simpl. repeat split; congruence.
Qed.

(** X7: an update answers 400 to a malformed id and 404 to an id that
    names no record; answered 400 or 404 it leaves everything as it was,
    and answered anything but 200 it leaves the collection as it was.
    It never adds, removes or reorders records, never touches a record
    other than the one addressed nor the categories, and the record it
    saves keeps its id and its owner. *)
Theorem updateMusic_frame (req : request) (w : world) :
  (isValid (JStr (param req)) = false ->
   updateMusic req w = (Json 400 (Message "Invalid music ID"), w))
  /\ (forall i, castObjectId (JStr (param req)) = Some i ->
                findById (musics w) i = None ->
                updateMusic req w = (Json 404 (Message "Music not found"), w))
  /\ (status_of (fst (updateMusic req w)) = 400
      \/ status_of (fst (updateMusic req w)) = 404 ->
      snd (updateMusic req w) = w)
  /\ (status_of (fst (updateMusic req w)) <> 200 ->
      musics (snd (updateMusic req w)) = musics w)
  /\ map _id (musics (snd (updateMusic req w))) = map _id (musics w)
  /\ categories (snd (updateMusic req w)) = categories w
  /\ (forall j, castObjectId (JStr (param req)) <> Some j ->
                findById (musics (snd (updateMusic req w))) j
                = findById (musics w) j)
  /\ (forall i m m',
         castObjectId (JStr (param req)) = Some i ->
         findById (musics w) i = Some m ->
         findById (musics (snd (updateMusic req w))) i = Some m' ->
         _id m' = _id m /\ user m' = user m).
Proof.
  unfold isValid.
  destruct (castObjectId (JStr (param req))) as [i|] eqn:Hid.
  2:{ unfold updateMusic. rewrite Hid.
      repeat split; auto; try discriminate. }
  destruct (findById (musics w) i) as [m|] eqn:Hm.
  2:{ unfold updateMusic. rewrite Hid, Hm.
      split; [discriminate|]. split; [reflexivity|].
      repeat split; auto; congruence. }
  split; [discriminate|]. split; [intros i' [= <-]; congruence|].
  destruct (findById_Some _ _ _ Hm) as [_ Im].
  update_outcome Hid Hm; rewrite E; cbn [fst snd status_of].
  - repeat split; auto; congruence.
  - pose proof (replaceFiles_keeps (req_files req) m1 w) as K.
    pose proof (replaceFiles_identifiers (req_files req) m1 w) as K'.
    rewrite R in K, K'. simpl in K, K'.
    destruct K as (_ & _ & _ & _ & _ & _ & K7).
    destruct K' as (_ & _ & _ & KC).
    split; [intros [H|H]; discriminate H|].
    rewrite K7. repeat split; auto; congruence.
  - pose proof (replaceFiles_keeps (req_files req) m1 w) as K.
    pose proof (replaceFiles_identifiers (req_files req) m1 w) as K'.
    rewrite R in K, K'. simpl in K, K'.
    destruct K as (K1 & _ & _ & _ & _ & _ & K7).
    destruct K' as (KU & _ & _ & KC).
    destruct (assignBody_inr _ _ _ A) as (B1 & _).
    destruct (assignBody_identifiers _ _ _ A) as (BU & _).
    assert (Id2 : _id m2 = i) by congruence.
    assert (Keep : forall x : Music, _id x = _id m2 ->
                                     _id ((fun _ : Music => m2) x) = _id m2)
      by reflexivity.
    split; [intros [H|H]; discriminate H|].
    split; [intros H; now elim H|].
    cbn [musics categories with_musics]. unfold save. rewrite K7.
    split; [now apply ids_after_update|]. split; [exact KC|]. split.
    + intros j Hj. apply findByIdAndUpdate_other; [exact Keep|congruence].
    + intros i' x m' [= <-] Hx Hm'. rewrite Hm in Hx. injection Hx as <-.
      rewrite Id2 in Hm'.
      rewrite (findById_after_update (musics w) i (fun _ => m2) m Hm Id2)
        in Hm'.
      injection Hm' as <-. split; congruence.
Qed.

(** X8: for an update of an existing record, a malformed [category] is
    answered 400 "Invalid category ID" and, the category passing, a
    malformed [categoryType] is answered 400 "Invalid categoryType ID",
    nothing being stored or deleted; when the update goes through, the
    record holds the identifier parsed from each supplied value and
    keeps its previous one where the body has none. *)
Theorem updateMusic_category (req : request) (w : world)
        (i : oid) (m : Music) :
  castObjectId (JStr (param req)) = Some i ->
  findById (musics w) i = Some m ->
  (truthy (get (body req) "category") = true ->
   isValid (get (body req) "category") = false ->
   updateMusic req w = (Json 400 (Message "Invalid category ID"), w))
  /\ ((truthy (get (body req) "category") = true ->
       isValid (get (body req) "category") = true) ->
      truthy (get (body req) "categoryType") = true ->
      isValid (get (body req) "categoryType") = false ->
      updateMusic req w = (Json 400 (Message "Invalid categoryType ID"), w))
  /\ (status_of (fst (updateMusic req w)) = 200 ->
      exists m',
        findById (musics (snd (updateMusic req w))) i = Some m'
        /\ category m'
           = (if truthy (get (body req) "category")
              then castObjectId (get (body req) "category")
              else category m)
        /\ categoryType m'
           = (if truthy (get (body req) "categoryType")
              then castObjectId (get (body req) "categoryType")
              else categoryType m)
        /\ (truthy (get (body req) "category") = true ->
            category m' <> None)
        /\ (truthy (get (body req) "categoryType") = true ->
            categoryType m' <> None)).
Proof.
  intros Hid Hm. split; [|split].
  - intros T V. unfold updateMusic. rewrite Hid, Hm.
    unfold assignBody. now rewrite T, V.
  - intros C T V. unfold updateMusic. rewrite Hid, Hm.
    unfold assignBody.
    assert (C' : truthy (get (body req) "category")
                 && negb (isValid (get (body req) "category")) = false).
    { destruct (truthy (get (body req) "category")); [|reflexivity].
      now rewrite C. }
    now rewrite C', T, V.
  - update_outcome Hid Hm; rewrite E; cbn [fst snd status_of].
    + destruct (assignBody_inl _ _ _ A) as [msg ->]. discriminate.
    + discriminate.
    + intros _.
      pose proof (replaceFiles_keeps (req_files req) m1 w) as K.
      pose proof (replaceFiles_identifiers (req_files req) m1 w) as K'.
      rewrite R in K, K'. simpl in K, K'.
      destruct K as (K1 & _ & _ & _ & _ & _ & K7).
      destruct K' as (_ & KC & KT & _).
      destruct (assignBody_inr _ _ _ A) as (B1 & _).
      destruct (assignBody_identifiers _ _ _ A) as (_ & BC & BT & VC & VT).
      exists m2. split.
      * apply (saved_found w w2 i m m2 Hm K7). rewrite K1, B1.
        now destruct (findById_Some _ _ _ Hm).
      * rewrite KC, KT, BC, BT. repeat split.
        -- intros T. rewrite T. specialize (VC T). unfold isValid in VC.
           destruct (castObjectId (get (body req) "category"));
             [discriminate | discriminate VC].
        -- intros T. rewrite T. specialize (VT T). unfold isValid in VT.
           destruct (castObjectId (get (body req) "categoryType"));
             [discriminate | discriminate VT].
Qed.

End CollectionProperties.

(** ** Create *)

Lemma findById_app (l : list Music) (d : Music) (j : oid) :
  findById (l ++ [d]) j
  = match findById l j with
    | Some m => Some m
    | None => if String.eqb (_id d) j then Some d else None
    end.
Proof.
  induction l as [|m l IH]; simpl; [reflexivity|].
  destruct (String.eqb (_id m) j); [reflexivity | exact IH].
Qed.

Lemma NoDup_snoc (l : list oid) (x : oid) :
  ~ In x l -> NoDup l -> NoDup (l ++ [x]).
Proof.
  intros Hx ND. induction ND as [|y l Hy ND IH]; simpl.
  - constructor; [tauto | constructor].
  - constructor.
    + intros Hin. apply in_app_or in Hin. destruct Hin as [Hin|[->|[]]].
      * contradiction.
      * apply Hx. now left.
    + apply IH. intros Hin. apply Hx. now right.
Qed.

Section CreateSuccess.

Context {ext : Externals}.

Lemma missingFields_nil_file (req : request) :
  missingFields req = [] -> exists audio, file (req_files req) = Some audio.
Proof.
  rewrite missingFields_unusable. unfold required, unusable. cbn.
  destruct (file (req_files req)) as [a|]; [intros _; now exists a|].
  cbn.
  repeat match goal with
         | |- context [truthy ?v] => destruct (truthy v)
         end; discriminate.
Qed.

(** X9: a create request that carries every required input, a
    description of at most 1000 characters after sanitization and
    well-formed category identifiers is answered 201 with the new record.
    The collection grows by that one record at its end; its [fileUrl] is
    [/uploads/] followed by the stored name of the audio file, its
    [thumbnailUrl] likewise when a thumbnail was uploaded and undefined
    otherwise, its description the sanitized text (empty when none was
    sent).  Provided the generated id is new, the record returned is the
    record created, every record found before is found unchanged, and
    the ids stay distinct. *)
Theorem createMusic_success (req : request) (w : world) (c ct : oid) :
  missingFields req = [] ->
  String.length (sanitizeText (get (body req) "description")) <= 1000 ->
  castObjectId (get (body req) "category") = Some c ->
  castObjectId (get (body req) "categoryType") = Some ct ->
  exists audio doc,
    file (req_files req) = Some audio
    /\ musics (snd (createMusic req w)) = (musics w ++ [doc])%list
    /\ status_of (fst (createMusic req w)) = 201
    /\ title doc = get (body req) "title"
    /\ artist doc = get (body req) "artist"
    /\ category doc = Some c
    /\ categoryType doc = Some ct
    /\ fileUrl doc = JStr ("/uploads/" ++ filename audio)
    /\ thumbnailUrl doc
       = match thumbnail (req_files req) with
         | Some t => JStr ("/uploads/" ++ filename t)
         | None => JUndefined
         end
    /\ duration doc = toNumber (get (body req) "duration")
    /\ releaseDate doc = toDate (get (body req) "releaseDate")
    /\ user doc = req_user req
    /\ description doc = JStr (sanitizeText (get (body req) "description"))
    /\ (~ In (freshId (map _id (musics w))) (map _id (musics w)) ->
        fst (createMusic req w)
        = Json 201 (Document
                      (Some (doc, option_map summary (populate w doc))))
        /\ (forall j m, findById (musics w) j = Some m ->
                        findById (musics (snd (createMusic req w))) j
                        = Some m)
        /\ (NoDup (map _id (musics w)) ->
            NoDup (map _id (musics (snd (createMusic req w)))))).
Proof.
  intros Hmiss Hlen Hc Hct.
  destruct (missingFields_nil_file req Hmiss) as [audio Ha].
  apply Nat.ltb_ge in Hlen.
  unfold createMusic. rewrite Hmiss.
  change (Nat.ltb 0 (List.length (@nil string))) with false. cbv iota.
  rewrite Hlen, Hc, Hct, Ha.
  exists audio. eexists. cbn [fst snd status_of musics with_musics].
  split; [reflexivity|]. split; [reflexivity|].
  cbn [title artist category categoryType fileUrl thumbnailUrl duration
       releaseDate user description uploadUrl].
  repeat (split; [reflexivity|]).
  intros Fresh. split; [|split].
  - unfold findPopulated. cbn [musics with_musics _id].
    rewrite findById_app, (findById_absent _ _ Fresh). cbn [_id].
    now rewrite String.eqb_refl.
  - intros j m Hj. now rewrite findById_app, Hj.
  - intros ND. rewrite map_app. cbn [map _id].
    apply NoDup_snoc; assumption.
Qed.

(** X10: the create handler does not test the category identifiers
    before parsing them: with every required input present and an
    acceptable description, a malformed [category] or [categoryType] is
    answered 500, not 400, and nothing is stored. *)
Theorem createMusic_malformed_category (req : request) (w : world) :
  missingFields req = [] ->
  String.length (sanitizeText (get (body req) "description")) <= 1000 ->
  isValid (get (body req) "category") = false
  \/ isValid (get (body req) "categoryType") = false ->
  createMusic req w = (Json 500 ServerError, w).
Proof.
  intros Hmiss Hlen Bad. apply Nat.ltb_ge in Hlen.
  unfold createMusic. rewrite Hmiss.
  change (Nat.ltb 0 (List.length (@nil string))) with false. cbv iota.
  rewrite Hlen. unfold isValid in Bad.
  destruct (castObjectId (get (body req) "category"));
    destruct (castObjectId (get (body req) "categoryType"));
    destruct (file (req_files req)); try reflexivity;
    destruct Bad as [B|B]; discriminate B.
Qed.

End CreateSuccess.

(** ** Lists *)

Lemma relativeUrl_served (v : jsval) (o : option string) :
  relativeUrl v = Some o -> served o.
Proof.
  unfold relativeUrl. destruct (truthy v); [|intros [= <-]; now left].
  destruct v; try discriminate. simpl.
  destruct (String.eqb (basename s) "") eqn:E; simpl; intros [= <-].
  - now left.
  - right. exists (basename s). split; [reflexivity|]. split.
    + intros B. rewrite B in E. discriminate E.
    + apply basename_no_slash.
Qed.

Lemma relativeUrl_typed (v : jsval) :
  url_typed v = true -> exists o, relativeUrl v = Some o.
Proof.
  unfold relativeUrl, url_typed. destruct v; simpl; intros H.
  - eexists; reflexivity.
  - eexists; reflexivity.
  - destruct b; [discriminate H | eexists; reflexivity].
  - destruct (Z.eqb n 0); [eexists; reflexivity | discriminate H].
  - eexists; reflexivity.
  - destruct (negb (String.eqb s "")); eexists; reflexivity.
  - discriminate H.
Qed.

Lemma categoryTypeDetails_member (c : option Category) (m : Music)
      (t : CategoryType) :
  categoryTypeDetails c m = Some t ->
  categoryType m = Some (t_id t)
  /\ exists k ts, c = Some k /\ c_types k = Some ts /\ In t ts.
Proof.
  unfold categoryTypeDetails. destruct c as [k|]; [|discriminate].
  destruct (categoryType m) as [ct|]; [|discriminate].
  destruct (c_types k) as [ts|] eqn:T; [|discriminate].
  intros H. apply find_some in H. destruct H as [Hin E].
  apply String.eqb_eq in E. subst ct. split; [reflexivity|].
  exists k, ts. auto.
Qed.

Lemma view_well (w : world) (m : Music) (v : MusicView) :
  view w m = Some v -> v_doc v = m /\ well_viewed w v.
Proof.
  unfold view.
  destruct (relativeUrl (fileUrl m)) as [f|] eqn:F; [|discriminate].
  destruct (relativeUrl (thumbnailUrl m)) as [t|] eqn:T; [|discriminate].
  intros [= <-]. split; [reflexivity|]. unfold well_viewed. simpl.
  split; [exact (relativeUrl_served _ _ F)|].
  split; [exact (relativeUrl_served _ _ T)|].
  split; [reflexivity|]. split.
  - intros P. now rewrite P.
  - intros t'. apply categoryTypeDetails_member.
Qed.

Lemma views_well (w : world) (l : list Music) :
  forall vs, views w l = Some vs ->
             map v_doc vs = l /\ Forall (well_viewed w) vs.
Proof.
  induction l as [|m l IH]; simpl; intros vs.
  - intros [= <-]. split; [reflexivity | constructor].
  - destruct (view w m) as [v|] eqn:V; [|discriminate].
    destruct (views w l) as [vs'|]; [|discriminate].
    intros [= <-]. destruct (view_well w m v V) as [D W].
    destruct (IH vs' eq_refl) as [Ds Ws]. simpl. split.
    + now rewrite D, Ds.
    + now constructor.
Qed.

Lemma views_typed (w : world) (l : list Music) :
  forallb typed l = true -> exists vs, views w l = Some vs.
Proof.
  induction l as [|m l IH]; simpl; intros H; [eexists; reflexivity|].
  apply andb_true_iff in H. destruct H as [Tm Tl].
  unfold typed in Tm. apply andb_true_iff in Tm. destruct Tm as [Tf Tt].
  destruct (relativeUrl_typed _ Tf) as [f F].
  destruct (relativeUrl_typed _ Tt) as [t T].
  destruct (IH Tl) as [vs V].
  unfold view. rewrite F, T, V. eexists. reflexivity.
Qed.

Lemma forallb_filter (A : Type) (p q : A -> bool) (l : list A) :
  forallb p l = true -> forallb p (filter q l) = true.
Proof.
  induction l as [|x l IH]; simpl; [reflexivity|].
  intros H. apply andb_true_iff in H. destruct H as [Hx Hl].
  destruct (q x); simpl; [rewrite Hx|]; now apply IH.
Qed.

Section ListResponses.

Context {ext : Externals}.

(** X11: the unfiltered list answers 200 or 500 and nothing else.  A
    200 carries one element per record of the collection, in the order
    of the collection, and each element has URLs that are null or a
    single segment under [/uploads/], a null category when the category
    document is gone, and a type detail only when it is a type of the
    record's category with the record's type id.  When every stored URL
    is a string or nothing the answer is 200. *)
Theorem getMusic_lists_every_record (w : world) :
  (getMusic w = Json 500 ServerError
   \/ exists vs, getMusic w = Json 200 (Listing vs)
                 /\ map v_doc vs = musics w
                 /\ Forall (well_viewed w) vs)
  /\ (forallb typed (musics w) = true ->
      status_of (getMusic w) = 200).
Proof.
  unfold getMusic. split.
  - destruct (views w (musics w)) as [vs|] eqn:V; [|now left].
    right. exists vs. destruct (views_well w _ vs V). auto.
  - intros T. destruct (views_typed w _ T) as [vs V]. now rewrite V.
Qed.

(** X12: for a well-formed category id that at least one record
    carries, the filtered list answers 200 or 500; a 200 carries exactly
    the records of that category, in the order of the collection, each
    viewed as in the unfiltered list; and the answer is 200 when the
    stored URLs of those records are strings or nothing. *)
Theorem getMusicByCategory_lists_category (req : request) (w : world)
        (c : oid) :
  castObjectId (JStr (param req)) = Some c ->
  inCategory c w <> [] ->
  (getMusicByCategory req w = Json 500 ServerError
   \/ exists vs, getMusicByCategory req w = Json 200 (Listing vs)
                 /\ map v_doc vs = inCategory c w
                 /\ Forall (well_viewed w) vs
                 /\ Forall (fun v => category (v_doc v) = Some c) vs)
  /\ (forallb typed (inCategory c w) = true ->
      status_of (getMusicByCategory req w) = 200).
Proof.
  intros Hc Hne. unfold getMusicByCategory. rewrite Hc.
  fold (inCategory c w).
  destruct (inCategory c w) as [|m l] eqn:L; [contradiction|].
  change (Nat.eqb (List.length (m :: l)) 0) with false. cbv iota.
  split.
  - destruct (views w (m :: l)) as [vs|] eqn:V; [|now left].
    right. exists vs. destruct (views_well w _ vs V) as [D W].
    repeat split; try assumption.
    apply Forall_forall. intros v Hv.
    assert (I : In (v_doc v) (inCategory c w)).
    { rewrite L, <- D. now apply in_map. }
    unfold inCategory in I. apply filter_In in I. destruct I as [_ E].
    unfold eqb_option_oid in E.
    destruct (category (v_doc v)) as [x|]; [|discriminate].
    apply String.eqb_eq in E. now subst x.
  - intros T. destruct (views_typed w _ T) as [vs V]. now rewrite V.
Qed.

End ListResponses.

Lemma getMusicByCategory_lists_category_witness :
  status_of (getMusicByCategory
               (request_for "64b000000000000000000001" [] noFiles)
               two_tracks) = 200.
Proof.
  apply (getMusicByCategory_lists_category (ext := sample)
           (request_for "64b000000000000000000001" [] noFiles) two_tracks
           "64b000000000000000000001"); try reflexivity.
  discriminate.
Defined.

Lemma getMusic_lists_every_record_witness :
  status_of (getMusic two_tracks) = 200.
Proof.
  apply (getMusic_lists_every_record two_tracks).
  reflexivity.
Defined.

Example list_with_deleted_category :
  option_map (map (fun v => (v_fileUrl v, v_thumbnailUrl v, v_category v)))
    (match getMusic two_tracks with
     | Json _ (Listing vs) => Some vs
     | _ => None
     end)
  = Some [ (Some "/uploads/a.mp3", None, Some (summary focus));
           (Some "/uploads/rain.mp3", None, None) ].
Proof. vm_compute. reflexivity. Qed.

(** ** Stored URLs and the files they name *)

Lemma uploadUrl_basename (f : upload) :
  stored_safely f = true -> basename ("/uploads/" ++ filename f) = filename f.
Proof.
  intros S. destruct (safe_name_segment _ S) as [Hne Hs].
  change ("/uploads/" ++ filename f)
    with ("/uploads" ++ String slash (filename f)).
  now apply basename_join.
Qed.

Lemma truthy_uploadUrl (f : upload) : truthy (uploadUrl f) = true.
Proof. reflexivity. Qed.

(** X13: the URL that create, update and the upload helper build for a
    stored file, [/uploads/<name>], leads back to that file: for a name
    that passes the sanitizer's test, the list handlers return the very
    same URL and the cleanup of update and delete is after exactly that
    name. *)
Theorem uploadUrl_round_trip (f : upload) :
  stored_safely f = true ->
  relativeUrl (uploadUrl f) = Some (Some ("/uploads/" ++ filename f))
  /\ cleanupTarget (uploadUrl f) = Some (filename f).
Proof.
  intros S. unfold relativeUrl, cleanupTarget.
  rewrite truthy_uploadUrl. unfold uploadUrl, path_basename.
  rewrite (uploadUrl_basename f S).
  destruct (safe_name_segment _ S) as [Hne _].
  split.
  - simpl. destruct (String.eqb (filename f) "") eqn:E; [|reflexivity].
    apply String.eqb_eq in E. contradiction.
  - unfold sanitizeFilename.
    destruct (safe_name_segment _ S) as [_ Hs].
    rewrite (basename_segment _ Hs). unfold stored_safely in S. rewrite S.
    simpl. destruct (String.eqb (filename f) "") eqn:E; [|reflexivity].
    apply String.eqb_eq in E. contradiction.
Qed.

Lemma uploadUrl_round_trip_witness :
  relativeUrl (uploadUrl song) = Some (Some "/uploads/file-7.mp3")
  /\ cleanupTarget (uploadUrl song) = Some "file-7.mp3".
Proof. apply (uploadUrl_round_trip song). reflexivity. Defined.

Lemma removable_after_removal (d : directory) (n : string) (url : jsval) :
  stat d n <> Some Directory ->
  removable (remove_entry d n) url = removable d url.
Proof.
  intros Hn. unfold removable. destruct (truthy url); [|reflexivity].
  destruct url; try reflexivity.
  destruct (sanitizeFilename (JStr (basename s))) as [name|]; [|reflexivity].
  unfold stat in *.
  destruct (String.eqb name "..") eqn:E1; [reflexivity|].
  destruct (String.eqb name ".") eqn:E2; [reflexivity|].
  rewrite lookup_remove_entry.
  destruct (String.eqb name n) eqn:E; [|reflexivity].
  apply String.eqb_eq in E. subst n. rewrite E1, E2 in Hn.
  destruct (lookup d name) as [[|]|]; try reflexivity. now elim Hn.
Qed.

Lemma cleanupFile_target_not_directory (url : jsval) (w : world) (n : string) :
  fst (cleanupFile url w) = true -> cleanupTarget url = Some n ->
  stat (uploads w) n <> Some Directory.
Proof.
  unfold cleanupFile, cleanupTarget. destruct (truthy url); [|discriminate].
  destruct (path_basename url) as [b|]; [|discriminate].
  destruct (sanitizeFilename (JStr b)) as [name|]; [|discriminate].
  intros H [= <-].
  destruct (stat (uploads w) name) as [[|]|]; simpl in H; congruence.
Qed.

Section StoredFiles.

Context {ext : Externals}.

(** The outcome of a delete of an existing record. *)
Lemma deleteMusic_outcome (req : request) (w : world)
        (i : oid) (m : Music) :
  castObjectId (JStr (param req)) = Some i ->
  findById (musics w) i = Some m ->
  (fst (deleteMusic req w) = Json 200 (Message "Music deleted successfully")
   <-> removable (uploads w) (fileUrl m) = true
       /\ removable (uploads w) (thumbnailUrl m) = true)
  /\ (fst (deleteMusic req w) = Json 200 (Message "Music deleted successfully")
      -> forall n, cleanupTarget (fileUrl m) = Some n
                   \/ cleanupTarget (thumbnailUrl m) = Some n ->
                   lookup (uploads (snd (deleteMusic req w))) n = None)
  /\ (fst (deleteMusic req w) = Json 200 (Message "Music deleted successfully")
      -> musics (snd (deleteMusic req w)) = findByIdAndDelete (musics w) i).
Proof.
  intros Hid Hm. unfold deleteMusic. rewrite Hid, Hm.
  pose proof (cleanupFile_removable (fileUrl m) w) as R1.
  pose proof (cleanupFile_completed (fileUrl m) w) as U1.
  pose proof (cleanupFile_target_not_directory (fileUrl m) w) as D1.
  destruct (cleanupFile_collections (fileUrl m) w) as [M1 _].
  destruct (cleanupFile (fileUrl m) w) as [[|] w1]; simpl in R1, U1, D1, M1.
  2:{ rewrite <- R1. split; [split; [discriminate | intros [H _]; discriminate H]
                           | split; discriminate]. }
  specialize (U1 eq_refl).
  assert (R2' : removable (uploads w1) (thumbnailUrl m)
                = removable (uploads w) (thumbnailUrl m)).
  { rewrite U1. destruct (cleanupTarget (fileUrl m)) as [n|]; [|reflexivity].
    apply removable_after_removal. now apply D1. }
  pose proof (cleanupFile_removable (thumbnailUrl m) w1) as R2.
  pose proof (cleanupFile_completed (thumbnailUrl m) w1) as U2.
  destruct (cleanupFile_collections (thumbnailUrl m) w1) as [M2 _].
  destruct (cleanupFile (thumbnailUrl m) w1) as [[|] w2];
    simpl in R2, U2, M2.
  2:{ rewrite <- R2', <- R2.
      split; [split; [discriminate | intros [_ H]; discriminate H]
             | split; discriminate]. }
  specialize (U2 eq_refl). rewrite <- R1, <- R2', <- R2.
  split; [split; auto|].
  split; [|intros _; cbn [snd musics with_musics]; congruence].
  intros _ n Hn. cbn [snd uploads with_musics]. rewrite U2, U1.
  change (lookup (without (cleanupTarget (thumbnailUrl m))
                    (without (cleanupTarget (fileUrl m)) (uploads w))) n
          = None).
  destruct Hn as [Hn|Hn]; rewrite Hn.
  - destruct (lookup_without (cleanupTarget (thumbnailUrl m))
                (without (Some n) (uploads w)) n) as [L|L]; [exact L|].
    rewrite L. apply lookup_without_same.
  - apply lookup_without_same.
Qed.


(** X14: a delete of an existing record answers with the success
    message exactly when the cleanup of both stored URLs raises nothing,
    that is, when neither is a truthy value that is not a string and
    neither has a sanitized name that designates a directory.  After a
    successful delete no entry of the upload directory has the sanitized
    name of either stored URL: both files are gone. *)
Theorem deleteMusic_removes_files (req : request) (w : world)
        (i : oid) (m : Music) :
  castObjectId (JStr (param req)) = Some i ->
  findById (musics w) i = Some m ->
  (fst (deleteMusic req w) = Json 200 (Message "Music deleted successfully")
   <-> removable (uploads w) (fileUrl m) = true
       /\ removable (uploads w) (thumbnailUrl m) = true)
  /\ (fst (deleteMusic req w) = Json 200 (Message "Music deleted successfully")
      -> forall n, cleanupTarget (fileUrl m) = Some n
                   \/ cleanupTarget (thumbnailUrl m) = Some n ->
                   lookup (uploads (snd (deleteMusic req w))) n = None).
Proof.
  intros Hid Hm.
  destruct (deleteMusic_outcome req w i m Hid Hm) as (A & B & _).
  now split.
Qed.

(** X15: when an update that carries an uploaded audio file goes
    through, the record's [fileUrl] is [/uploads/] followed by the stored
    name of that file, and no entry of the upload directory is left under
    the sanitized name of the URL the record held just before (the
    body's [fileUrl] if it supplied one, the stored one otherwise); the
    same holds of an uploaded thumbnail and [thumbnailUrl]. *)
Theorem updateMusic_replaces_files (req : request) (w : world)
        (i : oid) (m : Music) :
  castObjectId (JStr (param req)) = Some i ->
  findById (musics w) i = Some m ->
  status_of (fst (updateMusic req w)) = 200 ->
  exists m',
    findById (musics (snd (updateMusic req w))) i = Some m'
    /\ (forall a, file (req_files req) = Some a ->
          fileUrl m' = JStr ("/uploads/" ++ filename a)
          /\ forall n,
              cleanupTarget
                (if truthy (get (body req) "fileUrl")
                 then get (body req) "fileUrl" else fileUrl m) = Some n ->
              lookup (uploads (snd (updateMusic req w))) n = None)
    /\ (forall t, thumbnail (req_files req) = Some t ->
          thumbnailUrl m' = JStr ("/uploads/" ++ filename t)
          /\ forall n,
              cleanupTarget
                (if truthy (get (body req) "thumbnailUrl")
                 then get (body req) "thumbnailUrl" else thumbnailUrl m)
              = Some n ->
              lookup (uploads (snd (updateMusic req w))) n = None).
Proof.
  intros Hid Hm.
  update_outcome Hid Hm; rewrite E; cbn [fst snd status_of].
  - destruct (assignBody_inl _ _ _ A) as [msg ->]. discriminate.
  - discriminate.
  - intros _.
    destruct (assignBody_inr _ _ _ A) as (B1 & _ & _ & _ & _ & B6 & B7 & _).
    pose proof (replaceFiles_keeps (req_files req) m1 w) as K.
    rewrite R in K. simpl in K. destruct K as (K1 & _ & _ & _ & _ & _ & K7).
    destruct (replaceFiles_ok _ _ _ _ _ R) as (F1 & F2 & U).
    rewrite B6, B7 in U.
    exists m2. split.
    { apply (saved_found w w2 i m m2 Hm K7). rewrite K1, B1.
      now destruct (findById_Some _ _ _ Hm). }
    cbn [uploads with_musics]. rewrite U. split.
    + intros a Ha. rewrite Ha in F1, U |- *. split; [exact F1|].
      intros n Hn. rewrite Hn.
      match goal with
      | |- lookup (without ?t ?d) n = None =>
          destruct (lookup_without t d n) as [L|L]; [exact L|]; rewrite L
      end.
      apply lookup_without_same.
    + intros t Ht. rewrite Ht in F2, U |- *. split; [exact F2|].
      intros n Hn. rewrite Hn. apply lookup_without_same.
Qed.

(** X16: the upload helper answers 400 exactly when the request
    carries neither file and never answers 500; otherwise it describes
    the audio file when there is one, even beside a thumbnail, and the
    thumbnail when there is no audio file, with the URL [/uploads/]
    followed by the stored name. *)
Theorem uploadFile_prefers_audio (req : request) :
  (uploadFile req = NoFileUploaded 400 "No file uploaded"
   <-> file (req_files req) = None /\ thumbnail (req_files req) = None)
  /\ uploadFile req <> UploadError
  /\ (forall a, file (req_files req) = Some a ->
                uploadFile req
                = FileUploaded ("/uploads/" ++ filename a) (filename a)
                               (fieldname a))
  /\ (forall t, file (req_files req) = None ->
                thumbnail (req_files req) = Some t ->
                uploadFile req
                = FileUploaded ("/uploads/" ++ filename t) (filename t)
                               (fieldname t)).
Proof.
  unfold uploadFile.
  destruct (file (req_files req)) as [a|];
    destruct (thumbnail (req_files req)) as [t|]; simpl;
    repeat split; try discriminate; try tauto;
    try (intros x [= <-]; reflexivity);
    try (intros [H1 H2]; discriminate);
    try (intros x H; discriminate H);
    try (intros x _ [= <-]; reflexivity).
Qed.

End StoredFiles.

Lemma deleteMusic_removes_files_witness :
  lookup (uploads (snd (deleteMusic (request_for id1 [] noFiles)
                                    uploaded_library))) "file-7.mp3" = None
  /\ lookup (uploads (snd (deleteMusic (request_for id1 [] noFiles)
                                       uploaded_library))) "cover-7.png"
     = None.
Proof.
  destruct (deleteMusic_removes_files (ext := sample)
              (request_for id1 [] noFiles) uploaded_library id1
              (track id1 (uploadUrl song) (uploadUrl cover))
              eq_refl eq_refl) as [[_ S] G].
  assert (Ok := S (conj eq_refl eq_refl)).
  split; apply (G Ok); [left | right]; reflexivity.
Defined.

Lemma updateMusic_replaces_files_witness :
  lookup (uploads (snd (updateMusic (update_of [] audio_b) one_track)))
         "a.mp3" = None.
Proof.
  destruct (updateMusic_replaces_files (ext := sample)
              (update_of [] audio_b) one_track id1 a_track
              eq_refl eq_refl eq_refl) as (m' & _ & H & _).
  destruct (H {| filename := "b.mp3"; fieldname := "file" |} eq_refl)
    as [_ G].
  apply G. reflexivity.
Defined.

Lemma uploadFile_prefers_audio_witness :
  uploadFile (request_for "" [] {| file := Some song; thumbnail := Some cover |})
  = FileUploaded "/uploads/file-7.mp3" "file-7.mp3" "file".
Proof.
  destruct (uploadFile_prefers_audio
              (request_for "" [] {| file := Some song;
                                    thumbnail := Some cover |}))
    as (_ & _ & H & _).
  exact (H song eq_refl).
Defined.

(** ** URL migration: configuration and frame *)

Lemma unset_falsy (o : option string) : unset o -> truthy (env_value o) = false.
Proof. intros [->| ->]; reflexivity. Qed.

Lemma filter_nil_forall (A : Type) (p : A -> bool) (l : list A) :
  filter p l = [] -> forall x, In x l -> p x = false.
Proof.
  induction l as [|a l IH]; simpl; [tauto|].
  destruct (p a) eqn:E; [discriminate|].
  intros H x [<-|Hin]; [exact E | now apply IH].
Qed.

Lemma filter_length_le (A : Type) (p q : A -> bool) (l : list A) :
  (forall x, In x l -> p x = true -> q x = true) ->
  List.length (filter p l) <= List.length (filter q l).
Proof.
  induction l as [|a l IH]; simpl; intros H; [lia|].
  assert (IH' : List.length (filter p l) <= List.length (filter q l))
    by (apply IH; intros x Hx; apply H; now right).
  destruct (p a) eqn:P.
  - rewrite (H a (or_introl eq_refl) P). simpl. lia.
  - destruct (q a); simpl; lia.
Qed.

Lemma includes_nonempty (s host : string) :
  host <> "" -> includes s host = true -> s <> "".
Proof.
  intros Hh H E. subst s. unfold includes in H.
  destruct host as [|c h]; [contradiction|]. discriminate H.
Qed.

Lemma matches_change (old new host : string) (v : jsval) :
  host <> "" -> matchesHost host v = true ->
  exists u, change old new host v = Some u.
Proof.
  intros Hh. unfold matchesHost, change. destruct v; try discriminate.
  intros H. rewrite H.
  rewrite (truthy_JStr s (includes_nonempty s host Hh H)).
  eexists. reflexivity.
Qed.

Lemma found_counted (old new host : string) (m : Music) :
  host <> "" -> found host m = true -> counted old new host m = true.
Proof.
  intros Hh H. unfold found in H. apply orb_true_iff in H.
  unfold counted, needsUpdate.
  destruct H as [H|H];
    destruct (matches_change old new host _ Hh H) as [u ->];
    [reflexivity|].
  now destruct (change old new host (fileUrl m)).
Qed.

Lemma change_rewritten (old new host : string) (v : jsval) :
  url_rewritten old new host v
    (match change old new host v with Some u => u | None => v end).
Proof.
  unfold change. destruct v; try (now left).
  destruct (includes s host) eqn:I; [|rewrite andb_false_r; now left].
  destruct (truthy (JStr s)); [|now left].
  right. exists s. auto.
Qed.

Section MigrationFrame.

Context {ext : Externals}.

(** X17: the migration is answered 400, and changes nothing, when
    OLD_BASE_URL is unset or empty, when NEW_BASE_URL and PRODUCTION_URL
    are both unset or empty, and when the old base URL does not parse.
    PRODUCTION_URL stands in for an unset or empty NEW_BASE_URL and is
    ignored otherwise. *)
Theorem migration_configuration (env : environment) (w : world) :
  (unset (OLD_BASE_URL env) ->
   updateDatabaseUrls env w = (Json 400 (MigrationFailure missingEnv), w))
  /\ (unset (NEW_BASE_URL env) -> unset (PRODUCTION_URL env) ->
      updateDatabaseUrls env w = (Json 400 (MigrationFailure missingEnv), w))
  /\ (unset (NEW_BASE_URL env) ->
      updateDatabaseUrls env w
      = updateDatabaseUrls (production_as_new env) w)
  /\ (~ unset (NEW_BASE_URL env) ->
      updateDatabaseUrls env w
      = updateDatabaseUrls (without_production env) w)
  /\ (forall old new,
         OLD_BASE_URL env = Some old -> old <> "" ->
         NEW_BASE_URL env = Some new -> new <> "" ->
         urlHostname old = None ->
         updateDatabaseUrls env w
         = (Json 400 (MigrationFailure
              "Invalid OLD_BASE_URL format in environment variables"), w)).
Proof.
  split; [|split; [|split; [|split]]].
  - intros U. unfold updateDatabaseUrls.
    destruct U as [-> | ->]; [reflexivity|].
    cbn [env_value].
    destruct (js_or _ _); try reflexivity.
  - intros Un Up. unfold updateDatabaseUrls, js_or.
    rewrite (unset_falsy _ Un).
    destruct (env_value (OLD_BASE_URL env)); try reflexivity.
    destruct Up as [-> | ->]; cbn [env_value]; [reflexivity|].
    cbn. now rewrite orb_true_r.
  - intros Un. unfold updateDatabaseUrls, production_as_new, js_or.
    cbn [OLD_BASE_URL NEW_BASE_URL PRODUCTION_URL].
    rewrite (unset_falsy _ Un).
    now destruct (truthy (env_value (PRODUCTION_URL env))).
  - intros Un. unfold updateDatabaseUrls, without_production, js_or.
    cbn [OLD_BASE_URL NEW_BASE_URL PRODUCTION_URL].
    destruct (NEW_BASE_URL env) as [n|] eqn:N.
    + destruct (truthy (env_value (Some n))) eqn:T; [reflexivity|].
      exfalso. apply Un. right. simpl in T.
      destruct (String.eqb n "") eqn:E; [|discriminate T].
      apply String.eqb_eq in E. now subst n.
    + exfalso. apply Un. now left.
  - intros old new Ho Eo Hn En Hh. unfold updateDatabaseUrls.
    rewrite Ho, Hn. unfold js_or.
    change (env_value (Some new)) with (JStr new).
    change (env_value (Some old)) with (JStr old).
    rewrite (truthy_JStr new En). cbv beta iota.
    rewrite (truthy_JStr new En), (truthy_JStr old Eo). cbn [negb orb].
    now rewrite Hh.
Qed.

(** X18: a migration run never adds, removes or reorders records and
    never touches the categories.  On a collection with distinct ids
    whose URL fields are strings or nothing, and with a valid
    configuration, it answers 200; [totalFound] is the number of records
    with a URL field that contains the old host name (and is left out
    when there is none); [updatedCount] is at most that number and equal
    to it when the host name is not empty; every record keeps all its
    fields but the two URLs, a record without a matching field is left
    untouched, and a URL field is either left as it was or is a string
    that contained the host name, with the first occurrence of the old
    base URL replaced. *)
Theorem migration_frame (env : environment) (w : world) :
  (map _id (musics (snd (updateDatabaseUrls env w))) = map _id (musics w)
   /\ categories (snd (updateDatabaseUrls env w)) = categories w)
  /\ forall old new host,
      OLD_BASE_URL env = Some old -> NEW_BASE_URL env = Some new ->
      old <> "" -> new <> "" -> urlHostname old = Some host ->
      NoDup (map _id (musics w)) -> forallb typed (musics w) = true ->
      (exists n t,
          fst (updateDatabaseUrls env w) = Json 200 (MigrationReport n t)
          /\ n <= List.length (filter (found host) (musics w))
          /\ (host <> "" ->
              n = List.length (filter (found host) (musics w)))
          /\ ((filter (found host) (musics w) = [] /\ t = None)
              \/ t = Some (List.length (filter (found host) (musics w)))))
      /\ forall m, In m (musics w) ->
           exists m',
             findById (musics (snd (updateDatabaseUrls env w))) (_id m)
             = Some m'
             /\ (found host m = false -> m' = m)
             /\ title m' = title m /\ artist m' = artist m
             /\ category m' = category m
             /\ categoryType m' = categoryType m
             /\ duration m' = duration m
             /\ releaseDate m' = releaseDate m
             /\ user m' = user m /\ description m' = description m
             /\ url_rewritten old new host (fileUrl m) (fileUrl m')
             /\ url_rewritten old new host (thumbnailUrl m)
                              (thumbnailUrl m').
Proof.
  split.
  - unfold updateDatabaseUrls.
    destruct (env_value (OLD_BASE_URL env)); try (now split).
    destruct (js_or _ _); try (now split).
    destruct (negb (truthy (JStr s)) || negb (truthy (JStr s0)));
      [now split|].
    destruct (urlHostname s) as [h|]; [|now split].
    destruct (Nat.eqb _ 0); [now split|].
    pose proof (migrate_ids s s0 h (filter (found h) (musics w))
                  (musics w) 0) as I.
    destruct (migrate s s0 h _ (musics w) 0) as [store [n|]];
      simpl in I; now split.
  - intros old new host Ho Hn Eo En Hh ND Ty.
    assert (Count : List.length (filter (counted old new host) (musics w))
                    <= List.length (filter (found host) (musics w))).
    { apply filter_length_le. intros x _. apply counted_found. }
    assert (Same : host <> "" ->
              List.length (filter (counted old new host) (musics w))
              = List.length (filter (found host) (musics w))).
    { intros Hne. apply Nat.le_antisymm; [exact Count|].
      apply filter_length_le. intros x _. now apply found_counted. }
    assert (After : musics (snd (updateDatabaseUrls env w))
                    = map (migrateOne old new host) (musics w)
                    /\ exists n t,
                        fst (updateDatabaseUrls env w)
                        = Json 200 (MigrationReport n t)
                        /\ n <= List.length (filter (found host) (musics w))
                        /\ (host <> "" ->
                            n = List.length
                                  (filter (found host) (musics w)))
                        /\ ((filter (found host) (musics w) = [] /\ t = None)
                            \/ t = Some (List.length
                                           (filter (found host) (musics w))))).
    { destruct (filter (found host) (musics w)) as [|x l] eqn:F.
      - rewrite (migration_nothing_found env w old new host
                   Ho Hn Eo En Hh F).
        cbn [fst snd]. split.
        + symmetry.
          transitivity (map (fun x : Music => x) (musics w));
            [|apply map_id].
          apply map_ext_in. intros m Hin.
          apply not_counted_same.
          destruct (counted old new host m) eqn:C; [|reflexivity].
          apply counted_found in C.
          rewrite (filter_nil_forall _ _ _ F m Hin) in C. discriminate C.
        + exists 0, None. split; [reflexivity|]. split; [simpl; lia|].
          split; [|left; now split].
          intros Hne. reflexivity.
      - assert (NE : filter (found host) (musics w) <> [])
          by (rewrite F; discriminate).
        rewrite (migration_report env w old new host
                   Ho Hn Eo En Hh ND Ty NE).
        cbn [fst snd musics with_musics]. split; [reflexivity|].
        rewrite F in *. eexists. eexists. split; [reflexivity|].
        split; [exact Count|]. split; [exact Same | now right]. }
    destruct After as [M Rep]. split; [exact Rep|].
    intros m Hin. exists (migrateOne old new host m). rewrite M. split.
    { apply findById_map; try assumption. intros x. apply applyUpdate_fields. }
    split.
    { intros NF. apply not_counted_same.
      destruct (counted old new host m) eqn:C; [|reflexivity].
      apply counted_found in C. congruence. }
    unfold migrateOne.
    destruct (applyUpdate_fields
                (change old new host (fileUrl m))
                (change old new host (thumbnailUrl m)) m) as (_ & -> & ->).
    repeat split;
      try (destruct (change old new host (fileUrl m)),
                    (change old new host (thumbnailUrl m)); reflexivity);
      apply change_rewritten.
Qed.

End MigrationFrame.

Lemma migration_configuration_witness :
  updateDatabaseUrls
    {| OLD_BASE_URL := Some old_base; NEW_BASE_URL := Some "";
       PRODUCTION_URL := Some new_base |} old_host_library
  = updateDatabaseUrls hosts old_host_library.
Proof.
  destruct (migration_configuration (ext := sample)
              {| OLD_BASE_URL := Some old_base; NEW_BASE_URL := Some "";
                 PRODUCTION_URL := Some new_base |} old_host_library)
    as (_ & _ & H & _).
  rewrite H; [reflexivity | now right].
Defined.

Lemma migration_frame_witness :
  exists m',
    findById (musics (snd (updateDatabaseUrls hosts old_host_library))) id2
    = Some m'
    /\ m' = track id2 (JStr "/uploads/b.mp3") (JStr "/uploads/b.png").
Proof.
  destruct (migration_frame (ext := sample) hosts old_host_library)
    as [_ H].
  destruct (H old_base new_base old_host eq_refl eq_refl) as [_ G];
    try reflexivity; try discriminate.
  - simpl. repeat constructor; simpl; intuition discriminate.
  - destruct (G (track id2 (JStr "/uploads/b.mp3") (JStr "/uploads/b.png")))
      as (m' & F & Same & _).
    + simpl. right. now left.
    + exists m'. split; [exact F | now apply Same].
Defined.

(** ** URL migration: URLs that start with the old base URL *)

Lemma length_app (a b : string) :
  String.length (a ++ b) = String.length a + String.length b.
Proof. induction a as [|c a IH]; simpl; [reflexivity | now rewrite IH]. Qed.

Lemma substring_none (s : string) : substring 0 0 s = "".
Proof. now destruct s. Qed.

Lemma substring_all (b : string) : substring 0 (String.length b) b = b.
Proof. induction b as [|c b IH]; simpl; [reflexivity | now rewrite IH]. Qed.

Lemma substring_skip (a b : string) (n : nat) :
  substring (String.length a) n (a ++ b) = substring 0 n b.
Proof. induction a as [|c a IH]; simpl; [reflexivity | exact IH]. Qed.

Lemma substring_prefix (a b : string) :
  substring 0 (String.length a) (a ++ b) = a.
Proof.
  induction a as [|c a IH]; simpl; [apply substring_none | now rewrite IH].
Qed.

Lemma substring_length_le (s : string) :
  forall m n, String.length (substring m n s) <= String.length s - m.
Proof.
  induction s as [|c s IH]; intros m n.
  - destruct m, n; simpl; lia.
  - destruct m as [|m].
    + destruct n as [|n]; simpl; [lia|].
      specialize (IH 0 n). lia.
    + simpl. apply IH.
Qed.

Lemma substring_app_l (a b : string) :
  forall m n, m + n <= String.length a ->
              substring m n (a ++ b) = substring m n a.
Proof.
  induction a as [|c a IH]; intros m n H.
  - simpl in H. assert (m = 0) by lia. assert (n = 0) by lia. subst.
    simpl. apply substring_none.
  - destruct m as [|m].
    + destruct n as [|n]; [reflexivity|].
      simpl. rewrite IH; [reflexivity | simpl in H; lia].
    + simpl. apply IH. simpl in H. lia.
Qed.

Lemma index_prefix (a b : string) : String.index 0 a (a ++ b) = Some 0.
Proof.
  assert (P : prefix a (a ++ b) = true)
    by (apply prefix_correct, substring_prefix).
  destruct (a ++ b) as [|c s] eqn:E.
  - destruct a; [reflexivity | discriminate E].
  - cbn [String.index]. now rewrite P.
Qed.

Lemma includes_app (a b host : string) :
  includes a host = true -> includes (a ++ b) host = true.
Proof.
  unfold includes. intros H.
  destruct (String.index 0 host a) as [m|] eqn:I; [|discriminate].
  destruct (String.index 0 host (a ++ b)) as [k|] eqn:J; [reflexivity|].
  exfalso. destruct host as [|c h].
  - destruct (a ++ b); simpl in J; discriminate J.
  - pose proof (index_correct1 _ _ _ _ I) as S.
    apply (index_correct3 0 m _ _ J); [discriminate | lia |].
    rewrite substring_app_l; [exact S|].
    pose proof (substring_length_le a m (String.length (String c h))) as L.
    rewrite S in L. simpl in L |- *. lia.
Qed.

Lemma expand_plain (matched before after : string) (r : list ascii) :
  forallb (fun c => negb (Ascii.eqb c "$"%char)) r = true ->
  expand_replacement matched before after r = string_of_list_ascii r.
Proof.
  induction r as [|c r IH]; simpl; [reflexivity|].
  intros H. apply andb_true_iff in H. destruct H as [Hc Hr].
  apply negb_true_iff in Hc. rewrite Hc. now rewrite IH.
Qed.

(** A URL that starts with the pattern has the pattern replaced by a
    [$]-free replacement text, the rest staying as it is. *)
Lemma replace_prefix (old new rest : string) :
  plain new = true -> replace (old ++ rest) old new = new ++ rest.
Proof.
  intros P. unfold replace. rewrite index_prefix.
  rewrite substring_none. cbn [Nat.add].
  rewrite length_app.
  replace (String.length old + String.length rest - String.length old)
    with (String.length rest) by lia.
  rewrite substring_skip, substring_all.
  rewrite (expand_plain old "" rest (chars new) P), string_of_chars.
  reflexivity.
Qed.

Lemma app_nonempty (a b : string) : a <> "" -> a ++ b <> "".
Proof. destruct a; [tauto | discriminate]. Qed.

Lemma change_prefixed (old new host rest : string) :
  old <> "" -> includes old host = true -> plain new = true ->
  change old new host (JStr (old ++ rest)) = Some (JStr (new ++ rest)).
Proof.
  intros Eo I P. unfold change.
  rewrite (truthy_JStr _ (app_nonempty old rest Eo)).
  rewrite (includes_app old rest host I). cbn [andb].
  now rewrite (replace_prefix old new rest P).
Qed.

Section PrefixedUrls.

Context {ext : Externals}.

(** The collection after a run, on a collection with distinct ids whose
    URL fields are strings or nothing. *)
Lemma migration_collection (env : environment) (w : world)
      (old new host : string) :
  OLD_BASE_URL env = Some old -> NEW_BASE_URL env = Some new ->
  old <> "" -> new <> "" -> urlHostname old = Some host ->
  NoDup (map _id (musics w)) -> forallb typed (musics w) = true ->
  filter (found host) (musics w) <> [] ->
  musics (snd (updateDatabaseUrls env w))
  = map (migrateOne old new host) (musics w).
Proof.
  intros Ho Hn Eo En Hh ND Ty NE.
  now rewrite (migration_report env w old new host Ho Hn Eo En Hh ND Ty NE).
Qed.

(** X19: with a valid configuration whose old base URL contains its
    own host name and whose new base URL holds no [$], on a collection
    with distinct ids whose URL fields are strings or nothing, every
    [fileUrl] and every [thumbnailUrl] that starts with the old base URL
    comes out of the migration as the new base URL followed by the rest
    of the old value. *)
Theorem migration_rewrites_prefixed (env : environment) (w : world)
        (old new host : string) (m : Music) :
  OLD_BASE_URL env = Some old -> NEW_BASE_URL env = Some new ->
  old <> "" -> new <> "" -> urlHostname old = Some host ->
  includes old host = true -> plain new = true ->
  NoDup (map _id (musics w)) -> forallb typed (musics w) = true ->
  In m (musics w) ->
  (exists rest, fileUrl m = JStr (old ++ rest))
  \/ (exists rest, thumbnailUrl m = JStr (old ++ rest)) ->
  exists m',
    findById (musics (snd (updateDatabaseUrls env w))) (_id m) = Some m'
    /\ (forall rest, fileUrl m = JStr (old ++ rest) ->
                     fileUrl m' = JStr (new ++ rest))
    /\ (forall rest, thumbnailUrl m = JStr (old ++ rest) ->
                     thumbnailUrl m' = JStr (new ++ rest)).
Proof.
  intros Ho Hn Eo En Hh I P ND Ty Hin Pre.
  assert (F : found host m = true).
  { unfold found. destruct Pre as [[rest ->]|[rest ->]]; simpl.
    - now rewrite (includes_app old rest host I).
    - rewrite (includes_app old rest host I). apply orb_true_r. }
  assert (NE : filter (found host) (musics w) <> []).
  { intros E. assert (X : In m (filter (found host) (musics w)))
      by (apply filter_In; now split).
    rewrite E in X. contradiction. }
  rewrite (migration_collection env w old new host
             Ho Hn Eo En Hh ND Ty NE).
  exists (migrateOne old new host m). split.
  { apply findById_map; try assumption. intros x. apply applyUpdate_fields. }
  unfold migrateOne.
  destruct (applyUpdate_fields
              (change old new host (fileUrl m))
              (change old new host (thumbnailUrl m)) m) as (_ & -> & ->).
  split; intros rest ->; now rewrite (change_prefixed old new host rest Eo I P).
Qed.

End PrefixedUrls.

Lemma migration_rewrites_prefixed_witness :
  exists m',
    findById (musics (snd (updateDatabaseUrls hosts old_host_library))) id1
    = Some m'
    /\ fileUrl m' = JStr (new_base ++ "/uploads/a.mp3").
Proof.
  destruct (migration_rewrites_prefixed (ext := sample) hosts
              old_host_library old_base new_base old_host
              (track id1 (JStr old_a) JUndefined)
              eq_refl eq_refl) as (m' & F & G & _);
    try reflexivity; try discriminate.
  - simpl. repeat constructor; simpl; intuition discriminate.
  - simpl. now left.
  - left. exists "/uploads/a.mp3". reflexivity.
  - exists m'. split; [exact F|]. apply G. reflexivity.
Defined.

(** ** Clearing the description *)

Lemma trim_start_spaces (l : list ascii) :
  forallb is_space l = true -> trim_start l = [].
Proof.
  induction l as [|c l IH]; simpl; [reflexivity|].
  intros H. apply andb_true_iff in H. destruct H as [Hc Hl].
  rewrite Hc. now apply IH.
Qed.

Section DescriptionProperties.

Context {ext : Externals}.

(** A value that is not a string, and a string of white space only,
    are sanitized to the empty text. *)
Lemma sanitizeText_blank (v : jsval) :
  (forall s, v = JStr s -> forallb is_space (chars s) = true) ->
  sanitizeText v = "".
Proof.
  intros H. unfold sanitizeText. destruct v; try reflexivity.
  unfold trim. rewrite (trim_start_spaces _ (H s eq_refl)). reflexivity.
Qed.

(** X20: unlike title, artist, duration and releaseDate, the
    description can be cleared through an update: when the body carries a
    [description] that is null, any other value that is not a string, or
    a string of white space only, and the update goes through, the
    stored description is the empty string. *)
Theorem updateMusic_clears_description (req : request) (w : world)
        (i : oid) (m : Music) :
  castObjectId (JStr (param req)) = Some i ->
  findById (musics w) i = Some m ->
  get (body req) "description" <> JUndefined ->
  (forall s, get (body req) "description" = JStr s ->
             forallb is_space (chars s) = true) ->
  status_of (fst (updateMusic req w)) = 200 ->
  exists m',
    findById (musics (snd (updateMusic req w))) i = Some m'
    /\ description m' = JStr "".
Proof.
  intros Hid Hm Hd Blank.
  update_outcome Hid Hm; rewrite E; cbn [fst snd status_of].
  - destruct (assignBody_inl _ _ _ A) as [msg ->]. discriminate.
  - discriminate.
  - intros _.
    pose proof (replaceFiles_keeps (req_files req) m1 w) as K.
    rewrite R in K. simpl in K.
    destruct K as (K1 & _ & _ & _ & _ & K6 & K7).
    destruct (assignBody_inr _ _ _ A) as (B1 & _ & _ & _ & _ & _ & _ & B8).
    exists m2. split.
    + apply (saved_found w w2 i m m2 Hm K7). rewrite K1, B1.
      now destruct (findById_Some _ _ _ Hm).
    + rewrite K6, B8.
      pose proof (sanitizeText_blank _ Blank) as S. revert S.
      destruct (get (body req) "description"); intros S;
        [now elim Hd | | | | | |]; now rewrite S.
Qed.

End DescriptionProperties.

Lemma updateMusic_clears_description_witness :
  exists m',
    findById (musics (snd (updateMusic
                             (update_of [("description", JNull)] noFiles)
                             (library [track id1 (JStr "/uploads/a.mp3")
                                             JUndefined] [])))) id1
    = Some m'
    /\ description m' = JStr "".
Proof.
  apply (updateMusic_clears_description (ext := sample)
           (update_of [("description", JNull)] noFiles)
           (library [track id1 (JStr "/uploads/a.mp3") JUndefined] [])
           id1 a_track); try reflexivity; try discriminate.
Defined.

(** ** Cross-origin rules *)

Lemma listed_In (o : string) : listed o = true <-> In o allowedOrigins.
Proof.
  unfold listed. rewrite existsb_exists. split.
  - intros [x [Hin E]]. apply String.eqb_eq in E. now subst x.
  - intros Hin. exists o. split; [exact Hin | apply String.eqb_refl].
Qed.

(** X21: the origin test of the CORS options and the test of the
    explicit OPTIONS handler accept the same origins: a request without
    an [Origin] header (or with an empty one), the seven listed origins,
    and every origin that contains [192.168.], [localhost], [127.0.0.1]
    or [172.] anywhere; an origin is refused exactly when it is none of
    these.  The OPTIONS handler sets [Access-Control-Allow-Origin] only
    to the origin of the request, and exactly when that origin is not
    empty and accepted. *)
Theorem cors_rules (origin : option string) :
  optionsIsAllowed origin = corsOrigin origin
  /\ (corsOrigin origin = false
      <-> exists o, origin = Some o /\ o <> ""
                    /\ ~ In o allowedOrigins /\ localNetwork o = false)
  /\ (forall h, optionsAllowOrigin origin = Some h
                <-> origin = Some h /\ h <> ""
                    /\ corsOrigin origin = true).
Proof.
  assert (Agree : optionsIsAllowed origin = corsOrigin origin).
  { unfold optionsIsAllowed, corsOrigin.
    destruct origin as [o|]; [|reflexivity].
    destruct (truthy (env_value (Some o))); [|reflexivity]. simpl.
    now destruct (listed o), (localNetwork o). }
  split; [exact Agree|]. split.
  - unfold corsOrigin. destruct origin as [o|]; simpl.
    + destruct (String.eqb o "") eqn:E; simpl.
      * apply String.eqb_eq in E. subst o.
        split; [discriminate|]. intros (o & [= <-] & N & _). now elim N.
      * apply String.eqb_neq in E.
        destruct (listed o) eqn:L.
        -- split; [discriminate|]. intros (o' & [= <-] & _ & N & _).
           elim N. now apply listed_In.
        -- destruct (localNetwork o) eqn:Loc.
           ++ split; [discriminate|].
              intros (o' & [= <-] & _ & _ & N). congruence.
           ++ split; [|reflexivity]. intros _. exists o.
              repeat split; auto. intros Hin. apply listed_In in Hin.
              congruence.
    + split; [discriminate|]. intros (o & H & _). discriminate H.
  - intros h. unfold optionsAllowOrigin. rewrite Agree.
    destruct origin as [o|].
    + cbn [env_value truthy].
      destruct (corsOrigin (Some o)) eqn:C;
        destruct (String.eqb o "") eqn:E; cbn [negb andb].
      * apply String.eqb_eq in E. subst o.
        split; [discriminate|]. intros ([= <-] & N & _). now elim N.
      * apply String.eqb_neq in E. split.
        -- intros [= <-]. auto.
        -- intros ([= <-] & _). reflexivity.
      * split; [discriminate|]. intros (_ & _ & H). discriminate H.
      * split; [discriminate|]. intros (_ & _ & H). discriminate H.
    + destruct (corsOrigin None); cbn [env_value truthy andb];
        (split; [discriminate | intros (H & _); discriminate H]).
Qed.

Example cors_listed : corsOrigin (Some "https://elevateintune.com") = true.
Proof. reflexivity. Qed.

Example cors_foreign : corsOrigin (Some "https://example.org") = false.
Proof. reflexivity. Qed.

(** ** The properties above at sample requests *)

Lemma deleteMusic_frame_witness :
  deleteMusic (request_for "not-an-id" [] noFiles) one_track
  = (Json 400 (Message "Invalid music ID"), one_track)
  /\ deleteMusic (request_for id2 [] noFiles) one_track
     = (Thrown 404 (ErrorMessage "Music not found"), one_track).
Proof.
  split.
  - apply (deleteMusic_frame (ext := sample)
             (request_for "not-an-id" [] noFiles) one_track).
    reflexivity.
  - destruct (deleteMusic_frame (ext := sample)
                (request_for id2 [] noFiles) one_track) as (_ & H & _).
    apply (H id2); reflexivity.
Defined.

Lemma updateMusic_frame_witness :
  updateMusic (update_of [("category", JStr "bad")] audio_b) one_track
  = (Json 400 (Message "Invalid category ID"), one_track)
  /\ snd (updateMusic (update_of [("category", JStr "bad")] audio_b)
                      one_track) = one_track.
Proof.
  split; [reflexivity|].
  destruct (updateMusic_frame (ext := sample)
              (update_of [("category", JStr "bad")] audio_b) one_track)
    as (_ & _ & H & _).
  apply H. left. reflexivity.
Defined.

Lemma updateMusic_category_witness :
  updateMusic (update_of [("category", JStr "bad")] audio_b) one_track
  = (Json 400 (Message "Invalid category ID"), one_track).
Proof.
  destruct (updateMusic_category (ext := sample)
              (update_of [("category", JStr "bad")] audio_b) one_track
              id1 a_track eq_refl eq_refl) as (H & _).
  apply H; reflexivity.
Defined.

Lemma createMusic_success_witness :
  exists audio doc,
    file (req_files (described 10)) = Some audio
    /\ musics (snd (createMusic (described 10) one_track))
       = (musics one_track ++ [doc])%list
    /\ fileUrl doc = JStr "/uploads/file-1.mp3"
    /\ thumbnailUrl doc = JUndefined.
Proof.
  destruct (createMusic_success (ext := sample) (described 10) one_track
              "64b000000000000000000001" "64b0000000000000000000a1"
              eq_refl) as (audio & doc & Ha & M & _ & _ & _ & _ & _ & F & T & _);
    try reflexivity.
  - vm_compute. repeat constructor.
  - exists audio, doc. pose proof Ha as Ha'. injection Ha' as <-.
    split; [exact Ha|]. split; [exact M|]. split; [exact F | exact T].
Defined.

Lemma createMusic_malformed_category_witness :
  createMusic
    (request_for ""
       [ ("title", JStr "Morning Calm"); ("artist", JStr "Elevate");
         ("category", JStr "focus"); ("categoryType", JStr "binaural");
         ("duration", JStr "180"); ("releaseDate", JStr "2024-01-01") ]
       audio_b) one_track
  = (Json 500 ServerError, one_track).
Proof.
  apply (createMusic_malformed_category (ext := sample)).
  - reflexivity.
  - vm_compute. repeat constructor.
  - left. reflexivity.
Defined.

(** ** Invariants of the collection and compositions *)

Lemma typed_after_delete (l : list Music) (i : oid) :
  forallb typed l = true -> forallb typed (findByIdAndDelete l i) = true.
Proof.
  induction l as [|m l IH]; simpl; [reflexivity|].
  intros H. apply andb_true_iff in H. destruct H as [Hm Hl].
  destruct (String.eqb (_id m) i); [exact Hl|].
  simpl. rewrite Hm. now apply IH.
Qed.

Lemma typed_after_update (l : list Music) (i : oid) (u : Music -> Music) :
  (forall m, typed m = true -> typed (u m) = true) ->
  forallb typed l = true -> forallb typed (findByIdAndUpdate l i u) = true.
Proof.
  intros Hu. induction l as [|m l IH]; simpl; [reflexivity|].
  intros H. apply andb_true_iff in H. destruct H as [Hm Hl].
  destruct (String.eqb (_id m) i); simpl.
  - now rewrite (Hu m Hm).
  - rewrite Hm. now apply IH.
Qed.

Lemma newUrl_string (old new host : string) (v : jsval) (o : option jsval) :
  newUrl old new host v = Some o ->
  forall u, o = Some u -> url_typed u = true.
Proof.
  unfold newUrl. destruct (truthy v).
  - destruct v; try discriminate.
    destruct (includes s host); intros [= <-] u [= <-]. reflexivity.
  - intros [= <-] u H. discriminate H.
Qed.

Lemma typed_applyUpdate (f t : option jsval) (m : Music) :
  (forall u, f = Some u -> url_typed u = true) ->
  (forall u, t = Some u -> url_typed u = true) ->
  typed m = true -> typed (applyUpdate f t m) = true.
Proof.
  intros Hf Ht. unfold typed.
  destruct (applyUpdate_fields f t m) as (_ & -> & ->).
  intros H. apply andb_true_iff in H. destruct H as [H1 H2].
  destruct f as [u|]; [rewrite (Hf u eq_refl)|rewrite H1];
    (destruct t as [u'|]; [now rewrite (Ht u' eq_refl) | now rewrite H2]).
Qed.

Lemma typed_after_migrate (old new host : string) (recs : list Music) :
  forall (store : list Music) (n : nat),
    forallb typed store = true ->
    forallb typed (fst (migrate old new host recs store n)) = true.
Proof.
  induction recs as [|m recs IH]; intros store n Ty; simpl; [exact Ty|].
  destruct (newUrl old new host (fileUrl m)) as [f|] eqn:F; [|exact Ty].
  destruct (newUrl old new host (thumbnailUrl m)) as [t|] eqn:T; [|exact Ty].
  destruct (needsUpdate f t); [|now apply IH].
  apply IH. apply typed_after_update; [|exact Ty].
  intros x. apply typed_applyUpdate.
  - exact (newUrl_string old new host _ f F).
  - exact (newUrl_string old new host _ t T).
Qed.

Lemma forallb_snoc (A : Type) (p : A -> bool) (l : list A) (x : A) :
  forallb p (l ++ [x]) = forallb p l && p x.
Proof.
  induction l as [|a l IH]; simpl; [now rewrite andb_true_r|].
  rewrite IH. now rewrite andb_assoc.
Qed.

Lemma findById_None_ids (l : list Music) (i : oid) :
  findById l i = None -> forall m, In m l -> _id m <> i.
Proof.
  unfold findById. intros H m Hin E.
  apply (find_none _ _ H) in Hin. apply String.eqb_neq in Hin. contradiction.
Qed.

Lemma findByIdAndDelete_snoc (l : list Music) (d : Music) :
  ~ In (_id d) (map _id l) -> findByIdAndDelete (l ++ [d]) (_id d) = l.
Proof.
  induction l as [|m l IH]; simpl; intros H.
  - now rewrite String.eqb_refl.
  - destruct (String.eqb (_id m) (_id d)) eqn:E.
    + apply String.eqb_eq in E. exfalso. apply H. now left.
    + rewrite IH; [reflexivity|]. intros Hin. apply H. now right.
Qed.

Section Invariants.

Context {ext : Externals}.

(** A delete removes the first record under the id when it answers
    with the success message, and leaves the collection alone
    otherwise. *)
Lemma deleteMusic_success_collection (req : request) (w : world) :
  (exists i, castObjectId (JStr (param req)) = Some i
             /\ musics (snd (deleteMusic req w))
                = findByIdAndDelete (musics w) i)
  \/ (fst (deleteMusic req w)
      <> Json 200 (Message "Music deleted successfully")
      /\ musics (snd (deleteMusic req w)) = musics w).
Proof.
  unfold deleteMusic.
  destruct (castObjectId (JStr (param req))) as [i|];
    [|right; split; [discriminate | reflexivity]].
  destruct (findById (musics w) i) as [m|];
    [|right; split; [discriminate | reflexivity]].
  destruct (cleanupFile_collections (fileUrl m) w) as [M1 _].
  destruct (cleanupFile (fileUrl m) w) as [[|] w1]; simpl in M1;
    [|right; split; [discriminate | exact M1]].
  destruct (cleanupFile_collections (thumbnailUrl m) w1) as [M2 _].
  destruct (cleanupFile (thumbnailUrl m) w1) as [[|] w2]; simpl in M2.
  - left. exists i. split; [reflexivity|].
    cbn [snd musics with_musics]. congruence.
  - right. split; [discriminate | cbn [snd]; congruence].
Qed.

(** X22: the stored URL fields stay strings or nothing.  If every
    record of the collection has a [fileUrl] and a [thumbnailUrl] that is
    a string or nothing, the same holds after a create, a delete and a
    migration run, whatever their outcome, and after an update whose body
    gives [fileUrl] and [thumbnailUrl], if at all, as strings. *)
Theorem url_fields_stay_typed (req : request) (env : environment)
        (w : world) :
  forallb typed (musics w) = true ->
  forallb typed (musics (snd (createMusic req w))) = true
  /\ forallb typed (musics (snd (deleteMusic req w))) = true
  /\ forallb typed (musics (snd (updateDatabaseUrls env w))) = true
  /\ (url_typed (get (body req) "fileUrl") = true ->
      url_typed (get (body req) "thumbnailUrl") = true ->
      forallb typed (musics (snd (updateMusic req w))) = true).
Proof.
  intros Ty. split; [|split; [|split]].
  - unfold createMusic.
    destruct (Nat.ltb 0 (List.length (missingFields req))); [exact Ty|].
    destruct (Nat.ltb 1000 _); [exact Ty|].
    destruct (castObjectId (get (body req) "category")); [|exact Ty].
    destruct (castObjectId (get (body req) "categoryType")); [|exact Ty].
    destruct (file (req_files req)) as [a|]; [|exact Ty].
    cbn [snd musics with_musics]. rewrite forallb_snoc, Ty.
    unfold typed. cbn [fileUrl thumbnailUrl].
    now destruct (thumbnail (req_files req)).
  - destruct (deleteMusic_success_collection req w)
      as [(i & _ & S)|[_ S]]; rewrite S;
      [now apply typed_after_delete | exact Ty].
  - unfold updateDatabaseUrls.
    destruct (env_value (OLD_BASE_URL env)); try exact Ty.
    destruct (js_or _ _); try exact Ty.
    destruct (negb (truthy (JStr s)) || negb (truthy (JStr s0)));
      [exact Ty|].
    destruct (urlHostname s) as [h|]; [|exact Ty].
    destruct (Nat.eqb _ 0); [exact Ty|].
    pose proof (typed_after_migrate s s0 h (filter (found h) (musics w))
                  (musics w) 0 Ty) as T.
    destruct (migrate s s0 h _ (musics w) 0) as [store [n|]]; exact T.
  - intros Bf Bt. unfold updateMusic.
    destruct (castObjectId (JStr (param req))) as [i|]; [|exact Ty].
    destruct (findById (musics w) i) as [m|] eqn:Hm; [|exact Ty].
    destruct (assignBody (body req) m) as [r|m1] eqn:A; [exact Ty|].
    pose proof (replaceFiles_keeps (req_files req) m1 w) as K.
    destruct (replaceFiles (req_files req) m1 w) as [[[|] m2] w2] eqn:R;
      simpl in K; destruct K as (_ & _ & _ & _ & _ & _ & K7).
    2:{ cbn [snd]. now rewrite K7. }
    cbn [snd musics with_musics]. unfold save. rewrite K7.
    apply typed_after_update; [|exact Ty]. intros _ _.
    destruct (replaceFiles_ok _ _ _ _ _ R) as (F1 & F2 & _).
    destruct (assignBody_inr _ _ _ A) as (_ & _ & _ & _ & _ & B6 & B7 & _).
    destruct (findById_Some _ _ _ Hm) as [Hin _].
    assert (Tm : typed m = true).
    { rewrite forallb_forall in Ty. now apply Ty. }
    unfold typed in Tm |- *. apply andb_true_iff in Tm.
    destruct Tm as [T1 T2]. rewrite F1, F2, B6, B7.
    assert (U1 : url_typed
                   (if truthy (get (body req) "fileUrl")
                    then get (body req) "fileUrl" else fileUrl m) = true)
      by now destruct (truthy (get (body req) "fileUrl")).
    assert (U2 : url_typed
                   (if truthy (get (body req) "thumbnailUrl")
                    then get (body req) "thumbnailUrl"
                    else thumbnailUrl m) = true)
      by now destruct (truthy (get (body req) "thumbnailUrl")).
    destruct (file (req_files req)), (thumbnail (req_files req));
      cbn [uploadUrl url_typed]; rewrite ?U1, ?U2; reflexivity.
Qed.

(** X23: once a delete has answered with the success message, the
    record is gone for the handlers: in a collection with distinct ids,
    a second delete of the same id throws with status 404, an update of
    that id is answered 404, both leaving everything as it is, and no
    record of the collection carries the id. *)
Theorem deleted_record_is_gone (req : request) (w : world) (i : oid) :
  castObjectId (JStr (param req)) = Some i ->
  NoDup (map _id (musics w)) ->
  fst (deleteMusic req w) = Json 200 (Message "Music deleted successfully") ->
  deleteMusic req (snd (deleteMusic req w))
  = (Thrown 404 (ErrorMessage "Music not found"), snd (deleteMusic req w))
  /\ (forall req', param req' = param req ->
        updateMusic req' (snd (deleteMusic req w))
        = (Json 404 (Message "Music not found"), snd (deleteMusic req w)))
  /\ forall m, In m (musics (snd (deleteMusic req w))) -> _id m <> i.
Proof.
  intros Hid ND Ok.
  assert (Gone : findById (musics (snd (deleteMusic req w))) i = None).
  { destruct (deleteMusic_success_collection req w)
      as [(i' & Hi' & S)|[N _]]; [|contradiction].
    rewrite S. assert (i' = i) by congruence. subst i'.
    now apply findById_after_delete. }
  split; [|split].
  - unfold deleteMusic at 1. now rewrite Hid, Gone.
  - intros req' P. unfold updateMusic. now rewrite P, Hid, Gone.
  - now apply findById_None_ids.
Qed.

(** X24: a record just created can be deleted again.  After a create
    answered 201 under a generated id that is new and that the id parser
    reads back, in a collection with distinct ids, a delete of that id
    whose cleanups raise nothing answers with the success message, the
    collection is again what it was before the create, and no entry is
    left under the sanitized names of the two stored URLs. *)
Theorem create_then_delete (req del : request) (w : world) :
  status_of (fst (createMusic req w)) = 201 ->
  ~ In (freshId (map _id (musics w))) (map _id (musics w)) ->
  castObjectId (JStr (param del)) = Some (freshId (map _id (musics w))) ->
  (forall a, file (req_files req) = Some a ->
             removable (uploads w) (uploadUrl a) = true) ->
  (forall t, thumbnail (req_files req) = Some t ->
             removable (uploads w) (uploadUrl t) = true) ->
  fst (deleteMusic del (snd (createMusic req w)))
  = Json 200 (Message "Music deleted successfully")
  /\ musics (snd (deleteMusic del (snd (createMusic req w)))) = musics w
  /\ (forall a n, file (req_files req) = Some a ->
                  cleanupTarget (uploadUrl a) = Some n ->
                  lookup (uploads (snd (deleteMusic del
                                          (snd (createMusic req w))))) n
                  = None).
Proof.
  intros Created Fresh Hdel Ra Rt.
  revert Created. unfold createMusic.
  destruct (Nat.ltb 0 (List.length (missingFields req))); [discriminate|].
  destruct (Nat.ltb 1000 _); [discriminate|].
  destruct (castObjectId (get (body req) "category")) as [c|];
    [|discriminate].
  destruct (castObjectId (get (body req) "categoryType")) as [ct|];
    [|discriminate].
  destruct (file (req_files req)) as [a|] eqn:Ha; [|discriminate].
  intros _. cbn [snd].
  match goal with
  | |- context [with_musics (musics w ++ [?d]) w] => set (doc := d)
  end.
  set (w' := with_musics (musics w ++ [doc]) w).
  assert (Found : findById (musics w') (freshId (map _id (musics w)))
                  = Some doc).
  { unfold w'. cbn [musics with_musics].
    rewrite findById_app, (findById_absent _ _ Fresh).
    unfold doc. cbn [_id]. now rewrite String.eqb_refl. }
  assert (Rf : removable (uploads w') (fileUrl doc) = true)
    by exact (Ra a eq_refl).
  assert (Rth : removable (uploads w') (thumbnailUrl doc) = true).
  { unfold doc. cbn [thumbnailUrl].
    destruct (thumbnail (req_files req)) as [t|]; [|reflexivity].
    exact (Rt t eq_refl). }
  destruct (deleteMusic_outcome del w' _ doc Hdel Found)
    as (Iff & Gone & Coll).
  assert (Ok : fst (deleteMusic del w')
               = Json 200 (Message "Music deleted successfully"))
    by (apply Iff; now split).
  split; [exact Ok|]. split.
  - rewrite (Coll Ok). unfold w'. cbn [musics with_musics].
    apply (findByIdAndDelete_snoc (musics w) doc). exact Fresh.
  - intros a' n [= <-] Hn. apply (Gone Ok). left. exact Hn.
Qed.

End Invariants.

Lemma url_fields_stay_typed_witness :
  forallb typed
    (musics (snd (updateMusic
                    (update_of [("fileUrl", JStr "/uploads/c.mp3")] audio_b)
                    one_track))) = true.
Proof.
  destruct (url_fields_stay_typed (ext := sample)
              (update_of [("fileUrl", JStr "/uploads/c.mp3")] audio_b)
              hosts one_track eq_refl) as (_ & _ & _ & H).
  apply H; reflexivity.
Defined.

Lemma deleted_record_is_gone_witness :
  deleteMusic (request_for id1 [] noFiles)
    (snd (deleteMusic (request_for id1 [] noFiles) uploaded_library))
  = (Thrown 404 (ErrorMessage "Music not found"),
     snd (deleteMusic (request_for id1 [] noFiles) uploaded_library)).
Proof.
  apply (deleted_record_is_gone (ext := sample)
           (request_for id1 [] noFiles) uploaded_library id1).
  - reflexivity.
  - simpl. repeat constructor. simpl. tauto.
  - reflexivity.
Defined.

Lemma create_then_delete_witness :
  musics (snd (deleteMusic
                 (request_for "000000000000000000000001" [] noFiles)
                 (snd (createMusic (described 10) one_track))))
  = musics one_track.
Proof.
  apply (create_then_delete (ext := sample) (described 10)
           (request_for "000000000000000000000001" [] noFiles) one_track).
  - reflexivity.
  - simpl. intuition discriminate.
  - reflexivity.
  - intros a [= <-]. reflexivity.
  - intros t H. discriminate H.
Defined.
